(** * django-db-views: view and field-comment migration detection

    A shallow embedding of [django_db_views/operations.py] and of the
    view-related part of [django_db_views/autodetector.py], followed by the
    properties of the change detector that are established on it.

    Conventions of the embedding.
    - A Python [str] is a [string]; one [ascii] stands for one code point
      below 256, so the character classes used by [str.strip] and
      [str.lower] are those of Python restricted to that range.
    - A Python [dict] is an association list in insertion order whose keys
      are bound at most once by the dict operations ([dict_set],
      [dict_del]).
    - A call that may raise returns an [Outcome]: [Return v], [Raise e], or
      [Diverge] when the bounded unrolling of a [while] loop is used up. *)

From Stdlib Require Import List String Ascii Bool Arith Lia NArith.
Import ListNotations.
Local Open Scope string_scope.
Local Open Scope list_scope.
Local Open Scope nat_scope.

Set Implicit Arguments.
Set Warnings "-register-all".

(* ================================================================= *)
(** ** Python values the code relies on *)

Module Py.

(** [str.isspace] on one code point below 256: the C0 controls 9-13 and
    28-31, the space, NEL (133) and the no-break space (160). *)
Definition isspace (c : ascii) : bool :=
  let n := nat_of_ascii c in
  ((9 <=? n) && (n <=? 13)) || ((28 <=? n) && (n <=? 31))
  || (n =? 32) || (n =? 133) || (n =? 160).

Fixpoint lstrip_by (p : ascii -> bool) (s : string) : string :=
  match s with
  | EmptyString => EmptyString
  | String c t => if p c then lstrip_by p t else s
  end.

Fixpoint rstrip_by (p : ascii -> bool) (s : string) : string :=
  match s with
  | EmptyString => EmptyString
  | String c t =>
      match rstrip_by p t with
      | EmptyString => if p c then EmptyString else String c EmptyString
      | r => String c r
      end
  end.

Definition strip_by (p : ascii -> bool) (s : string) : string :=
  rstrip_by p (lstrip_by p s).

(** [s.strip()] *)
Definition strip (s : string) : string := strip_by isspace s.

Fixpoint mem_char (c : ascii) (chars : string) : bool :=
  match chars with
  | EmptyString => false
  | String d t => Ascii.eqb c d || mem_char c t
  end.

(** [s.strip(chars)] *)
Definition strip_chars (chars s : string) : string :=
  strip_by (fun c => mem_char c chars) s.

(** [str.lower] on one code point below 256: A-Z, and the Latin-1
    capitals 192-222 except the multiplication sign 215. *)
Definition lower_char (c : ascii) : ascii :=
  let n := nat_of_ascii c in
  if ((65 <=? n) && (n <=? 90))
     || ((192 <=? n) && (n <=? 222) && negb (n =? 215))
  then ascii_of_nat (n + 32) else c.

Fixpoint lower (s : string) : string :=
  match s with
  | EmptyString => EmptyString
  | String c t => String (lower_char c) (lower t)
  end.

(** [s.split(sep, 1)] for a one-character [sep] known to occur in [s]:
    the text before the first [sep] and the text after it. *)
Fixpoint split_once (sep : ascii) (s : string) : option (string * string) :=
  match s with
  | EmptyString => None
  | String c t =>
      if Ascii.eqb c sep then Some (EmptyString, t)
      else match split_once sep t with
           | Some (a, b) => Some (String c a, b)
           | None => None
           end
  end.

(** [sep in s] *)
Definition contains_char (sep : ascii) (s : string) : bool :=
  mem_char sep s.

Inductive Exception : Type :=
| AssertionError
| KeyError
| NotImplementedError
| AttributeError.

End Py.

Inductive Outcome (A : Type) : Type :=
| Return (a : A)
| Raise (e : Py.Exception)
| Diverge.

Arguments Return {A} a.
Arguments Raise {A} e.
Arguments Diverge {A}.

Definition bind {A B : Type} (m : Outcome A) (k : A -> Outcome B) : Outcome B :=
  match m with
  | Return a => k a
  | Raise e => Raise e
  | Diverge => Diverge
  end.

Notation "x <- m ;; k" := (bind m (fun x => k))
  (at level 61, m at next level, right associativity).

(** A [for] loop over [items] threading the state [st]; the first exception
    leaves the loop. *)
Fixpoint for_each {A S : Type} (body : A -> S -> Outcome S)
                  (items : list A) (st : S) : Outcome S :=
  match items with
  | [] => Return st
  | x :: rest => st' <- body x st ;; for_each body rest st'
  end.

(* ----------------------------------------------------------------- *)
(** *** Insertion-ordered dictionaries *)

Section Dict.
Variables K V : Type.
Variable eqb : K -> K -> bool.

Definition dict := list (K * V).

Fixpoint dict_get (d : dict) (k : K) : option V :=
  match d with
  | [] => None
  | (k', v) :: rest => if eqb k k' then Some v else dict_get rest k
  end.

(** [d[k] = v]: rebinds in place, or appends a new binding. *)
Fixpoint dict_set (d : dict) (k : K) (v : V) : dict :=
  match d with
  | [] => [(k, v)]
  | (k', v') :: rest =>
      if eqb k k' then (k', v) :: rest else (k', v') :: dict_set rest k v
  end.

(** [del d[k]]: [None] stands for the [KeyError] of an unbound key. *)
Fixpoint dict_del (d : dict) (k : K) : option dict :=
  match d with
  | [] => None
  | (k', v') :: rest =>
      if eqb k k' then Some rest
      else match dict_del rest k with
           | Some rest' => Some ((k', v') :: rest')
           | None => None
           end
  end.

Definition dict_mem (d : dict) (k : K) : bool :=
  match dict_get d k with Some _ => true | None => false end.

Definition dict_keys (d : dict) : list K := map fst d.
End Dict.

Definition pair_eqb (a b : string * string) : bool :=
  String.eqb (fst a) (fst b) && String.eqb (snd a) (snd b).

(* ================================================================= *)
(** ** Data model *)

(** Modelled from the spec: [django_db_views/db_view.py] is not among the
    sources. The two view kinds, [DBMaterializedView] and [DBView], are the
    class tags stored as [base_class] of a view state entry and tested with
    [issubclass] by the detector. *)
Inductive BaseClass : Type :=
| DBMaterializedView
| DBView.

(** Modelled from the spec: [django_db_views/migration_functions.py] is not
    among the sources. A forward or backward action carries the definition
    text and is tagged with the table name and the engine ([engine=None] by
    default); the detector reads them back as [code.view_definition],
    [code.table_name] and [code.view_engine]. *)
Inductive ViewMigrationClass : Type :=
| ForwardMaterializedViewMigration
| ForwardViewMigration
| BackwardMaterializedViewMigration
| BackwardViewMigration.

Record ViewMigration : Type := {
  migration_class : ViewMigrationClass;
  view_definition : string;
  table_name : string;
  view_engine : option string
}.

(** Modelled from the spec: the drop action of
    [django_db_views/migration_functions.py], built from a table name and
    an engine. *)
Inductive DropViewMigrationClass : Type :=
| DropMaterializedView
| DropView.

Record DropViewMigration : Type := {
  drop_class : DropViewMigrationClass;
  drop_table_name : string;
  drop_view_engine : option string
}.

(** A model field, reduced to its comment and the rest of its declaration. *)
Record Field : Type := {
  db_comment : option string;
  field_declaration : string
}.

(** The host's [FieldOperation(model_name, name, field=None)]. *)
Record FieldOperation : Type := {
  model_name : string;
  name : string;
  field : option Field
}.

Inductive HostFieldKind : Type :=
| AddField
| AlterField
| RemoveField
| RenameField.

(** Migration operations: those of [operations.py], the host's
    [SeparateDatabaseAndState] wrapper, the host's field operations and any
    other host operation. *)
Inductive Operation : Type :=
| ViewRunPython (code reverse_code : ViewMigration) (atomic : bool)
| ViewDropRunPython (code : DropViewMigration) (reverse_code : ViewMigration)
                    (atomic : bool)
| SeparateDatabaseAndState (database_operations state_operations : list Operation)
| AddFieldComment (f : FieldOperation) (preserve_default : bool)
| AlterFieldComment (f : FieldOperation) (preserve_default : bool)
| RemoveFieldComment (f : FieldOperation)
| HostFieldOperation (kind : HostFieldKind) (f : FieldOperation)
| HostOperation (description : string).

(** [isinstance(op, ViewRunPython)] *)
Definition is_ViewRunPython (op : Operation) : bool :=
  match op with
  | ViewRunPython _ _ _ => true
  | _ => false
  end.

(** [isinstance(op, operations.fields.FieldOperation)], with the fields of
    the base class when it holds. *)
Definition as_FieldOperation (op : Operation) : option FieldOperation :=
  match op with
  | AddFieldComment f _ => Some f
  | AlterFieldComment f _ => Some f
  | RemoveFieldComment f => Some f
  | HostFieldOperation _ f => Some f
  | _ => None
  end.

(* ----------------------------------------------------------------- *)
(** *** Model state *)

(** The attributes [DBViewModelState.__init__] attaches. Entries are those
    built by [ViewRunPython.state_forwards], which passes a table name, a
    definition and a base class; the engine is whatever the action holds. *)
Record ViewAttributes : Type := {
  state_view_engine : option string;
  state_view_definition : string;
  state_base_class : BaseClass;
  state_table_name : string
}.

(** A [DBViewModelState]: the [app_label] and [name] of the host's
    [ModelState] (its fields, options, bases and managers are passed empty)
    and, when they were attached, the view attributes. *)
Record DBViewModelState : Type := {
  view_app_label : string;
  view_name : string;
  view_attributes : option ViewAttributes
}.

Inductive Base : Type :=
| BaseString (reference : string)
| BaseClassObject.

Record ModelState : Type := {
  app_label : string;
  model_state_name : string;
  bases : list Base
}.

(** An entry of [ProjectState.models]. *)
Inductive StateEntry : Type :=
| PlainModelState (m : ModelState)
| ViewModelState (v : DBViewModelState).

(** The host's [ProjectState], reduced to its [models] mapping, keyed by
    [(app_label, model_name)]. *)
Definition ProjectState : Type := dict (string * string) StateEntry.

Definition entry_key (e : StateEntry) : string * string :=
  match e with
  | PlainModelState m => (app_label m, Py.lower (model_state_name m))
  | ViewModelState v => (view_app_label v, Py.lower (view_name v))
  end.

(** [ProjectState.add_model]: binds the entry under
    [(app_label, name_lower)]. *)
Definition add_model (state : ProjectState) (e : StateEntry) : ProjectState :=
  dict_set pair_eqb state (entry_key e) e.

(** [ProjectState.remove_model]: [del self.models[app_label, model_name]]. *)
Definition remove_model (state : ProjectState) (app model : string)
  : Outcome ProjectState :=
  match dict_del pair_eqb state (app, model) with
  | Some state' => Return state'
  | None => Raise Py.KeyError
  end.

(* ================================================================= *)
(** ** [operations.py] *)

(** The text an f-string gives for an engine: [None] prints as its name. *)
Definition format_engine (engine : option string) : string :=
  match engine with
  | Some e => e
  | None => "None"
  end.

(** [get_table_engine_name_hash], operations.py:17-18. *)
Definition get_table_engine_name_hash (table : string) (engine : option string)
  : string :=
  Py.lower (table ++ "_" ++ format_engine engine)%string.

(** [DBViewModelState.__init__], operations.py:22-38; [is_view_migration]
    is the value of [VIEW_MIGRATION_CONTEXT["is_view_migration"]] at the
    call. *)
Definition DBViewModelState_init (is_view_migration : bool)
    (app name : string) (engine : option string) (definition table : string)
    (base : BaseClass) : DBViewModelState :=
  {| view_app_label := app;
     view_name := name;
     view_attributes :=
       if is_view_migration
       then Some {| state_view_engine := engine;
                    state_view_definition := definition;
                    state_base_class := base;
                    state_table_name := table |}
       else None |}.

(** [ViewRunPython.state_forwards], operations.py:44-71. *)
Definition ViewRunPython_state_forwards (is_view_migration : bool)
    (code : ViewMigration) (app : string) (state : ProjectState)
  : Outcome ProjectState :=
  if is_view_migration then
    model <- match migration_class code with
             | ForwardMaterializedViewMigration => Return DBMaterializedView
             | ForwardViewMigration => Return DBView
             | _ => Raise Py.NotImplementedError
             end ;;
    Return (add_model state
              (ViewModelState
                 (DBViewModelState_init is_view_migration app
                    (get_table_engine_name_hash (table_name code)
                                                (view_engine code))
                    (view_engine code) (view_definition code)
                    (table_name code) model)))
  else Return state.

(** [ViewDropRunPython.state_forwards], operations.py:78-83. *)
Definition ViewDropRunPython_state_forwards (is_view_migration : bool)
    (code : DropViewMigration) (app : string) (state : ProjectState)
  : Outcome ProjectState :=
  if is_view_migration then
    remove_model state app
      (get_table_engine_name_hash (drop_table_name code)
                                  (drop_view_engine code))
  else Return state.

(** What [Operation.reduce] gives: a list of replacement operations, or a
    boolean. *)
Inductive Reduction : Type :=
| Replaced (ops : list Operation)
| Passes (through : bool).

(** The host's [FieldOperation.is_same_field_operation]. *)
Definition is_same_field_operation (self other : FieldOperation) : bool :=
  String.eqb (Py.lower (model_name self)) (Py.lower (model_name other))
  && String.eqb (Py.lower (name self)) (Py.lower (name other)).

(** [AddFieldComment.reduce], operations.py:149-162; [super_reduce] is the
    host's [AddField.reduce], reached by
    [super().reduce(operation, app_label)]. *)
Definition AddFieldComment_reduce
    (super_reduce : FieldOperation -> Operation -> string -> Reduction)
    (self : FieldOperation) (operation : Operation) (app : string)
  : Reduction :=
  match as_FieldOperation operation with
  | Some other =>
      if is_same_field_operation self other then
        match operation with
        | AlterFieldComment _ _ =>
            Replaced [AddFieldComment {| model_name := model_name self;
                                         name := name other;
                                         field := field other |} true]
        | _ => super_reduce self operation app
        end
      else super_reduce self operation app
  | None => super_reduce self operation app
  end.

(* ================================================================= *)
(** ** [autodetector.py] *)

(** [is_same_views], autodetector.py:194-206; [sqlparse_format] stands for
    the third-party call
    [sqlparse.format(s, compact=True, keyword_case="upper",
    identifier_case="lower", reindent=True, strip_comments=True)]. *)
Definition sql_normalize (sqlparse_format : string -> string) (s : string)
  : string :=
  Py.strip (sqlparse_format s).

Definition is_same_views (sqlparse_format : string -> string)
    (current new : string) : bool :=
  String.eqb (sql_normalize sqlparse_format current)
             (sql_normalize sqlparse_format new).

(** What a model may hold as [view_definition]. A zero-argument callable is
    given by the value its call returns. *)
Inductive PyValue : Type :=
| PyStr (s : string)
| PyDict (items : list (string * PyValue))
| PyCallable (returns : PyValue)
| PyNone.

(** [get_cleaned_view_definition_value], autodetector.py:356-361. *)
Definition get_cleaned_view_definition_value (v : PyValue) : Outcome string :=
  match v with
  | PyStr s => Return (Py.strip s)
  | _ => Raise Py.AssertionError
  end.

(** Body of the loop over the items of a declared mapping. *)
Definition clean_item (item : string * PyValue)
    (view_definitions : dict string string) : Outcome (dict string string) :=
  cleaned <- get_cleaned_view_definition_value (snd item) ;;
  Return (dict_set String.eqb view_definitions (fst item) cleaned).

(** [get_view_definition_from_model], autodetector.py:270-288, on the
    model's [view_definition];
    [default_engine] is [settings.DATABASES["default"]["ENGINE"]]. The
    first component counts the calls made to callables. *)
Definition get_view_definition_from_model (default_engine : string)
    (declared : PyValue) : nat * Outcome (dict string string) :=
  let (calls, raw_view_definition) :=
    match declared with
    | PyCallable returns => (1, returns)
    | _ => (0, declared)
    end in
  (calls,
   match raw_view_definition with
   | PyDict items => for_each clean_item items []
   | _ =>
       cleaned <- get_cleaned_view_definition_value raw_view_definition ;;
       Return (dict_set String.eqb [] default_engine cleaned)
   end).

(* ----------------------------------------------------------------- *)
(** *** The host's migration graph *)

Definition NodeKey : Type := string * string.

Record Migration : Type := {
  operations : list Operation
}.

Record Node : Type := {
  parents : list NodeKey
}.

(** The host's [MigrationGraph] as the walker consumes it:
    [leaf_nodes(app_label)], [nodes[key]] and [node_map[key]]; a key that
    is not bound gives [None]. *)
Record MigrationGraph : Type := {
  leaf_nodes : string -> list NodeKey;
  nodes : NodeKey -> option Migration;
  node_map : NodeKey -> option Node
}.

(** Order of Python tuples of two strings: by the first component, then by
    the second. *)
Definition node_leb (a b : NodeKey) : bool :=
  match String.compare (fst a) (fst b) with
  | Lt => true
  | Eq => String.leb (snd a) (snd b)
  | Gt => false
  end.

Fixpoint insert_sorted (x : NodeKey) (l : list NodeKey) : list NodeKey :=
  match l with
  | [] => [x]
  | y :: rest => if node_leb x y then x :: l else y :: insert_sorted x rest
  end.

(** [sorted(l)] *)
Fixpoint sorted (l : list NodeKey) : list NodeKey :=
  match l with
  | [] => []
  | x :: rest => insert_sorted x (sorted rest)
  end.

(** [l[-1]] of a list that may be empty *)
Fixpoint last_item (l : list NodeKey) : option NodeKey :=
  match l with
  | [] => None
  | [x] => Some x
  | _ :: rest => last_item rest
  end.

(* ----------------------------------------------------------------- *)
(** *** The graph walker *)

(** [list(sorted(filter(lambda x: x[0] == app_label, parents)))] *)
Definition app_parents (app : string) (ps : list NodeKey) : list NodeKey :=
  sorted (filter (fun x => String.eqb (fst x) app) ps).

(** [_get_view_identifiers_from_operation], autodetector.py:348-354, on the
    [code] of the operation; an engine that is missing, [None] or empty
    gives the default engine. *)
Definition _get_view_identifiers_from_operation (default_engine : string)
    (code : ViewMigration) : string * string :=
  (table_name code,
   match view_engine code with
   | Some e => if String.eqb e "" then default_engine else e
   | None => default_engine
   end).

(** [table_name == for_table_name and previous_view_engine == engine] *)
Definition matches_view (default_engine for_table_name engine : string)
    (code : ViewMigration) : bool :=
  let (table, previous_view_engine) :=
    _get_view_identifiers_from_operation default_engine code in
  String.eqb table for_table_name && String.eqb previous_view_engine engine.

Definition code_of (op : Operation) : option ViewMigration :=
  match op with
  | ViewRunPython code _ _ => Some code
  | _ => None
  end.

(** The [for operation in migration.operations] loop of
    [get_previous_view_definition_state], autodetector.py:299-333:
    [Return (Some d)] when the loop returns [d], [Return None] when it
    falls through. *)
Fixpoint scan_operations (default_engine for_table_name engine : string)
    (ops : list Operation) : Outcome (option string) :=
  match ops with
  | [] => Return None
  | ViewRunPython code _ _ :: rest =>
      if matches_view default_engine for_table_name engine code
      then Return (Some (Py.strip (view_definition code)))
      else scan_operations default_engine for_table_name engine rest
  | SeparateDatabaseAndState database_operations _ :: rest =>
      match filter is_ViewRunPython database_operations with
      | [] => scan_operations default_engine for_table_name engine rest
      | view_operation :: others =>
          if List.length (view_operation :: others) <=? 1 then
            match code_of view_operation with
            | Some code =>
                if matches_view default_engine for_table_name engine code
                then Return (Some (Py.strip (view_definition code)))
                else scan_operations default_engine for_table_name engine rest
            | None => scan_operations default_engine for_table_name engine rest
            end
          else Raise Py.AssertionError
      end
  | _ :: rest => scan_operations default_engine for_table_name engine rest
  end.

(** The [while last_node] loop, autodetector.py:296-345, unrolled at most
    [fuel] times. *)
Fixpoint walk (fuel : nat) (default_engine : string) (graph : MigrationGraph)
    (app for_table_name engine : string) (last_node : option NodeKey)
  : Outcome string :=
  match last_node with
  | None => Return ""%string
  | Some node =>
      match fuel with
      | 0 => Diverge
      | S fuel' =>
          migration <- match nodes graph node with
                       | Some m => Return m
                       | None => Raise Py.KeyError
                       end ;;
          found <- scan_operations default_engine for_table_name engine
                                   (operations migration) ;;
          match found with
          | Some definition => Return definition
          | None =>
              entry <- match node_map graph node with
                       | Some n => Return n
                       | None => Raise Py.KeyError
                       end ;;
              walk fuel' default_engine graph app for_table_name engine
                   (last_item (app_parents app (parents entry)))
          end
      end
  end.

(** [get_previous_view_definition_state], autodetector.py:290-346. *)
Definition get_previous_view_definition_state (fuel : nat)
    (default_engine : string) (graph : MigrationGraph)
    (app for_table_name engine : string) : Outcome string :=
  walk fuel default_engine graph app for_table_name engine
       (hd_error (leaf_nodes graph app)).

(* ----------------------------------------------------------------- *)
(** *** The detector *)

(** A model class of [apps.all_models]: its [_meta.db_table], the view kind
    it derives from (if any) and its declared [view_definition]. *)
Record ModelClass : Type := {
  db_table : string;
  model_base : option BaseClass;
  declared_view_definition : PyValue
}.

Definition AllModels : Type := dict string (dict string ModelClass).

(** Modelled from the spec: [DBViewsRegistry] of
    [django_db_views/db_view.py], the process-wide set of declared view
    table names, queried with [in]. *)
Definition DBViewsRegistry : Type := list string.

Definition in_registry (registry : DBViewsRegistry) (table : string) : bool :=
  existsb (String.eqb table) registry.

(** A dependency tuple [(app_label, model_name, field_name, create)]. *)
Definition Dependency : Type := string * string * option string * bool.

(** An operation with the [_auto_deps] that [add_operation] attaches. *)
Definition GeneratedOperation : Type := Operation * list Dependency.

Definition GeneratedOperations : Type := dict string (list GeneratedOperation).

(** The host's [add_operation(app_label, operation, dependencies)]:
    appends to [generated_operations.setdefault(app_label, [])]. *)
Definition add_operation (generated : GeneratedOperations) (app : string)
    (operation : Operation) (dependencies : list Dependency)
  : GeneratedOperations :=
  let previous :=
    match dict_get String.eqb generated app with
    | Some ops => ops
    | None => []
    end in
  dict_set String.eqb generated app (previous ++ [(operation, dependencies)]).

(** [get_current_view_models], autodetector.py:184-192. *)
Definition get_current_view_models (registry : DBViewsRegistry)
    (all_models : AllModels) : dict (string * string) ModelClass :=
  fold_left
    (fun view_models (by_app : string * dict string ModelClass) =>
       fold_left
         (fun view_models (by_name : string * ModelClass) =>
            if in_registry registry (db_table (snd by_name))
            then dict_set pair_eqb view_models (fst by_app, fst by_name)
                          (snd by_name)
            else view_models)
         (snd by_app) view_models)
    all_models [].

(** [get_previous_view_models_state], autodetector.py:168-174. *)
Definition get_previous_view_models_state (from_state : ProjectState)
  : dict (string * string) DBViewModelState :=
  fold_left
    (fun view_models (item : (string * string) * StateEntry) =>
       match snd item with
       | ViewModelState v => dict_set pair_eqb view_models (fst item) v
       | PlainModelState _ => view_models
       end)
    from_state [].

(** [get_forward_migration_class], [get_backward_migration_class] and
    [get_drop_migration_class], autodetector.py:244-268; [model] is the view
    kind the class derives from, [None] when it derives from neither. *)
Definition get_forward_migration_class (model : option BaseClass)
  : Outcome ViewMigrationClass :=
  match model with
  | Some DBMaterializedView => Return ForwardMaterializedViewMigration
  | Some DBView => Return ForwardViewMigration
  | None => Raise Py.NotImplementedError
  end.

Definition get_backward_migration_class (model : option BaseClass)
  : Outcome ViewMigrationClass :=
  match model with
  | Some DBMaterializedView => Return BackwardMaterializedViewMigration
  | Some DBView => Return BackwardViewMigration
  | None => Raise Py.NotImplementedError
  end.

Definition get_drop_migration_class (model : option BaseClass)
  : Outcome DropViewMigrationClass :=
  match model with
  | Some DBMaterializedView => Return DropMaterializedView
  | Some DBView => Return DropView
  | None => Raise Py.NotImplementedError
  end.

Definition entry_bases (e : StateEntry) : list Base :=
  match e with
  | PlainModelState m => bases m
  | ViewModelState _ => []
  end.

(** The dependencies on the string-form bases, ["label.Name"]. *)
Fixpoint base_dependencies (l : list Base) : list Dependency :=
  match l with
  | [] => []
  | BaseString reference :: rest =>
      if Py.contains_char "."%char reference then
        match Py.split_once "."%char reference with
        | Some (base_app_label, base_name) =>
            (base_app_label, base_name, None, true) :: base_dependencies rest
        | None => base_dependencies rest
        end
      else base_dependencies rest
  | BaseClassObject :: rest => base_dependencies rest
  end.

(** The environment of one detection pass; [loop_bound] bounds the
    unrolling of the walker's loop. *)
Record Detection : Type := {
  sqlparse_format : string -> string;
  default_engine : string;
  registry : DBViewsRegistry;
  all_models : AllModels;
  from_state : ProjectState;
  to_state : ProjectState;
  loop_bound : nat
}.

(** Body of the inner loop of [generate_views_operations],
    autodetector.py:213-242, for one [(engine, latest_view_definition)]
    item of one model. *)
Definition generate_view_operation (env : Detection) (graph : MigrationGraph)
    (app model : string) (view_model : ModelClass)
    (item : string * string) (generated : GeneratedOperations)
  : Outcome GeneratedOperations :=
  let (engine, latest_view_definition) := item in
  current_view_definition <-
    get_previous_view_definition_state (loop_bound env) (default_engine env)
      graph app (db_table view_model) engine ;;
  if negb (is_same_views (sqlparse_format env) current_view_definition
                         latest_view_definition)
  then
    model_state <- match dict_get pair_eqb (to_state env) (app, model) with
                   | Some e => Return e
                   | None => Raise Py.KeyError
                   end ;;
    let dependencies := base_dependencies (entry_bases model_state) in
    forward <- get_forward_migration_class (model_base view_model) ;;
    backward <- get_backward_migration_class (model_base view_model) ;;
    Return (add_operation generated app
              (ViewRunPython
                 {| migration_class := forward;
                    view_definition := Py.strip_chars ";" latest_view_definition;
                    table_name := db_table view_model;
                    view_engine := Some engine |}
                 {| migration_class := backward;
                    view_definition := Py.strip_chars ";" current_view_definition;
                    table_name := db_table view_model;
                    view_engine := Some engine |}
                 false)
              dependencies)
  else Return generated.

(** Body of the outer loop of [generate_views_operations],
    autodetector.py:211-242, for one model. *)
Definition generate_model_views_operations (env : Detection)
    (graph : MigrationGraph) (item : (string * string) * ModelClass)
    (generated : GeneratedOperations) : Outcome GeneratedOperations :=
  let '((app, model), view_model) := item in
  new_view_definition <-
    snd (get_view_definition_from_model (default_engine env)
           (declared_view_definition view_model)) ;;
  for_each (generate_view_operation env graph app model view_model)
           new_view_definition generated.

(** [generate_views_operations], autodetector.py:208-242. *)
Definition generate_views_operations (env : Detection)
    (graph : MigrationGraph) (generated : GeneratedOperations)
  : Outcome GeneratedOperations :=
  for_each (generate_model_views_operations env graph)
           (get_current_view_models (registry env) (all_models env))
           generated.

(** Body of the loop of [delete_old_views], autodetector.py:152-166, for
    one previous view entry. *)
Definition delete_old_view (env : Detection)
    (item : (string * string) * DBViewModelState)
    (generated : GeneratedOperations) : Outcome GeneratedOperations :=
  let '((app, _), model_state) := item in
  match view_attributes model_state with
  | None => Raise Py.AttributeError
  | Some attributes =>
      if negb (in_registry (registry env) (state_table_name attributes))
      then
        drop <- get_drop_migration_class (Some (state_base_class attributes)) ;;
        backward <-
          get_backward_migration_class (Some (state_base_class attributes)) ;;
        Return (add_operation generated app
                  (ViewDropRunPython
                     {| drop_class := drop;
                        drop_table_name := state_table_name attributes;
                        drop_view_engine := state_view_engine attributes |}
                     {| migration_class := backward;
                        view_definition := state_view_definition attributes;
                        table_name := state_table_name attributes;
                        view_engine := state_view_engine attributes |}
                     false)
                  [])
      else Return generated
  end.

(** [delete_old_views], autodetector.py:150-166. *)
Definition delete_old_views (env : Detection)
    (generated : GeneratedOperations) : Outcome GeneratedOperations :=
  for_each (delete_old_view env)
           (get_previous_view_models_state (from_state env))
           generated.

(* ================================================================= *)
(** ** Declarative readings used by the statements *)

(** Every character of [s] satisfies [p]. *)
Fixpoint all_chars (p : ascii -> bool) (s : string) : bool :=
  match s with
  | EmptyString => true
  | String c t => p c && all_chars p t
  end.

Definition first_char (s : string) : option ascii :=
  match s with
  | EmptyString => None
  | String c _ => Some c
  end.

Fixpoint last_char (s : string) : option ascii :=
  match s with
  | EmptyString => None
  | String c EmptyString => Some c
  | String _ t => last_char t
  end.

Definition is_space_opt (c : option ascii) : bool :=
  match c with
  | Some c => Py.isspace c
  | None => false
  end.

(** A declared mapping of engines to strings, and its stripped form. *)
Definition clean_pair (item : string * string) : string * string :=
  (fst item, Py.strip (snd item)).

Definition declare_pair (item : string * string) : string * PyValue :=
  (fst item, PyStr (snd item)).

Definition is_str (v : PyValue) : bool :=
  match v with
  | PyStr _ => true
  | _ => false
  end.

Definition is_callable (v : PyValue) : bool :=
  match v with
  | PyCallable _ => true
  | _ => false
  end.

(** The codes of the view operations of a list, in order. *)
Fixpoint view_codes (ops : list Operation) : list ViewMigration :=
  match ops with
  | [] => []
  | ViewRunPython code _ _ :: rest => code :: view_codes rest
  | _ :: rest => view_codes rest
  end.

(** The recorded definitions of the view operations of a migration that
    match [(for_table_name, engine)], in program order: the top-level view
    operations and those on the database side of a composite wrapper. *)
Fixpoint matching_definitions (default_engine for_table_name engine : string)
    (ops : list Operation) : list string :=
  match ops with
  | [] => []
  | ViewRunPython code _ _ :: rest =>
      (if matches_view default_engine for_table_name engine code
       then [view_definition code] else [])
      ++ matching_definitions default_engine for_table_name engine rest
  | SeparateDatabaseAndState database_operations _ :: rest =>
      map view_definition
          (filter (matches_view default_engine for_table_name engine)
                  (view_codes database_operations))
      ++ matching_definitions default_engine for_table_name engine rest
  | _ :: rest => matching_definitions default_engine for_table_name engine rest
  end.

(** A composite wrapper holds at most one view operation on its database
    side. *)
Definition wrapper_ok (op : Operation) : bool :=
  match op with
  | SeparateDatabaseAndState database_operations _ =>
      List.length (view_codes database_operations) <=? 1
  | _ => true
  end.

Definition wrappers_ok (ops : list Operation) : bool := forallb wrapper_ok ops.

(** A migration the walk passes through: its wrappers are in order and it
    records nothing for [(for_table_name, engine)]. *)
Definition silent (default_engine for_table_name engine : string)
    (m : Migration) : Prop :=
  wrappers_ok (operations m) = true
  /\ matching_definitions default_engine for_table_name engine (operations m) = [].

(** [ascending l]: each item is below all the items after it. *)
Fixpoint ascending (l : list NodeKey) : Prop :=
  match l with
  | [] => True
  | x :: rest => (forall y, In y rest -> node_leb x y = true) /\ ascending rest
  end.

(** [p] is the greatest parent of application [app] among [ps]. *)
Definition greatest_app_parent (app : string) (ps : list NodeKey) (p : NodeKey)
  : Prop :=
  In p ps /\ fst p = app
  /\ forall q, In q ps -> fst q = app -> node_leb q p = true.

Definition no_app_parent (app : string) (ps : list NodeKey) : Prop :=
  forall q, In q ps -> fst q <> app.

(** [walks_back k n n']: from node [n], [k] steps, each to the greatest
    parent of the same application, through silent migrations, lead to
    [n']. *)
Inductive walks_back (default_engine : string) (graph : MigrationGraph)
    (app for_table_name engine : string) : nat -> NodeKey -> NodeKey -> Prop :=
| walks_here : forall n,
    walks_back default_engine graph app for_table_name engine 0 n n
| walks_up : forall k n m e p n',
    nodes graph n = Some m ->
    silent default_engine for_table_name engine m ->
    node_map graph n = Some e ->
    greatest_app_parent app (parents e) p ->
    walks_back default_engine graph app for_table_name engine k p n' ->
    walks_back default_engine graph app for_table_name engine (S k) n n'.

(** A linear history of one application, newest migration first: each
    migration has the next one of the list as its only parent. *)
Fixpoint history_migration (history : list (string * Migration)) (name : string)
  : option Migration :=
  match history with
  | [] => None
  | (n, m) :: older =>
      if String.eqb name n then Some m else history_migration older name
  end.

Fixpoint history_node (app : string) (history : list (string * Migration))
    (name : string) : option Node :=
  match history with
  | [] => None
  | (n, _) :: older =>
      if String.eqb name n
      then Some {| parents := match older with
                              | [] => []
                              | (p, _) :: _ => [(app, p)]
                              end |}
      else history_node app older name
  end.

Definition linear_graph (app : string) (history : list (string * Migration))
  : MigrationGraph :=
  {| leaf_nodes := fun a =>
       if String.eqb a app
       then match history with
            | [] => []
            | (n, _) :: _ => [(app, n)]
            end
       else [];
     nodes := fun key =>
       if String.eqb (fst key) app then history_migration history (snd key)
       else None;
     node_map := fun key =>
       if String.eqb (fst key) app then history_node app history (snd key)
       else None |}.

(** The view operations recorded under [app] that are tagged with
    [(table, engine)]. *)
Definition tagged (table engine : string) (g : GeneratedOperation) : bool :=
  match fst g with
  | ViewRunPython code _ _ =>
      String.eqb (table_name code) table
      && match view_engine code with
         | Some e => String.eqb e engine
         | None => false
         end
  | _ => false
  end.

Definition operations_of (generated : GeneratedOperations) (app : string)
  : list GeneratedOperation :=
  match dict_get String.eqb generated app with
  | Some ops => ops
  | None => []
  end.

Definition tagged_operations (generated : GeneratedOperations)
    (app table engine : string) : list GeneratedOperation :=
  filter (tagged table engine) (operations_of generated app).

(** The view entries of a snapshot, in its order. *)
Fixpoint view_entries (state : ProjectState)
  : list ((string * string) * DBViewModelState) :=
  match state with
  | [] => []
  | (key, ViewModelState v) :: rest => (key, v) :: view_entries rest
  | (_, PlainModelState _) :: rest => view_entries rest
  end.

(** Recording a list of operations, each under its application. *)
Definition emit (generated : GeneratedOperations)
    (emitted : list (string * GeneratedOperation)) : GeneratedOperations :=
  fold_left (fun g x => add_operation g (fst x) (fst (snd x)) (snd (snd x)))
            emitted generated.

(** The previous view entries that carry attributes and whose table is no
    longer in the registry, in the order of the snapshot. *)
Fixpoint removed_views (registry : DBViewsRegistry) (state : ProjectState)
  : list (string * ViewAttributes) :=
  match state with
  | [] => []
  | (key, ViewModelState v) :: rest =>
      match view_attributes v with
      | Some a =>
          if in_registry registry (state_table_name a)
          then removed_views registry rest
          else (fst key, a) :: removed_views registry rest
      | None => removed_views registry rest
      end
  | (_, PlainModelState _) :: rest => removed_views registry rest
  end.

Definition backward_class_of (b : BaseClass) : ViewMigrationClass :=
  match b with
  | DBMaterializedView => BackwardMaterializedViewMigration
  | DBView => BackwardViewMigration
  end.

Definition forward_class_of (b : BaseClass) : ViewMigrationClass :=
  match b with
  | DBMaterializedView => ForwardMaterializedViewMigration
  | DBView => ForwardViewMigration
  end.

Definition drop_class_of (b : BaseClass) : DropViewMigrationClass :=
  match b with
  | DBMaterializedView => DropMaterializedView
  | DBView => DropView
  end.

(** The Drop pair expected for a removed view entry. *)
Definition drop_pair (a : ViewAttributes) : Operation :=
  ViewDropRunPython
    {| drop_class := drop_class_of (state_base_class a);
       drop_table_name := state_table_name a;
       drop_view_engine := state_view_engine a |}
    {| migration_class := backward_class_of (state_base_class a);
       view_definition := state_view_definition a;
       table_name := state_table_name a;
       view_engine := state_view_engine a |}
    false.

Definition emitted_drop (x : string * ViewAttributes)
  : string * GeneratedOperation :=
  (fst x, (drop_pair (snd x), [])).

(** The Create/Replace pair expected for a view of kind [base] whose
    definition goes from [previous] to [latest]. *)
Definition create_pair (base : BaseClass) (previous latest table engine : string)
  : Operation :=
  ViewRunPython
    {| migration_class := forward_class_of base;
       view_definition := Py.strip_chars ";" latest;
       table_name := table;
       view_engine := Some engine |}
    {| migration_class := backward_class_of base;
       view_definition := Py.strip_chars ";" previous;
       table_name := table;
       view_engine := Some engine |}
    false.

(** Every view entry of a snapshot carries its attributes, as the entries
    added by [ViewRunPython.state_forwards] do. *)
Definition views_attributed (state : ProjectState) : Prop :=
  forall key v, In (key, ViewModelState v) state -> view_attributes v <> None.

(* ================================================================= *)
(** ** Further readings of the walker and of the detector *)

(** What the walker looks at in an operation: a view operation as it is, a
    composite wrapper reduced to the view operations of its database
    side. *)
Definition walker_sees (op : Operation) : bool :=
  match op with
  | ViewRunPython _ _ _ => true
  | SeparateDatabaseAndState _ _ => true
  | _ => false
  end.

Definition walker_view (op : Operation) : Operation :=
  match op with
  | SeparateDatabaseAndState database_operations _ =>
      SeparateDatabaseAndState (filter is_ViewRunPython database_operations) []
  | _ => op
  end.

Definition prune_operations (ops : list Operation) : list Operation :=
  map walker_view (filter walker_sees ops).

(** The graph with every migration reduced to what the walker looks at. *)
Definition prune_graph (graph : MigrationGraph) : MigrationGraph :=
  {| leaf_nodes := leaf_nodes graph;
     nodes := fun key =>
       match nodes graph key with
       | Some m => Some {| operations := prune_operations (operations m) |}
       | None => None
       end;
     node_map := node_map graph |}.

(** The graph with the parents of other applications removed. *)
Definition restrict_graph (app : string) (graph : MigrationGraph)
  : MigrationGraph :=
  {| leaf_nodes := leaf_nodes graph;
     nodes := nodes graph;
     node_map := fun key =>
       match node_map graph key with
       | Some n =>
           Some {| parents := filter (fun x => String.eqb (fst x) app)
                                     (parents n) |}
       | None => None
       end |}.

(** [ranked app graph rank]: every parent of the application has a smaller
    rank than its child, as in a graph without cycle. *)
Definition ranked (app : string) (graph : MigrationGraph)
    (rank : NodeKey -> nat) : Prop :=
  forall n e p,
    node_map graph n = Some e -> In p (parents e) -> fst p = app ->
    rank p < rank n.

(** The model classes of [apps.all_models], each under its
    [(app_label, model_name)]. *)
Definition flatten_models (all_models : AllModels)
  : list ((string * string) * ModelClass) :=
  flat_map (fun by_app : string * dict string ModelClass =>
              map (fun by_name : string * ModelClass =>
                     ((fst by_app, fst by_name), snd by_name))
                  (snd by_app))
           all_models.

Definition semicolon (c : ascii) : bool := Py.mem_char c ";".

Definition not_semicolon (c : option ascii) : bool :=
  match c with
  | Some c => negb (semicolon c)
  | None => true
  end.

(** A generated operation that is a view pair is non-atomic and none of
    its two definitions starts or ends with [;]. *)
Definition tidy_pair (g : GeneratedOperation) : bool :=
  match fst g with
  | ViewRunPython code reverse_code atomic =>
      negb atomic
      && not_semicolon (first_char (view_definition code))
      && not_semicolon (last_char (view_definition code))
      && not_semicolon (first_char (view_definition reverse_code))
      && not_semicolon (last_char (view_definition reverse_code))
  | _ => true
  end.

Definition tidy (generated : GeneratedOperations) : Prop :=
  forall app ops g,
    In (app, ops) generated -> In g ops -> tidy_pair g = true.

(* ================================================================= *)
(** ** The comment executors of [operations.py] *)

(** The backend features the executors read. *)
Record Features : Type := {
  supports_comments : bool;
  supports_comments_inline : bool;
  connection_persists_old_columns : bool
}.

(** What the host's [_alter_column_comment_sql(model, field, new_type,
    new_db_comment)] is asked to build; [execute] receives it. *)
Record CommentStatement : Type := {
  statement_model : string;
  statement_field : Field;
  statement_type : option string;
  statement_comment : option string
}.

(** What happens to a schema editor: a statement executed, the connection
    closed, or a column handled by the host's own [add_field] or
    [remove_field]. *)
Inductive EditorEvent : Type :=
| Executed (statement : CommentStatement)
| ConnectionClosed
| HostAddedColumn (model : string) (f : Field)
| HostRemovedColumn (model : string) (f : Field).

(** A schema editor: its backend features, the events so far, and whether
    its [add_field] and [remove_field] attributes have been replaced by the
    comment executors. *)
Record SchemaEditor : Type := {
  features : Features;
  events : list EditorEvent;
  add_field_replaced : bool;
  remove_field_replaced : bool
}.

Definition record_event (editor : SchemaEditor) (e : EditorEvent)
  : SchemaEditor :=
  {| features := features editor;
     events := events editor ++ [e];
     add_field_replaced := add_field_replaced editor;
     remove_field_replaced := remove_field_replaced editor |}.

(** Truth value of [field.db_comment]: neither [None] nor empty. *)
Definition has_comment (f : Field) : bool :=
  match db_comment f with
  | Some c => negb (String.eqb c "")
  | None => false
  end.

(** [if features.connection_persists_old_columns: connection.close()] *)
Definition reset_connection (editor : SchemaEditor) : SchemaEditor :=
  if connection_persists_old_columns (features editor)
  then record_event editor ConnectionClosed
  else editor.

(** [add_field_comment], operations.py:86-104. *)
Definition add_field_comment (editor : SchemaEditor) (model : string)
    (f : Field) : SchemaEditor :=
  let editor' :=
    if has_comment f
       && supports_comments (features editor)
       && negb (supports_comments_inline (features editor))
    then record_event editor
           (Executed {| statement_model := model;
                        statement_field := f;
                        statement_type := None;
                        statement_comment := db_comment f |})
    else editor in
  reset_connection editor'.

(** [remove_field_comment], operations.py:107-123; [db_type f] is
    [field.db_parameters(connection=...)["type"]]. *)
Definition remove_field_comment (db_type : Field -> option string)
    (editor : SchemaEditor) (model : string) (f : Field) : SchemaEditor :=
  match db_type f with
  | None => editor
  | Some _ =>
      let editor' :=
        if has_comment f
           && supports_comments (features editor)
           && negb (supports_comments_inline (features editor))
        then record_event editor
               (Executed {| statement_model := model;
                            statement_field := f;
                            statement_type := None;
                            statement_comment := None |})
        else editor in
      reset_connection editor'
  end.

Definition comment_eqb (a b : option string) : bool :=
  match a, b with
  | Some x, Some y => String.eqb x y
  | None, None => true
  | _, _ => false
  end.

(** [_alter_field_comment], operations.py:184-205; [many_to_many f] is
    [field.many_to_many]. *)
Definition _alter_field_comment (many_to_many : Field -> bool)
    (editor : SchemaEditor) (model : string) (old_field new_field : Field)
    (new_type : option string) : SchemaEditor :=
  let editor' :=
    if supports_comments (features editor) && negb (many_to_many new_field)
    then if negb (comment_eqb (db_comment old_field) (db_comment new_field))
         then record_event editor
                (Executed {| statement_model := model;
                             statement_field := new_field;
                             statement_type := new_type;
                             statement_comment := db_comment new_field |})
         else editor
    else editor in
  reset_connection editor'.

(** [schema_editor.add_field(model, field)]: the comment executor once the
    attribute has been replaced, the host's method before. *)
Definition editor_add_field (editor : SchemaEditor) (model : string)
    (f : Field) : SchemaEditor :=
  if add_field_replaced editor then add_field_comment editor model f
  else record_event editor (HostAddedColumn model f).

(** [schema_editor.remove_field(model, field)] *)
Definition editor_remove_field (db_type : Field -> option string)
    (editor : SchemaEditor) (model : string) (f : Field) : SchemaEditor :=
  if remove_field_replaced editor
  then remove_field_comment db_type editor model f
  else record_event editor (HostRemovedColumn model f).

(** [AddFieldComment.database_forwards], operations.py:128-137, once the
    model and the field have been looked up: the editor's [add_field] is
    replaced, then called. *)
Definition AddFieldComment_database_forwards (editor : SchemaEditor)
    (from_model : string) (f : Field) : SchemaEditor :=
  editor_add_field
    {| features := features editor;
       events := events editor;
       add_field_replaced := true;
       remove_field_replaced := remove_field_replaced editor |}
    from_model f.

(** [RemoveFieldComment.database_forwards], operations.py:166-171. *)
Definition RemoveFieldComment_database_forwards
    (db_type : Field -> option string) (editor : SchemaEditor)
    (from_model : string) (f : Field) : SchemaEditor :=
  editor_remove_field db_type
    {| features := features editor;
       events := events editor;
       add_field_replaced := add_field_replaced editor;
       remove_field_replaced := true |}
    from_model f.

(** The statements executed so far. *)
Fixpoint statements (l : list EditorEvent) : list CommentStatement :=
  match l with
  | [] => []
  | Executed s :: rest => s :: statements rest
  | _ :: rest => statements rest
  end.

(** The columns the host's own methods added or removed so far. *)
Fixpoint host_columns (l : list EditorEvent) : list EditorEvent :=
  match l with
  | [] => []
  | HostAddedColumn m f :: rest => HostAddedColumn m f :: host_columns rest
  | HostRemovedColumn m f :: rest => HostRemovedColumn m f :: host_columns rest
  | _ :: rest => host_columns rest
  end.

(* ================================================================= *)
(** ** The field lists of the detector *)

(** A model state as the preparation reads it:
    [options.get("managed", True)] and [fields]. *)
Record ModelDeclaration : Type := {
  managed : bool;
  fields : dict string Field
}.

(** [from_state.models] or [to_state.models] with these attributes. *)
Definition Declarations : Type := dict (string * string) ModelDeclaration.

(** The key sets that the preparation fills; a set is given by the list of
    its elements. *)
Record KeySets : Type := {
  old_model_keys : list (string * string);
  old_proxy_keys : list (string * string);
  old_unmanaged_keys : list (string * string);
  new_model_keys : list (string * string);
  new_proxy_keys : list (string * string);
  new_unmanaged_keys : list (string * string)
}.

Definition unmanaged_keys (models : Declarations) : list (string * string) :=
  map fst (filter (fun item => negb (managed (snd item))) models).

(** [_detect_changes_preparation_django_version_4_and_above],
    autodetector.py:90-125: only the unmanaged keys are collected. *)
Definition _detect_changes_preparation_django_version_4_and_above
    (from_models to_models : Declarations) : KeySets :=
  {| old_model_keys := [];
     old_proxy_keys := [];
     old_unmanaged_keys := unmanaged_keys from_models;
     new_model_keys := [];
     new_proxy_keys := [];
     new_unmanaged_keys := unmanaged_keys to_models |}.

(** [a & b] *)
Definition intersection (a b : list (string * string))
  : list (string * string) :=
  filter (fun k => existsb (pair_eqb k) b) a.

Record FieldLists : Type := {
  kept_model_keys : list (string * string);
  kept_proxy_keys : list (string * string);
  kept_unmanaged_keys : list (string * string);
  old_field_keys : list (string * string * string);
  new_field_keys : list (string * string * string)
}.

(** [{(app_label, model_name, field_name) for app_label, model_name in keys
    for field_name in models[app_label, name_of(...)].fields}] *)
Fixpoint field_keys (models : Declarations)
    (name_of : string * string -> string) (keys : list (string * string))
  : Outcome (list (string * string * string)) :=
  match keys with
  | [] => Return []
  | key :: rest =>
      declaration <- match dict_get pair_eqb models (fst key, name_of key) with
                     | Some d => Return d
                     | None => Raise Py.KeyError
                     end ;;
      more <- field_keys models name_of rest ;;
      Return (map (fun field_name => (fst key, snd key, field_name))
                  (dict_keys (fields declaration)) ++ more)
  end.

(** [renamed_models.get((app_label, model_name), model_name)] *)
Definition renamed_or_same (renamed_models : dict (string * string) string)
    (key : string * string) : string :=
  match dict_get pair_eqb renamed_models key with
  | Some old_name => old_name
  | None => snd key
  end.

(** [_prepare_field_lists], autodetector.py:127-148; [renamed_models] is
    what the host's [generate_renamed_models] left. *)
Definition _prepare_field_lists (renamed_models : dict (string * string) string)
    (from_models to_models : Declarations) (keys : KeySets)
  : Outcome FieldLists :=
  let kept :=
    intersection (old_unmanaged_keys keys) (new_unmanaged_keys keys) in
  old_fields <- field_keys from_models (renamed_or_same renamed_models) kept ;;
  new_fields <- field_keys to_models snd kept ;;
  Return {| kept_model_keys :=
              intersection (old_model_keys keys) (new_model_keys keys);
            kept_proxy_keys :=
              intersection (old_proxy_keys keys) (new_proxy_keys keys);
            kept_unmanaged_keys := kept;
            old_field_keys := old_fields;
            new_field_keys := new_fields |}.

(** [extends before after]: for every application, what was generated
    before is a prefix of what is generated after. *)
Definition extends (before after : GeneratedOperations) : Prop :=
  forall app,
    exists added,
      operations_of after app = operations_of before app ++ added.

(* ================================================================= *)
(** ** The history of an application *)

(** [lineage graph app n ms]: [ms] are the migrations met from node [n] by
    moving to the greatest parent of the application until a node without
    such a parent, newest first. *)
Inductive lineage (graph : MigrationGraph) (app : string)
  : NodeKey -> list Migration -> Prop :=
| lineage_root : forall n m e,
    nodes graph n = Some m ->
    node_map graph n = Some e ->
    no_app_parent app (parents e) ->
    lineage graph app n [m]
| lineage_step : forall n m e p ms,
    nodes graph n = Some m ->
    node_map graph n = Some e ->
    greatest_app_parent app (parents e) p ->
    lineage graph app p ms ->
    lineage graph app n (m :: ms).

(** The prior migration history of an application, as the walker can meet
    it: nothing when the application has no leaf, the lineage of its first
    leaf otherwise. *)
Definition history_of (graph : MigrationGraph) (app : string)
    (ms : list Migration) : Prop :=
  match hd_error (leaf_nodes graph app) with
  | None => ms = []
  | Some leaf => lineage graph app leaf ms
  end.

(** The recorded definitions of a history that match
    [(for_table_name, engine)], newest first. *)
Definition history_definitions (default_engine for_table_name engine : string)
    (ms : list Migration) : list string :=
  flat_map (fun m => matching_definitions default_engine for_table_name engine
                                          (operations m)) ms.

(** Every composite wrapper of the history holds at most one view
    operation on its database side. *)
Definition history_in_order (ms : list Migration) : Prop :=
  forall m, In m ms -> wrappers_ok (operations m) = true.

(* ================================================================= *)
(** ** Concrete inputs *)

Module Examples.

Definition postgresql : string := "django.db.backends.postgresql".

Definition forward_view (definition table : string) : ViewMigration :=
  {| migration_class := ForwardViewMigration;
     view_definition := definition;
     table_name := table;
     view_engine := Some postgresql |}.

Definition backward_view (definition table : string) : ViewMigration :=
  {| migration_class := BackwardViewMigration;
     view_definition := definition;
     table_name := table;
     view_engine := Some postgresql |}.

(** A Create/Replace pair as [generate_views_operations] builds it. *)
Definition view_pair (previous latest table : string) : Operation :=
  ViewRunPython (forward_view latest table) (backward_view previous table)
                false.

Definition report_entry (definition : string) : StateEntry :=
  ViewModelState
    {| view_app_label := "reports";
       view_name := "report_django.db.backends.postgresql";
       view_attributes :=
         Some {| state_view_engine := Some postgresql;
                 state_view_definition := definition;
                 state_base_class := DBView;
                 state_table_name := "report" |} |}.

(** The state after the migration that created the view [report]. *)
Definition state_with_report : ProjectState :=
  [(("reports", "report_django.db.backends.postgresql"),
    report_entry "SELECT 1")].

(** The state after a later migration replaced its definition. *)
Definition state_with_replaced_report : ProjectState :=
  [(("reports", "report_django.db.backends.postgresql"),
    report_entry "SELECT 2")].

Definition drop_report : DropViewMigration :=
  {| drop_class := DropView;
     drop_table_name := "report";
     drop_view_engine := Some postgresql |}.

(** A field [title] of model [Book], first without and then with a
    comment. *)
Definition title_field (comment : option string) : Field :=
  {| db_comment := comment; field_declaration := "CharField(max_length=50)" |}.

Definition add_title_comment : FieldOperation :=
  {| model_name := "Book"; name := "title";
     field := Some (title_field (Some "Title")) |}.

Definition alter_title_comment : FieldOperation :=
  {| model_name := "book"; name := "title";
     field := Some (title_field (Some "Title of the book")) |}.

(** A host reduction that lets every operation through. *)
Definition host_reduce (self : FieldOperation) (operation : Operation)
    (app : string) : Reduction := Passes false.

(** A mapping whose value for PostgreSQL is a callable returning the
    definition. *)
Definition callable_in_mapping : PyValue :=
  PyDict [(postgresql, PyCallable (PyStr "SELECT 1"))].

(** A callable returning a mapping of two engines. *)
Definition callable_mapping : PyValue :=
  PyCallable (PyDict [(postgresql, PyStr " SELECT 1 ");
                      ("django.db.backends.sqlite3", PyStr "SELECT 2")]).

(** A formatter that leaves the text as it is. *)
Definition verbatim (s : string) : string := s.

(** A composite wrapper whose database side creates two views, neither of
    them [report]. *)
Definition two_views_wrapper : Operation :=
  SeparateDatabaseAndState
    [view_pair "" "SELECT 1" "sales"; view_pair "" "SELECT 2" "stock"] [].

Definition history_with_wrapper : list (string * Migration) :=
  [("0001_initial", {| operations := [two_views_wrapper] |})].

(** A composite wrapper whose database side holds two view operations for
    the same table and engine. *)
Definition ambiguous_wrapper : Operation :=
  SeparateDatabaseAndState
    [view_pair "" "SELECT 0" "report"; view_pair "" "SELECT 1" "report"] [].

(** The ambiguous wrapper lies in the first migration; the second one
    replaces the view. *)
Definition history_replaced_after_wrapper : list (string * Migration) :=
  [("0002_report", {| operations := [view_pair "SELECT 1" "SELECT 2" "report"] |});
   ("0001_initial", {| operations := [ambiguous_wrapper] |})].

(** The ambiguous wrapper lies in the first migration; the second one
    creates another view. *)
Definition history_reaching_wrapper : list (string * Migration) :=
  [("0002_sales", {| operations := [view_pair "" "SELECT 1" "sales"] |});
   ("0001_initial", {| operations := [HostOperation "CreateModel";
                                       ambiguous_wrapper] |})].

(** Three migrations; the view [report] is recorded in the second one. *)
Definition history_of_three : list (string * Migration) :=
  [("0003_sales", {| operations := [view_pair "" "SELECT 3" "sales"] |});
   ("0002_report", {| operations := [view_pair "" " SELECT 2 " "report"] |});
   ("0001_initial", {| operations := [HostOperation "CreateModel"] |})].

Definition sqlite : string := "django.db.backends.sqlite3".

Definition report_attributes (engine definition : string) : ViewAttributes :=
  {| state_view_engine := Some engine;
     state_view_definition := definition;
     state_base_class := DBView;
     state_table_name := "report" |}.

Definition sales_attributes : ViewAttributes :=
  {| state_view_engine := Some postgresql;
     state_view_definition := "SELECT 3";
     state_base_class := DBMaterializedView;
     state_table_name := "sales" |}.

Definition view_state (hash : string) (a : ViewAttributes) : StateEntry :=
  ViewModelState {| view_app_label := "reports";
                    view_name := hash;
                    view_attributes := Some a |}.

(** A previous snapshot: the view [report] on two engines, the view
    [sales], and an ordinary model. *)
Definition previous_snapshot : ProjectState :=
  [(("reports", "report_django.db.backends.postgresql"),
    view_state "report_django.db.backends.postgresql"
               (report_attributes postgresql "SELECT 1"));
   (("reports", "customer"),
    PlainModelState {| app_label := "reports";
                       model_state_name := "Customer";
                       bases := [BaseClassObject] |});
   (("reports", "sales_django.db.backends.postgresql"),
    view_state "sales_django.db.backends.postgresql" sales_attributes);
   (("reports", "report_django.db.backends.sqlite3"),
    view_state "report_django.db.backends.sqlite3"
               (report_attributes sqlite "SELECT 2"))].

(** The current snapshot holds the model of the view [report]. *)
Definition current_snapshot : ProjectState :=
  [(("reports", "report"),
    PlainModelState {| app_label := "reports";
                       model_state_name := "Report";
                       bases := [BaseString "reports.Base"; BaseClassObject] |})].

Definition report_model (declared : PyValue) : ModelClass :=
  {| db_table := "report";
     model_base := Some DBView;
     declared_view_definition := declared |}.

(** A pass in which [report] is the only model class, with [live] as the
    registry of view tables and [format] as the formatter. *)
Definition detection_formatted (format : string -> string) (declared : PyValue)
    (live : DBViewsRegistry) : Detection :=
  {| sqlparse_format := format;
     default_engine := postgresql;
     registry := live;
     all_models := [("reports", [("report", report_model declared)])];
     from_state := previous_snapshot;
     to_state := current_snapshot;
     loop_bound := 8 |}.

Definition detection (declared : PyValue) (live : DBViewsRegistry) : Detection :=
  detection_formatted verbatim declared live.

(** An application without any migration yet. *)
Definition no_history : MigrationGraph := linear_graph "reports" [].

End Examples.

Module MoreExamples.

(** The same view declared once as [Report] and once as [report]. *)
Definition forward_upper : ViewMigration :=
  Examples.forward_view "SELECT 1" "Report".

Definition forward_lower : ViewMigration :=
  Examples.forward_view "SELECT 2" "report".

(** A rank for the nodes of [Examples.history_of_three]. *)
Definition rank_of_three (n : NodeKey) : nat :=
  if String.eqb (snd n) "0003_sales" then 2
  else if String.eqb (snd n) "0002_report" then 1
  else 0.

(** A history whose leaf records the pair emitted for [report]. *)
Definition recorded (definition : string) : MigrationGraph :=
  linear_graph "reports"
    [("0002_report",
      {| operations := [HostOperation "CreateModel";
                        create_pair DBView "" definition "report"
                                    Examples.postgresql] |});
     ("0001_initial", {| operations := [HostOperation "CreateModel"] |})].

(** A PostgreSQL-like backend: comments are separate statements. *)
Definition fresh_editor : SchemaEditor :=
  {| features := {| supports_comments := true;
                    supports_comments_inline := false;
                    connection_persists_old_columns := false |};
     events := [];
     add_field_replaced := false;
     remove_field_replaced := false |}.

Definition every_field_has_a_column (f : Field) : option string :=
  Some "varchar(50)"%string.

(** The view model [report] (unmanaged) and the managed model [customer],
    before and after a change of their fields. *)
Definition declared_before : Declarations :=
  [(("reports"%string, "report"%string),
    {| managed := false;
       fields := [("title"%string, Examples.title_field None)] |});
   (("reports"%string, "customer"%string),
    {| managed := true;
       fields := [("name"%string, Examples.title_field None)] |})].

Definition declared_after : Declarations :=
  [(("reports"%string, "report"%string),
    {| managed := false;
       fields := [("title"%string, Examples.title_field (Some "Title"));
                  ("total"%string, Examples.title_field None)] |});
   (("reports"%string, "customer"%string),
    {| managed := true;
       fields := [("name"%string, Examples.title_field (Some "Name"))] |})].

(** A history that records the view [sales] only. *)
Definition sales_migration : Migration :=
  {| operations := [HostOperation "CreateModel";
                    Examples.view_pair "" "SELECT 3" "sales"] |}.

Definition sales_history : MigrationGraph :=
  linear_graph "reports" [("0001_initial"%string, sales_migration)].

End MoreExamples.

(* ================================================================= *)
(** ** Strings *)

Unset Implicit Arguments.

Module PyFacts.

Lemma lstrip_decompose (p : ascii -> bool) (s : string) :
  exists l, s = (l ++ Py.lstrip_by p s)%string /\ all_chars p l = true.
Proof.
  induction s as [|c t IH]; simpl.
  - exists EmptyString. split; reflexivity.
  - destruct (p c) eqn:Hc.
    + destruct IH as [l [Heq Hall]].
      exists (String c l). simpl. rewrite Hc, Hall. split; [|reflexivity].
      now rewrite <- Heq.
    + exists EmptyString. split; reflexivity.
Qed.

Lemma rstrip_decompose (p : ascii -> bool) (s : string) :
  exists r, s = (Py.rstrip_by p s ++ r)%string /\ all_chars p r = true.
Proof.
  induction s as [|c t IH]; simpl.
  - exists EmptyString. split; reflexivity.
  - destruct IH as [r [Heq Hall]].
    destruct (Py.rstrip_by p t) as [|c' t'] eqn:Hr.
    + simpl in Heq. subst r.
      destruct (p c) eqn:Hc.
      * exists (String c t). simpl. rewrite Hc, Hall. split; reflexivity.
      * exists t. split; [reflexivity | assumption].
    + exists r. split; [|assumption]. simpl. now rewrite Heq at 1.
Qed.

Lemma lstrip_first (p : ascii -> bool) (s : string) :
  match first_char (Py.lstrip_by p s) with
  | Some c => p c = false
  | None => True
  end.
Proof.
  induction s as [|c t IH]; simpl; [exact I|].
  destruct (p c) eqn:Hc; [assumption | simpl; assumption].
Qed.

Lemma rstrip_last (p : ascii -> bool) (s : string) :
  match last_char (Py.rstrip_by p s) with
  | Some c => p c = false
  | None => True
  end.
Proof.
  induction s as [|c t IH]; simpl; [exact I|].
  destruct (Py.rstrip_by p t) as [|c' t'] eqn:Hr.
  - destruct (p c) eqn:Hc; simpl; [exact I | assumption].
  - exact IH.
Qed.

Lemma rstrip_first (p : ascii -> bool) (s : string) :
  match first_char s with
  | Some c => p c = false
  | None => True
  end ->
  match first_char (Py.rstrip_by p s) with
  | Some c => p c = false
  | None => True
  end.
Proof.
  destruct s as [|c t]; simpl; [trivial|].
  intros Hc. destruct (Py.rstrip_by p t); [rewrite Hc|]; simpl; assumption.
Qed.

(** The text kept by [strip] neither starts nor ends with a character of
    the stripped class. *)
Lemma strip_by_ends (p : ascii -> bool) (s : string) :
  match first_char (Py.strip_by p s) with
  | Some c => p c = false
  | None => True
  end
  /\ match last_char (Py.strip_by p s) with
     | Some c => p c = false
     | None => True
     end.
Proof.
  unfold Py.strip_by. split.
  - apply rstrip_first, lstrip_first.
  - apply rstrip_last.
Qed.

Lemma strip_by_decompose (p : ascii -> bool) (s : string) :
  exists l r, s = (l ++ Py.strip_by p s ++ r)%string
              /\ all_chars p l = true /\ all_chars p r = true.
Proof.
  destruct (lstrip_decompose p s) as [l [Hl Hal]].
  destruct (rstrip_decompose p (Py.lstrip_by p s)) as [r [Hr Har]].
  exists l, r. unfold Py.strip_by. now rewrite <- Hr.
Qed.

Lemma rstrip_keeps (p : ascii -> bool) (s : string) (c : ascii) :
  p c = false ->
  Py.rstrip_by p (s ++ String c EmptyString)
  = (s ++ String c EmptyString)%string.
Proof.
  intros Hc. induction s as [|a t IH]; simpl.
  - now rewrite Hc.
  - rewrite IH. destruct t; reflexivity.
Qed.

Lemma lstrip_keeps (p : ascii -> bool) (s : string) (c : ascii) :
  p c = false ->
  Py.lstrip_by p (s ++ String c EmptyString)
  = (Py.lstrip_by p s ++ String c EmptyString)%string.
Proof.
  intros Hc. induction s as [|a t IH]; simpl.
  - now rewrite Hc.
  - destruct (p a); [assumption | reflexivity].
Qed.

(** A final character outside the stripped class is kept, and shields what
    precedes it from the trimming on the right. *)
Lemma strip_by_keeps (p : ascii -> bool) (s : string) (c : ascii) :
  p c = false ->
  Py.strip_by p (s ++ String c EmptyString)
  = (Py.lstrip_by p s ++ String c EmptyString)%string.
Proof.
  intros Hc. unfold Py.strip_by.
  rewrite lstrip_keeps by assumption. now apply rstrip_keeps.
Qed.

Lemma lstrip_fixed (p : ascii -> bool) (s : string) :
  match first_char s with
  | Some c => p c = false
  | None => True
  end ->
  Py.lstrip_by p s = s.
Proof.
  destruct s as [|c t]; simpl; [reflexivity|]. now intros ->.
Qed.

Lemma rstrip_idem (p : ascii -> bool) (s : string) :
  Py.rstrip_by p (Py.rstrip_by p s) = Py.rstrip_by p s.
Proof.
  induction s as [|c t IH]; simpl; [reflexivity|].
  destruct (Py.rstrip_by p t) as [|c' t'] eqn:Hr.
  - destruct (p c) eqn:Hc; simpl; [reflexivity | now rewrite Hc].
  - simpl. simpl in IH. rewrite IH. reflexivity.
Qed.

Lemma strip_by_idem (p : ascii -> bool) (s : string) :
  Py.strip_by p (Py.strip_by p s) = Py.strip_by p s.
Proof.
  unfold Py.strip_by at 1.
  rewrite lstrip_fixed by apply strip_by_ends.
  unfold Py.strip_by. apply rstrip_idem.
Qed.

Lemma lower_char_idem (c : ascii) :
  Py.lower_char (Py.lower_char c) = Py.lower_char c.
Proof.
  destruct c as [[] [] [] [] [] [] [] []]; reflexivity.
Qed.

Lemma lower_idem (s : string) : Py.lower (Py.lower s) = Py.lower s.
Proof.
  induction s as [|c t IH]; simpl; [reflexivity|].
  now rewrite lower_char_idem, IH.
Qed.

End PyFacts.

Lemma pair_eqb_eq (a b : string * string) : pair_eqb a b = true <-> a = b.
Proof.
  destruct a as [a1 a2], b as [b1 b2]. unfold pair_eqb. simpl.
  rewrite andb_true_iff, !String.eqb_eq. split.
  - now intros [-> ->].
  - intros H. inversion H. split; reflexivity.
Qed.

(* ================================================================= *)
(** ** Dictionaries *)

Section DictFacts.
Variables K V : Type.
Variable eqb : K -> K -> bool.
Hypothesis eqb_eq : forall a b, eqb a b = true <-> a = b.

Lemma eqb_same (k : K) : eqb k k = true.
Proof. now apply eqb_eq. Qed.

Lemma eqb_differ (a b : K) : a <> b -> eqb a b = false.
Proof.
  intros Hne. destruct (eqb a b) eqn:E; [|reflexivity].
  apply eqb_eq in E. contradiction.
Qed.

Lemma dict_get_set_same (d : dict K V) (k : K) (v : V) :
  dict_get eqb (dict_set eqb d k v) k = Some v.
Proof.
  induction d as [|[k' v'] rest IH]; simpl.
  - now rewrite eqb_same.
  - destruct (eqb k k') eqn:E; simpl; rewrite E; [reflexivity | exact IH].
Qed.

Lemma dict_get_set_other (d : dict K V) (k k' : K) (v : V) :
  k' <> k ->
  dict_get eqb (dict_set eqb d k v) k' = dict_get eqb d k'.
Proof.
  intros Hne. induction d as [|[k0 v0] rest IH]; simpl.
  - now rewrite eqb_differ.
  - destruct (eqb k k0) eqn:E; simpl.
    + apply eqb_eq in E. subst k0. now rewrite eqb_differ.
    + now rewrite IH.
Qed.

Lemma dict_get_none (d : dict K V) (k : K) :
  dict_get eqb d k = None <-> ~ In k (dict_keys d).
Proof.
  induction d as [|[k' v'] rest IH]; simpl.
  - tauto.
  - destruct (eqb k k') eqn:E.
    + apply eqb_eq in E. subst. split; [discriminate | intros H; tauto].
    + rewrite IH. split.
      * intros Hn [Heq | Hin]; [|tauto].
        subst. rewrite eqb_same in E. discriminate.
      * tauto.
Qed.

Lemma dict_get_in (d : dict K V) (k : K) (v : V) :
  dict_get eqb d k = Some v -> In (k, v) d.
Proof.
  induction d as [|[k' v'] rest IH]; simpl; [discriminate|].
  destruct (eqb k k') eqn:E.
  - apply eqb_eq in E. subst. intros [= ->]. now left.
  - intros H. right. now apply IH.
Qed.

Lemma dict_in_get (d : dict K V) (k : K) (v : V) :
  NoDup (dict_keys d) -> In (k, v) d -> dict_get eqb d k = Some v.
Proof.
  induction d as [|[k' v'] rest IH]; simpl; [tauto|].
  intros Hnd [Heq | Hin].
  - inversion Heq; subst. now rewrite eqb_same.
  - inversion Hnd as [|? ? Hnotin Hnd']; subst.
    destruct (eqb k k') eqn:E.
    + apply eqb_eq in E. subst. exfalso. apply Hnotin.
      change k' with (fst (k', v)). now apply in_map.
    + now apply IH.
Qed.

Lemma dict_keys_set (d : dict K V) (k : K) (v : V) :
  dict_keys (dict_set eqb d k v)
  = if dict_mem eqb d k then dict_keys d else dict_keys d ++ [k].
Proof.
  unfold dict_mem. induction d as [|[k' v'] rest IH]; simpl; [reflexivity|].
  destruct (eqb k k') eqn:E; simpl; [reflexivity|].
  rewrite IH. now destruct (dict_get eqb rest k).
Qed.

Lemma dict_length_set (d : dict K V) (k : K) (v : V) :
  List.length (dict_set eqb d k v)
  = if dict_mem eqb d k then List.length d else S (List.length d).
Proof.
  unfold dict_mem. induction d as [|[k' v'] rest IH]; simpl; [reflexivity|].
  destruct (eqb k k') eqn:E; simpl; [reflexivity|].
  rewrite IH. now destruct (dict_get eqb rest k).
Qed.

Lemma dict_set_nodup (d : dict K V) (k : K) (v : V) :
  NoDup (dict_keys d) -> NoDup (dict_keys (dict_set eqb d k v)).
Proof.
  intros Hnd. rewrite dict_keys_set. unfold dict_mem.
  destruct (dict_get eqb d k) eqn:G; [assumption|].
  apply dict_get_none in G.
  apply NoDup_app; [assumption | repeat constructor; auto |].
  intros x Hx [<- | []]. contradiction.
Qed.

(** Rebinding or appending changes the bindings of a fresh key only at the
    end of the list. *)
Lemma dict_set_fresh (d : dict K V) (k : K) (v : V) :
  dict_get eqb d k = None -> dict_set eqb d k v = d ++ [(k, v)].
Proof.
  induction d as [|[k' v'] rest IH]; simpl; [reflexivity|].
  destruct (eqb k k'); [discriminate|]. intros G. now rewrite IH.
Qed.

Lemma dict_del_bound (d : dict K V) (k : K) :
  dict_get eqb d k <> None ->
  exists d', dict_del eqb d k = Some d'
             /\ List.length d = S (List.length d')
             /\ (forall k', k' <> k -> dict_get eqb d' k' = dict_get eqb d k')
             /\ (NoDup (dict_keys d) ->
                 dict_get eqb d' k = None /\ NoDup (dict_keys d')).
Proof.
  induction d as [|[k0 v0] rest IH]; simpl; [congruence|].
  destruct (eqb k k0) eqn:E.
  - intros _. apply eqb_eq in E. subst k0.
    exists rest. split; [reflexivity|]. split; [reflexivity|]. split.
    + intros k' Hne. now rewrite eqb_differ.
    + intros Hnd. inversion Hnd; subst. split; [|assumption].
      now apply dict_get_none.
  - intros G. destruct (IH G) as [d' [Hd [Hlen [Hoth Hnd]]]].
    rewrite Hd. exists ((k0, v0) :: d').
    split; [reflexivity|]. split; [simpl; now rewrite Hlen|]. split.
    + intros k' Hne. simpl. now rewrite Hoth.
    + intros Hall. inversion Hall as [|? ? Hnotin Hnd']; subst.
      destruct (Hnd Hnd') as [Hget Hnodup].
      split; [simpl; now rewrite E|].
      simpl. constructor; [|assumption].
      assert (Hk : k0 <> k).
      { intros ->. rewrite eqb_same in E. discriminate. }
      apply dict_get_none. rewrite (Hoth k0 Hk). now apply dict_get_none.
Qed.

Lemma dict_del_unbound (d : dict K V) (k : K) :
  dict_get eqb d k = None -> dict_del eqb d k = None.
Proof.
  induction d as [|[k0 v0] rest IH]; simpl; [reflexivity|].
  destruct (eqb k k0); [discriminate|]. intros G. now rewrite IH.
Qed.

End DictFacts.

(* ================================================================= *)
(** ** State transitions of the view operations *)

Lemma add_model_view_key (app name : string) (attrs : option ViewAttributes) :
  entry_key (ViewModelState {| view_app_label := app;
                               view_name := Py.lower name;
                               view_attributes := attrs |})
  = (app, Py.lower name).
Proof. simpl. now rewrite PyFacts.lower_idem. Qed.

(** With the view-migration flag set, a forward action binds the key
    [(app, hash)] to the entry built from the action. *)
Lemma ViewRunPython_state_forwards_set (state : ProjectState) (app : string)
    (code : ViewMigration) (base : BaseClass) :
  migration_class code = forward_class_of base ->
  ViewRunPython_state_forwards true code app state
  = Return
      (dict_set pair_eqb state
         (app, get_table_engine_name_hash (table_name code) (view_engine code))
         (ViewModelState
            {| view_app_label := app;
               view_name := get_table_engine_name_hash (table_name code)
                                                       (view_engine code);
               view_attributes :=
                 Some {| state_view_engine := view_engine code;
                         state_view_definition := view_definition code;
                         state_base_class := base;
                         state_table_name := table_name code |} |})).
Proof.
  intros Hclass. unfold ViewRunPython_state_forwards, add_model.
  rewrite Hclass. unfold DBViewModelState_init, get_table_engine_name_hash.
  destruct base; simpl; now rewrite PyFacts.lower_idem.
Qed.

Lemma dict_set_attributed (state : ProjectState) (k : string * string)
    (e : StateEntry) :
  views_attributed state ->
  (forall v, e = ViewModelState v -> view_attributes v <> None) ->
  views_attributed (dict_set pair_eqb state k e).
Proof.
  unfold views_attributed. intros Hattr He.
  induction state as [|[k0 e0] rest IH]; simpl; intros key v.
  - intros [Heq | []]. inversion Heq; subst. now apply He.
  - destruct (pair_eqb k k0).
    + intros [Heq | Hin].
      * inversion Heq; subst. now apply He.
      * apply (Hattr key). now right.
    + intros [Heq | Hin].
      * apply (Hattr key). now left.
      * apply (IH (fun key v H => Hattr key v (or_intror H)) key v Hin).
Qed.

(** Entries added by a forward action carry their attributes. *)
Lemma ViewRunPython_state_forwards_attributed (state state' : ProjectState)
    (app : string) (code : ViewMigration) :
  views_attributed state ->
  ViewRunPython_state_forwards true code app state = Return state' ->
  views_attributed state'.
Proof.
  unfold ViewRunPython_state_forwards, add_model.
  intros Hattr Hrun.
  destruct (migration_class code); simpl in Hrun; try discriminate;
    inversion Hrun; subst; apply dict_set_attributed; try assumption;
    intros v [= <-]; discriminate.
Qed.

(** C10. While [VIEW_MIGRATION_CONTEXT["is_view_migration"]] is false,
    [ViewRunPython.state_forwards] and [ViewDropRunPython.state_forwards]
    return the state they were given, whatever the action and the state
    are, and [DBViewModelState.__init__] attaches none of [view_engine],
    [view_definition], [base_class] and [table_name]; a call that changes
    the state or raises therefore runs with the flag set. *)
Theorem state_forwards_frame_without_flag :
  forall (flag : bool) (state : ProjectState) (app name : string)
         (code : ViewMigration) (drop : DropViewMigration)
         (engine : option string) (definition table : string)
         (base : BaseClass),
    ViewRunPython_state_forwards false code app state = Return state
    /\ ViewDropRunPython_state_forwards false drop app state = Return state
    /\ view_attributes
         (DBViewModelState_init false app name engine definition table base)
       = None
    /\ (flag = true
        \/ (ViewRunPython_state_forwards flag code app state = Return state
            /\ ViewDropRunPython_state_forwards flag drop app state
               = Return state)).
Proof.
  intros flag state app name code drop engine definition table base.
  repeat split.
  destruct flag; [now left | right; split; reflexivity].
Qed.

(** C3 (amended). With the flag set, a Create/Replace-Forward action binds
    the key [(app, hash(table_name, view_engine))] to one entry built from
    the action: the state gains one entry when the key was free and keeps
    its size, the entry being replaced without any failure, when the key
    was bound; every other key is untouched. A Drop removes the entry under
    its key, one entry less, every other key untouched, and raises
    [KeyError] when the key is free. Keys stay pairwise distinct. *)
Theorem state_forwards_binds_one_entry :
  forall (state : ProjectState) (app : string) (code : ViewMigration)
         (drop : DropViewMigration) (base : BaseClass),
    migration_class code = forward_class_of base ->
    let key := (app, get_table_engine_name_hash (table_name code)
                                                (view_engine code)) in
    let drop_key := (app, get_table_engine_name_hash (drop_table_name drop)
                                                     (drop_view_engine drop)) in
    (exists state',
        ViewRunPython_state_forwards true code app state = Return state'
        /\ dict_get pair_eqb state' key
           = Some (ViewModelState
                     {| view_app_label := app;
                        view_name := snd key;
                        view_attributes :=
                          Some {| state_view_engine := view_engine code;
                                  state_view_definition := view_definition code;
                                  state_base_class := base;
                                  state_table_name := table_name code |} |})
        /\ (forall k, k <> key ->
                      dict_get pair_eqb state' k = dict_get pair_eqb state k)
        /\ List.length state'
           = (if dict_mem pair_eqb state key
              then List.length state else S (List.length state))
        /\ (NoDup (dict_keys state) -> NoDup (dict_keys state')))
    /\ match dict_get pair_eqb state drop_key with
       | Some _ =>
           exists state',
             ViewDropRunPython_state_forwards true drop app state
             = Return state'
             /\ List.length state = S (List.length state')
             /\ (forall k, k <> drop_key ->
                           dict_get pair_eqb state' k
                           = dict_get pair_eqb state k)
             /\ (NoDup (dict_keys state) ->
                 dict_get pair_eqb state' drop_key = None
                 /\ NoDup (dict_keys state'))
       | None =>
           ViewDropRunPython_state_forwards true drop app state
           = Raise Py.KeyError
       end.
Proof.
  intros state app code drop base Hclass key drop_key. split.
  - rewrite (ViewRunPython_state_forwards_set state app code base Hclass).
    fold key. eexists. split; [reflexivity|].
    split; [apply (dict_get_set_same _ _ _ pair_eqb_eq)|].
    split; [intros k Hk; now apply (dict_get_set_other _ _ _ pair_eqb_eq)|].
    split; [apply dict_length_set|].
    apply (dict_set_nodup _ _ _ pair_eqb_eq).
  - unfold ViewDropRunPython_state_forwards, remove_model. fold drop_key.
    destruct (dict_get pair_eqb state drop_key) eqn:G.
    + destruct (dict_del_bound _ _ _ pair_eqb_eq state drop_key)
        as [state' [Hdel Hrest]]; [congruence|].
      exists state'. now rewrite Hdel.
    + now rewrite (dict_del_unbound _ _ _ _ _ G).
Qed.

Lemma state_forwards_binds_one_entry_witness :
  migration_class (Examples.forward_view "SELECT 2" "report")
  = forward_class_of DBView
  /\ exists state',
       ViewRunPython_state_forwards true
         (Examples.forward_view "SELECT 2" "report") "reports"
         Examples.state_with_report
       = Return state'
       /\ List.length state' = 1.
Proof.
  split; [reflexivity|].
  destruct (state_forwards_binds_one_entry Examples.state_with_report
              "reports" (Examples.forward_view "SELECT 2" "report")
              Examples.drop_report DBView eq_refl)
    as [[state' [Hrun [_ [_ [Hlen _]]]]] _].
  exists state'. split; [exact Hrun | exact Hlen].
Defined.

(** C3, as stated, fails: replaying a Create/Replace-Forward action for a
    key that is already bound succeeds silently and leaves the number of
    entries unchanged. *)
Lemma replace_forward_rebinds_silently :
  ViewRunPython_state_forwards true
    (Examples.forward_view "SELECT 1" "report") "reports" []
  = Return Examples.state_with_report
  /\ ViewRunPython_state_forwards true
       (Examples.forward_view "SELECT 2" "report") "reports"
       Examples.state_with_report
     = Return Examples.state_with_replaced_report
  /\ List.length Examples.state_with_replaced_report
     = List.length Examples.state_with_report.
Proof. repeat split. Qed.

(* ================================================================= *)
(** ** Reduction of field-comment operations *)

(** C8. An [AddFieldComment] followed by an [AlterFieldComment] on the same
    field of the same model (names compared in lower case) reduces to a
    single [AddFieldComment] on the first operation's model, carrying the
    name and the field, hence the comment, of the later operation. *)
Theorem AddFieldComment_reduce_merges_alter :
  forall (super_reduce : FieldOperation -> Operation -> string -> Reduction)
         (self other : FieldOperation) (preserve_default : bool)
         (app : string),
    Py.lower (model_name self) = Py.lower (model_name other) ->
    Py.lower (name self) = Py.lower (name other) ->
    AddFieldComment_reduce super_reduce self
      (AlterFieldComment other preserve_default) app
    = Replaced [AddFieldComment {| model_name := model_name self;
                                   name := name other;
                                   field := field other |} true]
    /\ option_map db_comment (field other)
       = option_map db_comment
           (field {| model_name := model_name self;
                     name := name other;
                     field := field other |}).
Proof.
  intros super_reduce self other preserve_default app Hmodel Hname.
  split; [|reflexivity].
  unfold AddFieldComment_reduce, is_same_field_operation. simpl.
  rewrite Hmodel, Hname, !String.eqb_refl. reflexivity.
Qed.

Lemma AddFieldComment_reduce_merges_alter_witness :
  AddFieldComment_reduce Examples.host_reduce Examples.add_title_comment
    (AlterFieldComment Examples.alter_title_comment true) "library"
  = Replaced [AddFieldComment
                {| model_name := "Book"; name := "title";
                   field := Some (Examples.title_field
                                    (Some "Title of the book")) |} true].
Proof.
  apply (AddFieldComment_reduce_merges_alter Examples.host_reduce
           Examples.add_title_comment Examples.alter_title_comment true
           "library"); reflexivity.
Defined.

(* ================================================================= *)
(** ** Resolution of a declared view definition *)

Lemma dict_get_app_fresh (d : dict string string) (k k' : string) (v : string) :
  k' <> k -> dict_get String.eqb d k' = None ->
  dict_get String.eqb (d ++ [(k, v)]) k' = None.
Proof.
  intros Hne. induction d as [|[k0 v0] rest IH]; simpl.
  - intros _. now rewrite (eqb_differ _ _ String.eqb_eq).
  - destruct (String.eqb k' k0); [discriminate | exact IH].
Qed.

(** A mapping of engines to strings, keys pairwise distinct, resolves to
    the same engines, in the same order, each with its value stripped. *)
Lemma clean_items_strings (pairs : list (string * string))
    (acc : dict string string) :
  NoDup (map fst pairs) ->
  (forall k, In k (map fst pairs) -> dict_get String.eqb acc k = None) ->
  for_each clean_item (map declare_pair pairs) acc
  = Return (acc ++ map clean_pair pairs).
Proof.
  revert acc. induction pairs as [|[e s] rest IH]; simpl; intros acc Hnd Hfresh.
  - now rewrite app_nil_r.
  - inversion Hnd as [|? ? Hnotin Hnd']; subst.
    unfold clean_item at 1. simpl.
    rewrite (dict_set_fresh _ _ _ acc e (Py.strip s)) by (apply Hfresh; now left).
    rewrite IH; [now rewrite <- app_assoc | assumption |].
    intros k Hk. apply dict_get_app_fresh.
    + intros ->. contradiction.
    + apply Hfresh. now right.
Qed.

(** The first value of a mapping that is not a string stops the
    resolution. *)
Lemma clean_items_not_str (items : list (string * PyValue))
    (acc : dict string string) :
  existsb (fun item => negb (is_str (snd item))) items = true ->
  for_each clean_item items acc = Raise Py.AssertionError.
Proof.
  revert acc. induction items as [|[e v] rest IH]; simpl; intros acc H.
  - discriminate.
  - unfold clean_item at 1. destruct v; simpl in *; try reflexivity.
    now apply IH.
Qed.

Lemma clean_items_nodup (items : list (string * PyValue))
    (acc result : dict string string) :
  NoDup (dict_keys acc) ->
  for_each clean_item items acc = Return result ->
  NoDup (dict_keys result).
Proof.
  revert acc. induction items as [|[e v] rest IH]; simpl; intros acc Hnd H.
  - now inversion H; subst.
  - unfold clean_item at 1 in H. destruct v; simpl in H; try discriminate.
    apply IH in H; [assumption|].
    now apply (dict_set_nodup _ _ _ String.eqb_eq).
Qed.

(** The engines of a resolved definition are pairwise distinct. *)
Lemma get_view_definition_from_model_nodup (default_engine : string)
    (declared : PyValue) (definitions : dict string string) :
  snd (get_view_definition_from_model default_engine declared)
  = Return definitions ->
  NoDup (dict_keys definitions).
Proof.
  unfold get_view_definition_from_model.
  assert (Hraw : forall raw,
             match raw with
             | PyDict items => for_each clean_item items []
             | _ => cleaned <- get_cleaned_view_definition_value raw ;;
                    Return (dict_set String.eqb [] default_engine cleaned)
             end = Return definitions -> NoDup (dict_keys definitions)).
  { intros raw H. destruct raw; simpl in H; try discriminate.
    - inversion H; subst. simpl. repeat constructor. auto.
    - apply (clean_items_nodup items [] definitions); [constructor | exact H]. }
  destruct declared; simpl; intros H; try discriminate.
  - apply (Hraw (PyStr s) H).
  - apply (Hraw (PyDict items) H).
  - apply (Hraw declared H).
Qed.

(** C4 (amended). [get_view_definition_from_model] resolves the declared
    definition to a mapping of engines to stripped strings: a string goes
    to the default engine; a mapping of engines to strings keeps its
    engines, each value stripped; a zero-argument callable is called once
    and what it returns is resolved as if it had been declared. A value of
    a mapping that is not a string, a callable included, is not called and
    raises [AssertionError], as does any other non-string definition. *)
Theorem get_view_definition_from_model_resolves :
  forall (default_engine : string),
    (forall s,
        get_view_definition_from_model default_engine (PyStr s)
        = (0, Return [(default_engine, Py.strip s)]))
    /\ (forall pairs,
           NoDup (map fst pairs) ->
           get_view_definition_from_model default_engine
             (PyDict (map declare_pair pairs))
           = (0, Return (map clean_pair pairs)))
    /\ (forall returned,
           is_callable returned = false ->
           get_view_definition_from_model default_engine (PyCallable returned)
           = (1, snd (get_view_definition_from_model default_engine returned)))
    /\ (forall items,
           existsb (fun item => negb (is_str (snd item))) items = true ->
           snd (get_view_definition_from_model default_engine (PyDict items))
           = Raise Py.AssertionError)
    /\ (forall returned,
           snd (get_view_definition_from_model default_engine
                  (PyCallable (PyCallable returned)))
           = Raise Py.AssertionError)
    /\ snd (get_view_definition_from_model default_engine PyNone)
       = Raise Py.AssertionError.
Proof.
  intros default_engine. repeat split.
  - intros pairs Hnd. unfold get_view_definition_from_model.
    f_equal. apply (clean_items_strings pairs [] Hnd). reflexivity.
  - intros returned Hcall. destruct returned; try reflexivity. discriminate.
  - intros items H. apply (clean_items_not_str items [] H).
Qed.

Lemma get_view_definition_from_model_resolves_witness :
  get_view_definition_from_model "django.db.backends.mysql"
    Examples.callable_mapping
  = (1, Return [(Examples.postgresql, "SELECT 1");
                ("django.db.backends.sqlite3", "SELECT 2")]).
Proof.
  destruct (get_view_definition_from_model_resolves "django.db.backends.mysql")
    as [_ [_ [Hcall _]]].
  unfold Examples.callable_mapping.
  rewrite (Hcall (PyDict _) eq_refl). reflexivity.
Defined.

(** C4, as stated, fails: a callable given as the value of a mapping is
    not resolved to the string it returns. *)
Lemma callable_in_mapping_is_rejected :
  get_view_definition_from_model "django.db.backends.mysql"
    Examples.callable_in_mapping
  = (0, Raise Py.AssertionError).
Proof. reflexivity. Qed.

(* ================================================================= *)
(** ** Comparison of view definitions *)

Lemma isspace_semicolon : Py.isspace ";"%char = false.
Proof. reflexivity. Qed.

(** C2, as stated, fails on the code: the comparison trims whitespace,
    not statement terminators, so two definitions that differ only in a
    trailing [;] which the formatter keeps are not equivalent. *)
Lemma trailing_terminator_is_compared :
  Py.strip "SELECT 1;" = "SELECT 1;"
  /\ is_same_views Examples.verbatim "SELECT 1" "SELECT 1;" = false
  /\ ~ (forall (sqlparse_format : string -> string) (a : string),
           is_same_views sqlparse_format a (a ++ ";") = true).
Proof.
  split; [reflexivity|]. split; [reflexivity|].
  intros H. specialize (H Examples.verbatim "SELECT 1"). discriminate H.
Qed.

(* ================================================================= *)
(** ** The order of node keys and [sorted] *)

Module NodeOrder.

Lemma ascii_compare_refl (a : ascii) : Ascii.compare a a = Eq.
Proof. unfold Ascii.compare. apply N.compare_refl. Qed.

Lemma ascii_compare_lt_trans (a b c : ascii) :
  Ascii.compare a b = Lt -> Ascii.compare b c = Lt -> Ascii.compare a c = Lt.
Proof.
  unfold Ascii.compare. rewrite !N.compare_lt_iff. apply N.lt_trans.
Qed.

Lemma compare_refl (s : string) : String.compare s s = Eq.
Proof.
  induction s as [|c t IH]; simpl; [reflexivity|].
  now rewrite ascii_compare_refl.
Qed.

Lemma compare_lt_trans (a b c : string) :
  String.compare a b = Lt -> String.compare b c = Lt ->
  String.compare a c = Lt.
Proof.
  revert b c. induction a as [|x a IH]; intros [|y b] [|z c]; simpl;
    try congruence.
  destruct (Ascii.compare x y) eqn:Hxy; try discriminate;
    destruct (Ascii.compare y z) eqn:Hyz; try discriminate; intros Hab Hbc.
  - apply Ascii.compare_eq_iff in Hxy, Hyz. subst.
    rewrite ascii_compare_refl. now apply (IH b).
  - apply Ascii.compare_eq_iff in Hxy. subst. now rewrite Hyz.
  - apply Ascii.compare_eq_iff in Hyz. subst. now rewrite Hxy.
  - now rewrite (ascii_compare_lt_trans x y z).
Qed.

Lemma leb_refl (s : string) : String.leb s s = true.
Proof. unfold String.leb. now rewrite compare_refl. Qed.

Lemma leb_trans (a b c : string) :
  String.leb a b = true -> String.leb b c = true -> String.leb a c = true.
Proof.
  unfold String.leb.
  destruct (String.compare a b) eqn:Hab; try discriminate;
    destruct (String.compare b c) eqn:Hbc; try discriminate; intros _ _.
  - apply String.compare_eq_iff in Hab, Hbc. subst. now rewrite compare_refl.
  - apply String.compare_eq_iff in Hab. subst. now rewrite Hbc.
  - apply String.compare_eq_iff in Hbc. subst. now rewrite Hab.
  - now rewrite (compare_lt_trans a b c).
Qed.

Lemma node_leb_refl (a : NodeKey) : node_leb a a = true.
Proof. unfold node_leb. rewrite compare_refl. apply leb_refl. Qed.

Lemma node_leb_total (a b : NodeKey) :
  node_leb a b = true \/ node_leb b a = true.
Proof.
  unfold node_leb. rewrite (String.compare_antisym (fst b) (fst a)).
  destruct (String.compare (fst a) (fst b)) eqn:H; simpl; auto.
  apply String.leb_total.
Qed.

Lemma node_leb_trans (a b c : NodeKey) :
  node_leb a b = true -> node_leb b c = true -> node_leb a c = true.
Proof.
  unfold node_leb.
  destruct (String.compare (fst a) (fst b)) eqn:Hab; try discriminate;
    destruct (String.compare (fst b) (fst c)) eqn:Hbc; try discriminate.
  - apply String.compare_eq_iff in Hab, Hbc. rewrite Hab, Hbc, compare_refl.
    apply leb_trans.
  - apply String.compare_eq_iff in Hab. rewrite Hab, Hbc. auto.
  - apply String.compare_eq_iff in Hbc. rewrite <- Hbc, Hab. auto.
  - now rewrite (compare_lt_trans _ _ _ Hab Hbc).
Qed.

Lemma node_leb_antisym (a b : NodeKey) :
  node_leb a b = true -> node_leb b a = true -> a = b.
Proof.
  destruct a as [a1 a2], b as [b1 b2]. unfold node_leb. simpl.
  rewrite (String.compare_antisym b1 a1).
  destruct (String.compare a1 b1) eqn:H; simpl; try discriminate.
  apply String.compare_eq_iff in H. subst. intros H1 H2.
  now rewrite (String.leb_antisym _ _ H1 H2).
Qed.

Lemma insert_sorted_in (x y : NodeKey) (l : list NodeKey) :
  In y (insert_sorted x l) <-> y = x \/ In y l.
Proof.
  induction l as [|z rest IH]; simpl.
  - intuition.
  - destruct (node_leb x z); simpl; [intuition | rewrite IH; intuition].
Qed.

Lemma sorted_in (y : NodeKey) (l : list NodeKey) : In y (sorted l) <-> In y l.
Proof.
  induction l as [|x rest IH]; simpl; [tauto|].
  rewrite insert_sorted_in, IH. intuition.
Qed.

Lemma insert_sorted_ascending (x : NodeKey) (l : list NodeKey) :
  ascending l -> ascending (insert_sorted x l).
Proof.
  induction l as [|z rest IH]; simpl.
  - intros _. split; [intros y [] | exact I].
  - intros [Hz Hrest]. destruct (node_leb x z) eqn:Hxz; simpl.
    + split; [|split; assumption].
      intros y [<- | Hy]; [assumption|].
      apply (node_leb_trans x z y Hxz). now apply Hz.
    + split; [|now apply IH].
      intros y Hy. apply insert_sorted_in in Hy. destruct Hy as [-> | Hy].
      * destruct (node_leb_total x z) as [H | H]; [congruence | assumption].
      * now apply Hz.
Qed.

Lemma sorted_ascending (l : list NodeKey) : ascending (sorted l).
Proof.
  induction l as [|x rest IH]; simpl; [exact I|].
  now apply insert_sorted_ascending.
Qed.

Lemma last_item_in (l : list NodeKey) (p : NodeKey) :
  last_item l = Some p -> In p l.
Proof.
  induction l as [|x rest IH]; simpl; [discriminate|].
  destruct rest as [|y rest']; [intros [= ->]; now left|].
  intros H. right. now apply IH.
Qed.

Lemma last_item_none (l : list NodeKey) : last_item l = None -> l = [].
Proof.
  induction l as [|x rest IH]; simpl; [reflexivity|].
  destruct rest as [|y rest']; [discriminate|].
  intros H. apply IH in H. discriminate.
Qed.

Lemma last_item_greatest (l : list NodeKey) (p : NodeKey) :
  ascending l -> last_item l = Some p ->
  forall q, In q l -> node_leb q p = true.
Proof.
  induction l as [|x rest IH]; simpl; [discriminate|].
  intros [Hx Hrest] Hlast q Hq.
  destruct rest as [|y rest'].
  - inversion Hlast; subst. destruct Hq as [<- | []]. apply node_leb_refl.
  - destruct Hq as [<- | Hq].
    + apply Hx. now apply last_item_in.
    + now apply IH.
Qed.

(** What the walker takes as the next node is the greatest parent of the
    application, when there is one. *)
Lemma next_node_greatest (app : string) (ps : list NodeKey) (p : NodeKey) :
  last_item (app_parents app ps) = Some p <-> greatest_app_parent app ps p.
Proof.
  unfold app_parents, greatest_app_parent.
  assert (Hmem : forall q, In q (sorted (filter (fun x => String.eqb (fst x) app) ps))
                           <-> In q ps /\ fst q = app).
  { intros q. rewrite sorted_in, filter_In, String.eqb_eq. tauto. }
  split.
  - intros Hlast. pose proof (last_item_in _ _ Hlast) as Hin.
    apply Hmem in Hin. destruct Hin as [Hin Happ].
    split; [assumption|]. split; [assumption|].
    intros q Hq Hqapp.
    apply (last_item_greatest _ p (sorted_ascending _) Hlast).
    apply Hmem. now split.
  - intros [Hin [Happ Hmax]].
    destruct (last_item (sorted (filter (fun x => String.eqb (fst x) app) ps)))
      as [p'|] eqn:Hlast.
    + f_equal. pose proof (last_item_in _ _ Hlast) as Hin'.
      apply Hmem in Hin'. destruct Hin' as [Hin' Happ'].
      apply node_leb_antisym; [now apply Hmax|].
      apply (last_item_greatest _ p' (sorted_ascending _) Hlast).
      apply Hmem. now split.
    + apply last_item_none in Hlast.
      assert (Hp : In p []) by (rewrite <- Hlast; apply Hmem; now split).
      destruct Hp.
Qed.

Lemma next_node_none (app : string) (ps : list NodeKey) :
  last_item (app_parents app ps) = None <-> no_app_parent app ps.
Proof.
  unfold app_parents, no_app_parent. split.
  - intros Hlast q Hq Happ. apply last_item_none in Hlast.
    assert (Hin : In q (sorted (filter (fun x => String.eqb (fst x) app) ps))).
    { rewrite sorted_in, filter_In, String.eqb_eq. now split. }
    rewrite Hlast in Hin. destruct Hin.
  - intros Hnone.
    destruct (last_item (sorted (filter (fun x => String.eqb (fst x) app) ps)))
      as [p|] eqn:Hlast; [|reflexivity].
    apply last_item_in in Hlast.
    rewrite sorted_in, filter_In, String.eqb_eq in Hlast.
    destruct Hlast as [Hin Happ]. exfalso. now apply (Hnone p).
Qed.

End NodeOrder.

(* ================================================================= *)
(** ** The graph walker *)

Lemma view_codes_filter (l : list Operation) :
  view_codes (filter is_ViewRunPython l) = view_codes l.
Proof.
  induction l as [|op rest IH]; simpl; [reflexivity|].
  destruct op; simpl; try assumption. now rewrite IH.
Qed.

Lemma view_codes_length (l : list Operation) :
  List.length (view_codes (filter is_ViewRunPython l))
  = List.length (filter is_ViewRunPython l).
Proof.
  induction l as [|op rest IH]; simpl; [reflexivity|].
  destruct op; simpl; try assumption. now rewrite IH.
Qed.

(** The view operations found on the database side of a wrapper, as the
    loop sees them. *)
Lemma wrapper_view_operations (database_operations : list Operation) :
  match filter is_ViewRunPython database_operations with
  | [] => view_codes database_operations = []
  | view_operation :: others =>
      exists code,
        code_of view_operation = Some code
        /\ view_codes database_operations = code :: view_codes others
        /\ List.length (view_codes others) = List.length others
  end.
Proof.
  pose proof (view_codes_filter database_operations) as Hcodes.
  pose proof (view_codes_length database_operations) as Hlen.
  pose proof (filter_In is_ViewRunPython) as Hin.
  destruct (filter is_ViewRunPython database_operations)
    as [|view_operation others] eqn:Hf.
  - now rewrite <- Hcodes.
  - assert (Hv : is_ViewRunPython view_operation = true).
    { apply (Hin view_operation database_operations). rewrite Hf. now left. }
    destruct view_operation; try discriminate.
    exists code. simpl in *. split; [reflexivity|].
    split; [now rewrite <- Hcodes | now inversion Hlen].
Qed.

(** A wrapper in order shows the loop no view operation, or exactly one. *)
Lemma wrapper_ok_single (database_operations : list Operation) :
  (List.length (view_codes database_operations) <=? 1) = true ->
  (filter is_ViewRunPython database_operations = []
   /\ view_codes database_operations = [])
  \/ (exists view_operation code,
         filter is_ViewRunPython database_operations = [view_operation]
         /\ code_of view_operation = Some code
         /\ view_codes database_operations = [code]).
Proof.
  intros Hlen. apply Nat.leb_le in Hlen.
  pose proof (wrapper_view_operations database_operations) as Hw.
  destruct (filter is_ViewRunPython database_operations)
    as [|view_operation others].
  - left. now split.
  - right. destruct Hw as [code [Hcode [Hcodes Hothers]]].
    rewrite Hcodes in Hlen. simpl in Hlen. rewrite Hothers in Hlen.
    assert (Hnone : others = []).
    { destruct others; [reflexivity | simpl in Hlen; lia]. }
    subst others. exists view_operation, code. now rewrite Hcodes.
Qed.

(** In a migration whose wrappers are in order, the loop returns the
    stripped definition of the first matching view operation, and falls
    through when there is none. *)
Lemma scan_operations_first_match (default_engine for_table_name engine : string)
    (ops : list Operation) :
  wrappers_ok ops = true ->
  scan_operations default_engine for_table_name engine ops
  = Return (option_map Py.strip
              (hd_error (matching_definitions default_engine for_table_name
                                              engine ops))).
Proof.
  induction ops as [|op rest IH]; simpl; [reflexivity|].
  rewrite andb_true_iff. intros [Hop Hrest].
  destruct op; simpl in *; try (now apply IH).
  - destruct (matches_view default_engine for_table_name engine code);
      [reflexivity | now apply IH].
  - destruct (wrapper_ok_single _ Hop)
      as [[Hf Hc] | [view_operation [code [Hf [Hcode Hc]]]]];
      rewrite Hf, Hc; simpl; [now apply IH|].
    rewrite Hcode.
    destruct (matches_view default_engine for_table_name engine code);
      [reflexivity | now apply IH].
Qed.

(** Operations in order that record nothing for the view are passed over. *)
Lemma scan_operations_skip (default_engine for_table_name engine : string)
    (before rest : list Operation) :
  wrappers_ok before = true ->
  matching_definitions default_engine for_table_name engine before = [] ->
  scan_operations default_engine for_table_name engine (before ++ rest)
  = scan_operations default_engine for_table_name engine rest.
Proof.
  induction before as [|op more IH]; simpl; [reflexivity|].
  rewrite andb_true_iff. intros [Hop Hmore] Hnone.
  destruct op; simpl in *; try (now apply IH).
  - destruct (matches_view default_engine for_table_name engine code);
      [discriminate | now apply IH].
  - apply app_eq_nil in Hnone. destruct Hnone as [Hdb Hnone].
    destruct (wrapper_ok_single _ Hop)
      as [[Hf Hc] | [view_operation [code [Hf [Hcode Hc]]]]];
      rewrite Hf; simpl; [now apply IH|].
    rewrite Hcode. rewrite Hc in Hdb. simpl in Hdb.
    destruct (matches_view default_engine for_table_name engine code);
      [discriminate | now apply IH].
Qed.

(** A wrapper with more than one view operation on its database side
    fails the assertion, whatever these operations are for. *)
Lemma scan_operations_wrapper_assertion
    (default_engine for_table_name engine : string)
    (database_operations state_operations rest : list Operation) :
  2 <= List.length (view_codes database_operations) ->
  scan_operations default_engine for_table_name engine
    (SeparateDatabaseAndState database_operations state_operations :: rest)
  = Raise Py.AssertionError.
Proof.
  intros Hlen. simpl.
  pose proof (wrapper_view_operations database_operations) as Hw.
  destruct (filter is_ViewRunPython database_operations)
    as [|view_operation others].
  - rewrite Hw in Hlen. simpl in Hlen. lia.
  - destruct Hw as [code [Hcode [Hcodes Hothers]]].
    rewrite Hcodes in Hlen. simpl in Hlen. rewrite Hothers in Hlen.
    destruct others; [simpl in Hlen; lia | reflexivity].
Qed.

(** The walk passes through silent migrations along the greatest parents
    of the application. *)
Lemma walk_along (default_engine : string) (graph : MigrationGraph)
    (app for_table_name engine : string) (k : nat) (n n' : NodeKey) :
  walks_back default_engine graph app for_table_name engine k n n' ->
  forall fuel,
    walk (k + fuel) default_engine graph app for_table_name engine (Some n)
    = walk fuel default_engine graph app for_table_name engine (Some n').
Proof.
  induction 1 as [n | k n m e p n' Hm [Hok Hnone] He Hp Hwalk IH];
    intros fuel; [reflexivity|].
  simpl. rewrite Hm. simpl.
  rewrite (scan_operations_first_match _ _ _ _ Hok), Hnone. simpl.
  rewrite He. simpl.
  apply NodeOrder.next_node_greatest in Hp. rewrite Hp. apply IH.
Qed.

Lemma walk_found (default_engine : string) (graph : MigrationGraph)
    (app for_table_name engine : string) (n : NodeKey) (m : Migration)
    (d : string) (others : list string) (fuel : nat) :
  nodes graph n = Some m ->
  wrappers_ok (operations m) = true ->
  matching_definitions default_engine for_table_name engine (operations m)
  = d :: others ->
  walk (S fuel) default_engine graph app for_table_name engine (Some n)
  = Return (Py.strip d).
Proof.
  intros Hm Hok Hd. simpl. rewrite Hm. simpl.
  now rewrite (scan_operations_first_match _ _ _ _ Hok), Hd.
Qed.

Lemma walk_initial (default_engine : string) (graph : MigrationGraph)
    (app for_table_name engine : string) (n : NodeKey) (m : Migration)
    (e : Node) (fuel : nat) :
  nodes graph n = Some m ->
  silent default_engine for_table_name engine m ->
  node_map graph n = Some e ->
  no_app_parent app (parents e) ->
  walk (S fuel) default_engine graph app for_table_name engine (Some n)
  = Return ""%string.
Proof.
  intros Hm [Hok Hnone] He Hp. simpl. rewrite Hm. simpl.
  rewrite (scan_operations_first_match _ _ _ _ Hok), Hnone. simpl.
  rewrite He. simpl.
  apply NodeOrder.next_node_none in Hp. rewrite Hp. now destruct fuel.
Qed.

Lemma walk_assertion (default_engine : string) (graph : MigrationGraph)
    (app for_table_name engine : string) (n : NodeKey) (m : Migration)
    (before database_operations state_operations rest : list Operation)
    (fuel : nat) :
  nodes graph n = Some m ->
  operations m
  = before ++ SeparateDatabaseAndState database_operations state_operations
              :: rest ->
  wrappers_ok before = true ->
  matching_definitions default_engine for_table_name engine before = [] ->
  2 <= List.length (view_codes database_operations) ->
  walk (S fuel) default_engine graph app for_table_name engine (Some n)
  = Raise Py.AssertionError.
Proof.
  intros Hm Hops Hok Hnone Hlen. simpl. rewrite Hm. simpl. rewrite Hops.
  rewrite (scan_operations_skip _ _ _ _ _ Hok Hnone).
  now rewrite scan_operations_wrapper_assertion.
Qed.

(* ================================================================= *)
(** ** Linear histories *)

Lemma history_migration_at (pre post : list (string * Migration))
    (n : string) (m : Migration) :
  NoDup (map fst (pre ++ (n, m) :: post)) ->
  history_migration (pre ++ (n, m) :: post) n = Some m.
Proof.
  induction pre as [|[n0 m0] pre IH]; simpl.
  - now rewrite String.eqb_refl.
  - intros Hnd. inversion Hnd as [|? ? Hnotin Hnd']; subst.
    destruct (String.eqb n n0) eqn:E; [|now apply IH].
    apply String.eqb_eq in E. subst. exfalso. apply Hnotin.
    rewrite map_app. apply in_or_app. right. now left.
Qed.

Lemma history_node_at (app : string) (pre post : list (string * Migration))
    (n : string) (m : Migration) :
  NoDup (map fst (pre ++ (n, m) :: post)) ->
  history_node app (pre ++ (n, m) :: post) n
  = Some {| parents := match post with
                       | [] => []
                       | (p, _) :: _ => [(app, p)]
                       end |}.
Proof.
  induction pre as [|[n0 m0] pre IH]; simpl.
  - now rewrite String.eqb_refl.
  - intros Hnd. inversion Hnd as [|? ? Hnotin Hnd']; subst.
    destruct (String.eqb n n0) eqn:E; [|now apply IH].
    apply String.eqb_eq in E. subst. exfalso. apply Hnotin.
    rewrite map_app. apply in_or_app. right. now left.
Qed.

Lemma greatest_only_parent (app p : string) :
  greatest_app_parent app [(app, p)] (app, p).
Proof.
  split; [now left|]. split; [reflexivity|].
  intros q [<- | []] _. apply NodeOrder.node_leb_refl.
Qed.

(** In a linear history the walk goes down the list through the silent
    migrations. *)
Lemma linear_walks_back (default_engine app for_table_name engine : string)
    (newer : list (string * Migration)) :
  forall (pre older : list (string * Migration)) (n : string) (m : Migration),
    NoDup (map fst (pre ++ newer ++ (n, m) :: older)) ->
    (forall x, In x newer ->
               silent default_engine for_table_name engine (snd x)) ->
    walks_back default_engine
      (linear_graph app (pre ++ newer ++ (n, m) :: older))
      app for_table_name engine (List.length newer)
      (app, hd n (map fst newer)) (app, n).
Proof.
  induction newer as [|[n1 m1] newer IH]; intros pre older n m Hnd Hsilent.
  - apply walks_here.
  - simpl List.length. simpl hd.
    apply walks_up with (m := m1)
                        (e := {| parents := [(app, hd n (map fst newer))] |})
                        (p := (app, hd n (map fst newer))).
    + simpl. rewrite String.eqb_refl.
      apply (history_migration_at pre (newer ++ (n, m) :: older) n1 m1 Hnd).
    + apply (Hsilent (n1, m1)). now left.
    + simpl. rewrite String.eqb_refl.
      rewrite (history_node_at app pre (newer ++ (n, m) :: older) n1 m1 Hnd).
      destruct newer as [|[n2 m2] newer']; reflexivity.
    + apply greatest_only_parent.
    + replace (pre ++ ((n1, m1) :: newer) ++ (n, m) :: older)
        with ((pre ++ [(n1, m1)]) ++ newer ++ (n, m) :: older)
        by (rewrite <- app_assoc; reflexivity).
      apply IH.
      * rewrite <- app_assoc. exact Hnd.
      * intros x Hx. apply Hsilent. now right.
Qed.

Lemma linear_leaf (app : string) (newer older : list (string * Migration))
    (n : string) (m : Migration) :
  leaf_nodes (linear_graph app (newer ++ (n, m) :: older)) app
  = [(app, hd n (map fst newer))].
Proof.
  simpl. rewrite String.eqb_refl. destruct newer as [|[n1 m1] newer]; reflexivity.
Qed.

(** The recorded definition is found at migration [n], whatever lies
    before it in the history. *)
Lemma linear_history_found (default_engine app for_table_name engine : string)
    (newer older : list (string * Migration)) (n : string) (m : Migration)
    (d : string) (others : list string) (fuel : nat) :
  NoDup (map fst (newer ++ (n, m) :: older)) ->
  (forall x, In x newer -> silent default_engine for_table_name engine (snd x)) ->
  wrappers_ok (operations m) = true ->
  matching_definitions default_engine for_table_name engine (operations m)
  = d :: others ->
  List.length newer < fuel ->
  get_previous_view_definition_state fuel default_engine
    (linear_graph app (newer ++ (n, m) :: older)) app for_table_name engine
  = Return (Py.strip d).
Proof.
  intros Hnd Hsilent Hok Hd Hfuel.
  unfold get_previous_view_definition_state. rewrite linear_leaf. simpl hd_error.
  replace fuel with (List.length newer + S (fuel - S (List.length newer))) by lia.
  rewrite (walk_along default_engine _ app for_table_name engine _ _ (app, n)
             (linear_walks_back default_engine app for_table_name engine
                newer [] older n m Hnd Hsilent)).
  apply (walk_found _ _ _ _ _ _ m d others); [|assumption|assumption].
  simpl. rewrite String.eqb_refl.
  apply (history_migration_at newer older n m Hnd).
Qed.

Lemma linear_history_silent (default_engine app for_table_name engine : string)
    (history : list (string * Migration)) (fuel : nat) :
  NoDup (map fst history) ->
  (forall x, In x history ->
             silent default_engine for_table_name engine (snd x)) ->
  List.length history <= fuel ->
  get_previous_view_definition_state fuel default_engine
    (linear_graph app history) app for_table_name engine
  = Return ""%string.
Proof.
  intros Hnd Hsilent Hfuel.
  destruct history as [|x0 history0] eqn:Hh.
  - unfold get_previous_view_definition_state. simpl.
    rewrite String.eqb_refl. now destruct fuel.
  - rewrite <- Hh in *.
    destruct (exists_last (l := history)) as [newer [[n m] Hlast]];
      [congruence|].
    rewrite Hlast in *.
    unfold get_previous_view_definition_state. rewrite linear_leaf.
    simpl hd_error. rewrite length_app in Hfuel. simpl in Hfuel.
    replace fuel with (List.length newer + S (fuel - S (List.length newer)))
      by lia.
    rewrite (walk_along default_engine _ app for_table_name engine _ _ (app, n)
               (linear_walks_back default_engine app for_table_name engine
                  newer [] [] n m Hnd
                  (fun x Hx => Hsilent x (in_or_app _ _ _ (or_introl Hx))))).
    apply (walk_initial _ _ _ _ _ _ m {| parents := [] |}).
    + simpl. rewrite String.eqb_refl.
      apply (history_migration_at newer [] n m Hnd).
    + apply (Hsilent (n, m)). apply in_or_app. right. now left.
    + simpl. rewrite String.eqb_refl.
      apply (history_node_at app newer [] n m Hnd).
    + intros q [].
Qed.

(** C1 (amended). Provided the composite wrappers of the migrations the walk
    visits hold at most one view operation on their database side,
    [get_previous_view_definition_state] starts at the first leaf node of
    the application, moves from a migration that records nothing for
    [(table, engine)] to the greatest parent of the same application, and
    returns the stripped definition of the first matching view operation of
    the first migration that has one; it returns the empty string when
    there is no leaf, or when the walk ends at a migration without parent
    in the application. Over a linear history with the matching operation
    in one migration, it returns the stripped definition recorded there,
    however many migrations follow or precede it, and the empty string when
    no migration records one. *)
Theorem get_previous_view_definition_state_walk :
  forall (default_engine app for_table_name engine : string),
    (forall graph fuel,
        leaf_nodes graph app = [] ->
        get_previous_view_definition_state fuel default_engine graph app
          for_table_name engine = Return ""%string)
    /\ (forall graph leaf leaves k n m fuel,
           leaf_nodes graph app = leaf :: leaves ->
           walks_back default_engine graph app for_table_name engine k leaf n ->
           nodes graph n = Some m ->
           wrappers_ok (operations m) = true ->
           k < fuel ->
           match matching_definitions default_engine for_table_name engine
                                      (operations m) with
           | d :: _ =>
               get_previous_view_definition_state fuel default_engine graph
                 app for_table_name engine = Return (Py.strip d)
           | [] =>
               forall e,
                 node_map graph n = Some e ->
                 no_app_parent app (parents e) ->
                 get_previous_view_definition_state fuel default_engine graph
                   app for_table_name engine = Return ""%string
           end)
    /\ (forall newer older n m d others fuel,
           NoDup (map fst (newer ++ (n, m) :: older)) ->
           (forall x, In x newer ->
                      silent default_engine for_table_name engine (snd x)) ->
           wrappers_ok (operations m) = true ->
           matching_definitions default_engine for_table_name engine
                                (operations m) = d :: others ->
           List.length newer < fuel ->
           get_previous_view_definition_state fuel default_engine
             (linear_graph app (newer ++ (n, m) :: older)) app
             for_table_name engine
           = Return (Py.strip d))
    /\ (forall history fuel,
           NoDup (map fst history) ->
           (forall x, In x history ->
                      silent default_engine for_table_name engine (snd x)) ->
           List.length history <= fuel ->
           get_previous_view_definition_state fuel default_engine
             (linear_graph app history) app for_table_name engine
           = Return ""%string).
Proof.
  intros default_engine app for_table_name engine.
  split; [|split; [|split]].
  - intros graph fuel Hleaf. unfold get_previous_view_definition_state.
    rewrite Hleaf. now destruct fuel.
  - intros graph leaf leaves k n m fuel Hleaf Hwalk Hm Hok Hfuel.
    unfold get_previous_view_definition_state. rewrite Hleaf. simpl hd_error.
    replace fuel with (k + S (fuel - S k)) by lia.
    rewrite (walk_along _ _ _ _ _ _ _ _ Hwalk).
    destruct (matching_definitions default_engine for_table_name engine
                                   (operations m)) as [|d others] eqn:Hd.
    + intros e He Hp. apply (walk_initial _ _ _ _ _ _ m e); try assumption.
      now split.
    + now apply (walk_found _ _ _ _ _ _ m d others).
  - intros newer older n m d others fuel. apply linear_history_found.
  - intros history fuel. apply linear_history_silent.
Qed.

Lemma get_previous_view_definition_state_walk_witness :
  get_previous_view_definition_state 2 Examples.postgresql
    (linear_graph "reports" Examples.history_of_three) "reports" "report"
    Examples.postgresql
  = Return "SELECT 2"%string.
Proof.
  destruct (get_previous_view_definition_state_walk Examples.postgresql
              "reports" "report" Examples.postgresql)
    as [_ [_ [Hlinear _]]].
  apply (Hlinear
           [("0003_sales",
             {| operations := [Examples.view_pair "" "SELECT 3" "sales"] |})]
           [("0001_initial",
             {| operations := [HostOperation "CreateModel"] |})]
           "0002_report"
           {| operations := [Examples.view_pair "" " SELECT 2 " "report"] |}
           " SELECT 2 "%string []).
  - simpl. repeat constructor; simpl; intuition discriminate.
  - intros x [<- | []]. split; reflexivity.
  - reflexivity.
  - reflexivity.
  - simpl. lia.
Defined.

(** C1, as stated, fails: no operation of the history matches the view
    [report], and yet the walk does not return the empty string; it raises
    on a wrapper that creates two other views. *)
Lemma wrapper_of_other_views_raises :
  matching_definitions Examples.postgresql "report" Examples.postgresql
    [Examples.two_views_wrapper] = []
  /\ get_previous_view_definition_state 3 Examples.postgresql
       (linear_graph "reports" Examples.history_with_wrapper) "reports"
       "report" Examples.postgresql
     = Raise Py.AssertionError.
Proof. split; reflexivity. Qed.

(** C7 (amended). When the walk, having found no match so far, reaches a
    composite wrapper whose database side holds more than one view
    operation, whatever tables and engines these are for,
    [get_previous_view_definition_state] raises [AssertionError]. *)
Theorem get_previous_view_definition_state_asserts :
  forall (default_engine app for_table_name engine : string)
         (graph : MigrationGraph) (leaf : NodeKey) (leaves : list NodeKey)
         (k : nat) (n : NodeKey) (m : Migration)
         (before database_operations state_operations rest : list Operation)
         (fuel : nat),
    leaf_nodes graph app = leaf :: leaves ->
    walks_back default_engine graph app for_table_name engine k leaf n ->
    nodes graph n = Some m ->
    operations m
    = before ++ SeparateDatabaseAndState database_operations state_operations
                :: rest ->
    wrappers_ok before = true ->
    matching_definitions default_engine for_table_name engine before = [] ->
    2 <= List.length (view_codes database_operations) ->
    k < fuel ->
    get_previous_view_definition_state fuel default_engine graph app
      for_table_name engine
    = Raise Py.AssertionError.
Proof.
  intros default_engine app for_table_name engine graph leaf leaves k n m
         before database_operations state_operations rest fuel
         Hleaf Hwalk Hm Hops Hok Hnone Hlen Hfuel.
  unfold get_previous_view_definition_state. rewrite Hleaf. simpl hd_error.
  replace fuel with (k + S (fuel - S k)) by lia.
  rewrite (walk_along _ _ _ _ _ _ _ _ Hwalk).
  now apply (walk_assertion _ _ _ _ _ _ m before database_operations
               state_operations rest).
Qed.

Lemma get_previous_view_definition_state_asserts_witness :
  get_previous_view_definition_state 2 Examples.postgresql
    (linear_graph "reports" Examples.history_reaching_wrapper) "reports"
    "report" Examples.postgresql
  = Raise Py.AssertionError.
Proof.
  apply (get_previous_view_definition_state_asserts Examples.postgresql
           "reports" "report" Examples.postgresql
           (linear_graph "reports" Examples.history_reaching_wrapper)
           ("reports", "0002_sales"%string) [] 1
           ("reports", "0001_initial"%string)
           {| operations := [HostOperation "CreateModel";
                             Examples.ambiguous_wrapper] |}
           [HostOperation "CreateModel"]
           [Examples.view_pair "" "SELECT 0" "report";
            Examples.view_pair "" "SELECT 1" "report"] [] []).
  - reflexivity.
  - apply walks_up
      with (m := {| operations := [Examples.view_pair "" "SELECT 1" "sales"] |})
           (e := {| parents := [("reports", "0001_initial"%string)] |})
           (p := ("reports", "0001_initial"%string)).
    + reflexivity.
    + split; reflexivity.
    + reflexivity.
    + apply greatest_only_parent.
    + apply walks_here.
  - reflexivity.
  - reflexivity.
  - reflexivity.
  - reflexivity.
  - simpl. lia.
  - lia.
Defined.

(** C7, as stated, fails: the history holds a wrapper with two view
    operations for the same table and engine, and the walk, which finds a
    match in a later migration, returns without any assertion. *)
Lemma wrapper_behind_a_match_is_not_reached :
  List.length
    (matching_definitions Examples.postgresql "report" Examples.postgresql
       [Examples.ambiguous_wrapper]) = 2
  /\ get_previous_view_definition_state 3 Examples.postgresql
       (linear_graph "reports" Examples.history_replaced_after_wrapper)
       "reports" "report" Examples.postgresql
     = Return "SELECT 2"%string.
Proof. split; reflexivity. Qed.

(* ================================================================= *)
(** ** Generated operations *)

Lemma for_each_app {A S : Type} (body : A -> S -> Outcome S)
    (l1 l2 : list A) (st : S) :
  for_each body (l1 ++ l2) st
  = (st' <- for_each body l1 st ;; for_each body l2 st').
Proof.
  revert st. induction l1 as [|x rest IH]; simpl; intros st; [reflexivity|].
  destruct (body x st); simpl; auto.
Qed.

Lemma operations_of_add (generated : GeneratedOperations) (app app' : string)
    (operation : Operation) (dependencies : list Dependency) :
  operations_of (add_operation generated app operation dependencies) app'
  = if String.eqb app' app
    then operations_of generated app' ++ [(operation, dependencies)]
    else operations_of generated app'.
Proof.
  unfold operations_of, add_operation.
  destruct (String.eqb app' app) eqn:E.
  - apply String.eqb_eq in E. subst.
    now rewrite (dict_get_set_same _ _ _ String.eqb_eq).
  - apply String.eqb_neq in E.
    now rewrite (dict_get_set_other _ _ _ String.eqb_eq).
Qed.

(** What is recorded under an application after a list of operations has
    been emitted: what was there, then the operations emitted for it, in
    order. *)
Lemma operations_of_emit (emitted : list (string * GeneratedOperation))
    (generated : GeneratedOperations) (app : string) :
  operations_of (emit generated emitted) app
  = operations_of generated app
    ++ map snd (filter (fun x => String.eqb app (fst x)) emitted).
Proof.
  unfold emit. revert generated.
  induction emitted as [|[a [op deps]] rest IH]; simpl; intros generated.
  - now rewrite app_nil_r.
  - rewrite IH, operations_of_add.
    destruct (String.eqb app a); simpl; [now rewrite <- app_assoc | reflexivity].
Qed.

Lemma tagged_operations_add (generated : GeneratedOperations)
    (app app' table engine : string) (operation : Operation)
    (dependencies : list Dependency) :
  tagged_operations (add_operation generated app' operation dependencies)
                    app table engine
  = tagged_operations generated app table engine
    ++ (if String.eqb app app' && tagged table engine (operation, dependencies)
        then [(operation, dependencies)] else []).
Proof.
  unfold tagged_operations. rewrite operations_of_add.
  destruct (String.eqb app app'); simpl; [|now rewrite app_nil_r].
  rewrite filter_app. simpl.
  now destruct (tagged table engine (operation, dependencies)).
Qed.

(* ================================================================= *)
(** ** Removal of old views *)

Lemma previous_view_models_from (state : ProjectState)
    (acc : dict (string * string) DBViewModelState) :
  NoDup (dict_keys acc ++ dict_keys state) ->
  fold_left
    (fun view_models (item : (string * string) * StateEntry) =>
       match snd item with
       | ViewModelState v => dict_set pair_eqb view_models (fst item) v
       | PlainModelState _ => view_models
       end)
    state acc
  = acc ++ view_entries state.
Proof.
  revert acc. induction state as [|[key e] rest IH]; simpl; intros acc Hnd.
  - now rewrite app_nil_r.
  - destruct e as [m | v].
    + apply IH. now apply NoDup_remove_1 in Hnd.
    + rewrite dict_set_fresh.
      * rewrite IH; [now rewrite <- app_assoc|].
        unfold dict_keys in *. rewrite map_app. simpl.
        now rewrite <- app_assoc.
      * apply (dict_get_none _ _ _ pair_eqb_eq).
        apply NoDup_remove_2 in Hnd. intros Hin. apply Hnd.
        apply in_or_app. now left.
Qed.

(** The previous view models are the view entries of the snapshot. *)
Lemma get_previous_view_models_state_entries (state : ProjectState) :
  NoDup (dict_keys state) ->
  get_previous_view_models_state state = view_entries state.
Proof.
  intros Hnd. unfold get_previous_view_models_state.
  now rewrite previous_view_models_from.
Qed.

Lemma delete_old_view_attributed (env : Detection) (key : string * string)
    (v : DBViewModelState) (a : ViewAttributes)
    (generated : GeneratedOperations) :
  view_attributes v = Some a ->
  delete_old_view env (key, v) generated
  = Return (if in_registry (registry env) (state_table_name a)
            then generated
            else add_operation generated (fst key) (drop_pair a) []).
Proof.
  intros Ha. unfold delete_old_view. destruct key as [app hash].
  rewrite Ha. unfold drop_pair.
  destruct (in_registry (registry env) (state_table_name a)); simpl;
    [reflexivity|].
  now destruct (state_base_class a).
Qed.

Lemma delete_old_views_loop (env : Detection) (state : ProjectState)
    (generated : GeneratedOperations) :
  views_attributed state ->
  for_each (delete_old_view env) (view_entries state) generated
  = Return (emit generated
              (map emitted_drop (removed_views (registry env) state))).
Proof.
  revert generated.
  induction state as [|[key e] rest IH]; intros generated Hattr;
    [reflexivity|].
  assert (Hrest : views_attributed rest).
  { intros k v Hin. apply (Hattr k v). now right. }
  destruct e as [m | v]; cbn [view_entries removed_views for_each];
    [now apply IH|].
  destruct (view_attributes v) as [a|] eqn:Ha.
  - rewrite (delete_old_view_attributed env key v a generated Ha).
    cbn [bind].
    destruct (in_registry (registry env) (state_table_name a));
      rewrite (IH _ Hrest); reflexivity.
  - exfalso. apply (Hattr key v); [now left | assumption].
Qed.

(** C6. For a previous snapshot whose view entries carry their attributes,
    [delete_old_views] returns, and emits one Drop pair for each view entry
    whose table name is not in the registry (one entry standing for one
    engine of one view), in the order of the snapshot and under the entry's
    application; each pair is non-atomic, drops the entry's table on the
    entry's engine, and its backward action carries the entry's
    definition. *)
Theorem delete_old_views_emits_drops :
  forall (env : Detection) (generated : GeneratedOperations),
    NoDup (dict_keys (from_state env)) ->
    views_attributed (from_state env) ->
    let removed := removed_views (registry env) (from_state env) in
    delete_old_views env generated
    = Return (emit generated (map emitted_drop removed))
    /\ (forall app,
           operations_of (emit generated (map emitted_drop removed)) app
           = operations_of generated app
             ++ map (fun x => (drop_pair (snd x), []))
                    (filter (fun x => String.eqb app (fst x)) removed))
    /\ (forall a,
           exists drop backward,
             drop_pair a = ViewDropRunPython drop backward false
             /\ drop_table_name drop = state_table_name a
             /\ drop_view_engine drop = state_view_engine a
             /\ view_definition backward = state_view_definition a
             /\ table_name backward = state_table_name a
             /\ view_engine backward = state_view_engine a).
Proof.
  intros env generated Hnd Hattr removed. split; [|split].
  - unfold delete_old_views.
    rewrite (get_previous_view_models_state_entries _ Hnd).
    now apply delete_old_views_loop.
  - intros app. rewrite operations_of_emit. f_equal.
    induction removed as [|x rest IH]; simpl; [reflexivity|].
    destruct (String.eqb app (fst x)); simpl; now rewrite IH.
  - intros a. eexists. eexists. unfold drop_pair. repeat split.
Qed.

Lemma delete_old_views_emits_drops_witness :
  delete_old_views (Examples.detection PyNone ["sales"%string]) []
  = Return
      [("reports"%string,
        [(drop_pair (Examples.report_attributes Examples.postgresql "SELECT 1"),
          []);
         (drop_pair (Examples.report_attributes Examples.sqlite "SELECT 2"),
          [])])].
Proof.
  assert (Hnd : NoDup (dict_keys (from_state
                          (Examples.detection PyNone ["sales"%string])))).
  { simpl. repeat constructor; simpl; intuition discriminate. }
  assert (Hattr : views_attributed
                    (from_state (Examples.detection PyNone ["sales"%string]))).
  { intros key v. simpl.
    intros [H | [H | [H | [H | []]]]]; inversion H; subst; discriminate. }
  destruct (delete_old_views_emits_drops
              (Examples.detection PyNone ["sales"%string]) [] Hnd Hattr)
    as [Hrun _].
  rewrite Hrun. reflexivity.
Defined.

(* ================================================================= *)
(** ** Generation of view operations *)

Lemma is_same_views_refl (sqlparse_format : string -> string) (s : string) :
  is_same_views sqlparse_format s s = true.
Proof. unfold is_same_views. apply String.eqb_refl. Qed.

Lemma generate_view_operation_returns (env : Detection)
    (graph : MigrationGraph) (app model : string) (view_model : ModelClass)
    (entry : StateEntry) (base : BaseClass) (engine latest current : string)
    (generated : GeneratedOperations) :
  dict_get pair_eqb (to_state env) (app, model) = Some entry ->
  model_base view_model = Some base ->
  get_previous_view_definition_state (loop_bound env) (default_engine env)
    graph app (db_table view_model) engine = Return current ->
  generate_view_operation env graph app model view_model (engine, latest)
                          generated
  = Return (if is_same_views (sqlparse_format env) current latest
            then generated
            else add_operation generated app
                   (create_pair base current latest (db_table view_model)
                                engine)
                   (base_dependencies (entry_bases entry))).
Proof.
  intros Hentry Hbase Hwalk. unfold generate_view_operation.
  rewrite Hwalk. cbn [bind].
  destruct (is_same_views (sqlparse_format env) current latest);
    cbn [negb]; [reflexivity|].
  rewrite Hentry, Hbase. now destruct base.
Qed.

Lemma tagged_create_pair (base : BaseClass)
    (previous latest table engine engine' : string)
    (dependencies : list Dependency) :
  tagged table engine
         (create_pair base previous latest table engine', dependencies)
  = String.eqb engine' engine.
Proof. unfold tagged. simpl. now rewrite String.eqb_refl. Qed.

(** The loop over the engines of one model: it returns, and what it
    records for [(table, engine)] is the one pair of that engine, if the
    model declares it and the definition changed. *)
Lemma generate_view_operations_loop (env : Detection) (graph : MigrationGraph)
    (app model : string) (view_model : ModelClass) (entry : StateEntry)
    (base : BaseClass) (engine : string)
    (definitions : dict string string) :
  dict_get pair_eqb (to_state env) (app, model) = Some entry ->
  model_base view_model = Some base ->
  NoDup (dict_keys definitions) ->
  (forall e, In e (dict_keys definitions) ->
             exists current,
               get_previous_view_definition_state (loop_bound env)
                 (default_engine env) graph app (db_table view_model) e
               = Return current) ->
  get_previous_view_definition_state (loop_bound env) (default_engine env)
    graph app (db_table view_model) engine = Return ""%string ->
  forall generated,
  exists generated',
    for_each (generate_view_operation env graph app model view_model)
             definitions generated = Return generated'
    /\ tagged_operations generated' app (db_table view_model) engine
       = tagged_operations generated app (db_table view_model) engine
         ++ match dict_get String.eqb definitions engine with
            | Some latest =>
                if is_same_views (sqlparse_format env) "" latest then []
                else [(create_pair base "" latest (db_table view_model) engine,
                       base_dependencies (entry_bases entry))]
            | None => []
            end.
Proof.
  intros Hentry Hbase Hnd Hwalks Hnew.
  induction definitions as [|[e latest] rest IH]; intros generated.
  - exists generated. split; [reflexivity | now rewrite app_nil_r].
  - inversion Hnd as [|? ? Hnotin Hnd']; subst.
    destruct (Hwalks e (or_introl eq_refl)) as [current Hcurrent].
    cbn [for_each].
    rewrite (generate_view_operation_returns env graph app model view_model
               entry base e latest current generated Hentry Hbase Hcurrent).
    cbn [bind].
    destruct (IH Hnd' (fun e' H => Hwalks e' (or_intror H))
                 (if is_same_views (sqlparse_format env) current latest
                  then generated
                  else add_operation generated app
                         (create_pair base current latest
                                      (db_table view_model) e)
                         (base_dependencies (entry_bases entry))))
      as [generated' [Hrun Htagged]].
    exists generated'. split; [exact Hrun|]. rewrite Htagged.
    cbn [dict_get]. destruct (String.eqb engine e) eqn:E.
    + apply String.eqb_eq in E. subst e.
      assert (Hnone : dict_get String.eqb rest engine = None)
        by now apply (dict_get_none _ _ _ String.eqb_eq).
      rewrite Hnone, app_nil_r.
      rewrite Hnew in Hcurrent. inversion Hcurrent; subst current.
      destruct (is_same_views (sqlparse_format env) "" latest);
        [now rewrite app_nil_r|].
      rewrite tagged_operations_add, tagged_create_pair, !String.eqb_refl.
      reflexivity.
    + destruct (is_same_views (sqlparse_format env) current latest);
        [reflexivity|].
      rewrite tagged_operations_add, tagged_create_pair.
      rewrite (String.eqb_sym e engine), E, andb_false_r, app_nil_r.
      reflexivity.
Qed.

(** Along the history of the application, with its wrappers in order, the
    walker returns the stripped definition of the newest matching view
    operation, and the empty string when there is none. *)
Lemma walk_lineage (default_engine : string) (graph : MigrationGraph)
    (app for_table_name engine : string) (n : NodeKey) (ms : list Migration) :
  lineage graph app n ms ->
  history_in_order ms ->
  forall fuel,
    List.length ms <= fuel ->
    walk fuel default_engine graph app for_table_name engine (Some n)
    = Return match history_definitions default_engine for_table_name engine
                                       ms with
             | d :: _ => Py.strip d
             | [] => ""%string
             end.
Proof.
  unfold history_definitions.
  induction 1 as [n m e Hm He Hp | n m e p ms Hm He Hp Hrest IH];
    intros Hok fuel Hfuel; (destruct fuel as [|fuel]; [cbn in Hfuel; lia|]);
    cbn [walk flat_map]; rewrite Hm; cbn [bind];
    rewrite (scan_operations_first_match _ _ _ _ (Hok m (or_introl eq_refl)));
    destruct (matching_definitions default_engine for_table_name engine
                                   (operations m)) as [|d others];
    cbn [hd_error option_map bind List.app]; try reflexivity;
    rewrite He; cbn [bind].
  - apply NodeOrder.next_node_none in Hp. rewrite Hp. now destruct fuel.
  - apply NodeOrder.next_node_greatest in Hp. rewrite Hp.
    apply IH; [intros m' Hin; apply Hok; now right | cbn in Hfuel; lia].
Qed.

Lemma walker_reads_history (default_engine : string) (graph : MigrationGraph)
    (app for_table_name engine : string) (ms : list Migration) (fuel : nat) :
  history_of graph app ms ->
  history_in_order ms ->
  List.length ms <= fuel ->
  get_previous_view_definition_state fuel default_engine graph app
    for_table_name engine
  = Return match history_definitions default_engine for_table_name engine
                                     ms with
           | d :: _ => Py.strip d
           | [] => ""%string
           end.
Proof.
  unfold history_of, get_previous_view_definition_state.
  destruct (hd_error (leaf_nodes graph app)) as [leaf|].
  - intros Hlineage Hok Hfuel. now apply (walk_lineage _ _ _ _ _ leaf ms).
  - intros -> _ _. now destruct fuel.
Qed.

(** C5 (amended). Let the prior history of the application, walked from
    its first leaf along the greatest parents of the application down to
    its first migration, hold at most one view operation in each composite
    wrapper and no view operation for the model's table and [engine], and
    let the loop bound cover it. Let a view-backed model of the current
    snapshot declare, for [engine], a definition [latest] that is not
    equivalent to the empty definition. Then, from whatever has been
    generated when the pass reaches the model, the loop over the model's
    engines returns and records exactly one Create/Replace pair tagged
    with the model's table and that engine; the pair is non-atomic, its
    forward action carries [latest] without surrounding [;], and its
    backward action carries the empty string. *)
Theorem generate_views_operations_new_view :
  forall (env : Detection) (graph : MigrationGraph)
         (history : list Migration)
         (before : GeneratedOperations)
         (earlier later : list ((string * string) * ModelClass))
         (app model : string) (view_model : ModelClass) (entry : StateEntry)
         (base : BaseClass) (definitions : dict string string)
         (engine latest : string),
    history_of graph app history ->
    history_in_order history ->
    List.length history <= loop_bound env ->
    history_definitions (default_engine env) (db_table view_model) engine
                        history = [] ->
    get_current_view_models (registry env) (all_models env)
    = earlier ++ ((app, model), view_model) :: later ->
    dict_get pair_eqb (to_state env) (app, model) = Some entry ->
    model_base view_model = Some base ->
    snd (get_view_definition_from_model (default_engine env)
           (declared_view_definition view_model)) = Return definitions ->
    dict_get String.eqb definitions engine = Some latest ->
    is_same_views (sqlparse_format env) "" latest = false ->
    generate_views_operations env graph before
    = (reached <- for_each (generate_model_views_operations env graph)
                           earlier before ;;
       generated <- generate_model_views_operations env graph
                      ((app, model), view_model) reached ;;
       for_each (generate_model_views_operations env graph) later generated)
    /\ forall reached,
         exists generated,
           generate_model_views_operations env graph
             ((app, model), view_model) reached
           = Return generated
           /\ tagged_operations generated app (db_table view_model) engine
              = tagged_operations reached app (db_table view_model) engine
                ++ [(ViewRunPython
                       {| migration_class := forward_class_of base;
                          view_definition := Py.strip_chars ";" latest;
                          table_name := db_table view_model;
                          view_engine := Some engine |}
                       {| migration_class := backward_class_of base;
                          view_definition := ""%string;
                          table_name := db_table view_model;
                          view_engine := Some engine |}
                       false,
                     base_dependencies (entry_bases entry))].
Proof.
  intros env graph history before earlier later app model view_model entry
         base definitions engine latest
         Hhistory Horder Hbound Hnone Hmodels Hentry Hbase Hdefs Hlatest
         Hdiffers.
  split.
  - unfold generate_views_operations. rewrite Hmodels, for_each_app.
    reflexivity.
  - intros reached.
    assert (Hwalks : forall e, In e (dict_keys definitions) ->
               exists current,
                 get_previous_view_definition_state (loop_bound env)
                   (default_engine env) graph app (db_table view_model) e
                 = Return current).
    { intros e _. eexists.
      apply (walker_reads_history _ _ _ _ _ history); assumption. }
    assert (Hnew : get_previous_view_definition_state (loop_bound env)
                     (default_engine env) graph app (db_table view_model)
                     engine = Return ""%string).
    { rewrite (walker_reads_history _ _ _ _ _ history (loop_bound env)
                 Hhistory Horder Hbound).
      now rewrite Hnone. }
    destruct (generate_view_operations_loop env graph app model view_model
                entry base engine definitions Hentry Hbase
                (get_view_definition_from_model_nodup _ _ _ Hdefs)
                Hwalks Hnew reached)
      as [generated [Hrun Htagged]].
    exists generated. split.
    + unfold generate_model_views_operations. rewrite Hdefs. exact Hrun.
    + rewrite Htagged, Hlatest, Hdiffers. reflexivity.
Qed.

Lemma generate_views_operations_new_view_witness :
  history_of MoreExamples.sales_history "reports"
             [MoreExamples.sales_migration]
  /\ exists generated,
       generate_views_operations
         (Examples.detection (PyStr "SELECT 1;") ["report"%string])
         MoreExamples.sales_history []
       = Return generated
       /\ List.length (tagged_operations generated "reports" "report"
                                         Examples.postgresql) = 1.
Proof.
  assert (Hhistory : history_of MoreExamples.sales_history "reports"
                                [MoreExamples.sales_migration]).
  { unfold history_of. cbn.
    apply lineage_root with (e := {| parents := [] |});
      [reflexivity | reflexivity | intros q []]. }
  split; [exact Hhistory|].
  destruct (generate_views_operations_new_view
              (Examples.detection (PyStr "SELECT 1;") ["report"%string])
              MoreExamples.sales_history [MoreExamples.sales_migration]
              [] [] []
              "reports" "report" (Examples.report_model (PyStr "SELECT 1;"))
              (PlainModelState
                 {| app_label := "reports";
                    model_state_name := "Report";
                    bases := [BaseString "reports.Base"; BaseClassObject] |})
              DBView [(Examples.postgresql, "SELECT 1;"%string)]
              Examples.postgresql "SELECT 1;"%string Hhistory)
    as [Hpass Hmodel]; try reflexivity.
  - intros m [<- | []]. reflexivity.
  - cbn. lia.
  - destruct (Hmodel []) as [generated [Hrun Htagged]].
    exists generated. split.
    + rewrite Hpass. cbn [for_each bind]. rewrite Hrun. reflexivity.
    + exact (f_equal (@List.length GeneratedOperation) Htagged).
Defined.

(** C5, as stated, fails: a newly added view model whose declared
    definition is blank, with no history at all, gets no Create/Replace
    pair, whatever the formatter is. *)
Lemma blank_definition_emits_nothing :
  get_previous_view_definition_state 8 Examples.postgresql Examples.no_history
    "reports" "report" Examples.postgresql = Return ""%string
  /\ generate_views_operations
       (Examples.detection (PyStr "  ") ["report"%string])
       Examples.no_history []
     = Return []
  /\ (forall format,
         generate_views_operations
           (Examples.detection_formatted format (PyStr "  ")
                                         ["report"%string])
           Examples.no_history []
         = Return []).
Proof.
  split; [reflexivity|]. split; [reflexivity|].
  intros format. cbv - [is_same_views].
  rewrite is_same_views_refl. reflexivity.
Qed.

(* ================================================================= *)
(** ** Further properties of the state transitions *)

Lemma lower_app (a b : string) :
  Py.lower (a ++ b) = (Py.lower a ++ Py.lower b)%string.
Proof.
  induction a as [|c t IH]; simpl; [reflexivity | now rewrite IH].
Qed.

(** The key of a view entry does not see letter case. *)
Lemma hash_ignores_case (t1 t2 : string) (e1 e2 : option string) :
  Py.lower t1 = Py.lower t2 ->
  Py.lower (format_engine e1) = Py.lower (format_engine e2) ->
  get_table_engine_name_hash t1 e1 = get_table_engine_name_hash t2 e2.
Proof.
  intros Ht He. unfold get_table_engine_name_hash.
  rewrite !lower_app, Ht, He. reflexivity.
Qed.

Lemma dict_del_set (K V : Type) (eqb : K -> K -> bool)
    (eqb_eq : forall a b, eqb a b = true <-> a = b)
    (d : dict K V) (k : K) (v : V) :
  dict_del eqb (dict_set eqb d k v) k
  = Some match dict_del eqb d k with
         | Some d' => d'
         | None => d
         end.
Proof.
  induction d as [|[k0 v0] rest IH]; simpl.
  - now rewrite (eqb_same _ eqb eqb_eq).
  - destruct (eqb k k0) eqn:E; simpl; rewrite E; [reflexivity|].
    rewrite IH. now destruct (dict_del eqb rest k).
Qed.

(** X1. Two forward actions of one application whose table names and
    engines agree up to letter case are kept under one key: applying the
    second after the first replaces the entry of the first, and the state
    holds the attributes of the second only. *)
Theorem views_differing_in_case_share_entry :
  forall (state : ProjectState) (app : string) (first second : ViewMigration)
         (base1 base2 : BaseClass),
    migration_class first = forward_class_of base1 ->
    migration_class second = forward_class_of base2 ->
    Py.lower (table_name first) = Py.lower (table_name second) ->
    Py.lower (format_engine (view_engine first))
    = Py.lower (format_engine (view_engine second)) ->
    exists state1 state2,
      ViewRunPython_state_forwards true first app state = Return state1
      /\ ViewRunPython_state_forwards true second app state1 = Return state2
      /\ List.length state2 = List.length state1
      /\ dict_keys state2 = dict_keys state1
      /\ dict_get pair_eqb state2
           (app, get_table_engine_name_hash (table_name first)
                                            (view_engine first))
         = Some (ViewModelState
                   {| view_app_label := app;
                      view_name :=
                        get_table_engine_name_hash (table_name second)
                                                   (view_engine second);
                      view_attributes :=
                        Some {| state_view_engine := view_engine second;
                                state_view_definition := view_definition second;
                                state_base_class := base2;
                                state_table_name := table_name second |} |}).
Proof.
  intros state app first second base1 base2 Hc1 Hc2 Ht He.
  pose proof (hash_ignores_case _ _ _ _ Ht He) as Hkey.
  rewrite (ViewRunPython_state_forwards_set state app first base1 Hc1).
  eexists. eexists. split; [reflexivity|].
  rewrite (ViewRunPython_state_forwards_set _ app second base2 Hc2).
  split; [reflexivity|]. rewrite <- Hkey.
  assert (Hmem : forall e,
             dict_mem pair_eqb
               (dict_set pair_eqb state
                  (app, get_table_engine_name_hash (table_name first)
                                                   (view_engine first)) e)
               (app, get_table_engine_name_hash (table_name first)
                                                (view_engine first)) = true).
  { intros e. unfold dict_mem.
    now rewrite (dict_get_set_same _ _ _ pair_eqb_eq). }
  split; [|split].
  - now rewrite dict_length_set, Hmem.
  - now rewrite (dict_keys_set _ _ pair_eqb (dict_set _ _ _ _)), Hmem.
  - apply (dict_get_set_same _ _ _ pair_eqb_eq).
Qed.

Lemma views_differing_in_case_share_entry_witness :
  exists state1 state2,
    ViewRunPython_state_forwards true MoreExamples.forward_upper "reports" []
    = Return state1
    /\ ViewRunPython_state_forwards true MoreExamples.forward_lower "reports"
         state1 = Return state2
    /\ List.length state2 = 1.
Proof.
  destruct (views_differing_in_case_share_entry [] "reports"
              MoreExamples.forward_upper MoreExamples.forward_lower
              DBView DBView eq_refl eq_refl eq_refl eq_refl)
    as [state1 [state2 [H1 [H2 [Hlen _]]]]].
  exists state1, state2. split; [exact H1|]. split; [exact H2|].
  rewrite Hlen. vm_compute in H1. inversion H1. reflexivity.
Defined.

(** X2. Applying a Create/Replace-Forward action and then the Drop of the
    same table and engine leaves the state without any entry under the
    key: exactly the state before when the key was free, the state before
    minus the entry that was replaced otherwise. *)
Theorem create_then_drop_removes_entry :
  forall (state : ProjectState) (app : string) (code : ViewMigration)
         (drop : DropViewMigration) (base : BaseClass),
    migration_class code = forward_class_of base ->
    drop_table_name drop = table_name code ->
    drop_view_engine drop = view_engine code ->
    let key := (app, get_table_engine_name_hash (table_name code)
                                                (view_engine code)) in
    exists created,
      ViewRunPython_state_forwards true code app state = Return created
      /\ ViewDropRunPython_state_forwards true drop app created
         = Return match dict_del pair_eqb state key with
                  | Some without => without
                  | None => state
                  end
      /\ (dict_get pair_eqb state key = None ->
          ViewDropRunPython_state_forwards true drop app created
          = Return state).
Proof.
  intros state app code drop base Hclass Htable Hengine key.
  rewrite (ViewRunPython_state_forwards_set state app code base Hclass).
  fold key. eexists. split; [reflexivity|].
  unfold ViewDropRunPython_state_forwards, remove_model.
  rewrite Htable, Hengine. fold key.
  rewrite (dict_del_set _ _ pair_eqb pair_eqb_eq).
  split; [reflexivity|].
  intros Hfree. now rewrite (dict_del_unbound _ _ _ _ _ Hfree).
Qed.

Lemma create_then_drop_removes_entry_witness :
  exists created,
    ViewRunPython_state_forwards true
      (Examples.forward_view "SELECT 2" "report") "reports"
      Examples.state_with_report = Return created
    /\ ViewDropRunPython_state_forwards true Examples.drop_report "reports"
         created = Return [].
Proof.
  destruct (create_then_drop_removes_entry Examples.state_with_report
              "reports" (Examples.forward_view "SELECT 2" "report")
              Examples.drop_report DBView eq_refl eq_refl eq_refl)
    as [created [Hcreate [Hdrop _]]].
  exists created. split; [exact Hcreate | exact Hdrop].
Defined.

(* ================================================================= *)
(** ** Further properties of the graph walker *)

Lemma filter_idem {A : Type} (f : A -> bool) (l : list A) :
  filter f (filter f l) = filter f l.
Proof.
  induction l as [|x rest IH]; simpl; [reflexivity|].
  destruct (f x) eqn:E; simpl; [now rewrite E, IH | exact IH].
Qed.

Lemma scan_operations_pruned (default_engine for_table_name engine : string)
    (ops : list Operation) :
  scan_operations default_engine for_table_name engine (prune_operations ops)
  = scan_operations default_engine for_table_name engine ops.
Proof.
  unfold prune_operations.
  induction ops as [|op rest IH]; [reflexivity|].
  destruct op; cbn [filter walker_sees map walker_view scan_operations];
    try exact IH.
  - now rewrite IH.
  - rewrite filter_idem, IH. reflexivity.
Qed.

(** X3. The walker reads nothing but the view-forward operations, at top
    level and on the database side of composite wrappers: removing every
    other operation of every migration (a Drop of the view included),
    every other database-side operation and the state side of the wrappers
    leaves its result unchanged. *)
Theorem walker_reads_view_operations_only :
  forall (fuel : nat) (default_engine : string) (graph : MigrationGraph)
         (app for_table_name engine : string),
    get_previous_view_definition_state fuel default_engine
      (prune_graph graph) app for_table_name engine
    = get_previous_view_definition_state fuel default_engine graph app
        for_table_name engine.
Proof.
  intros fuel default_engine graph app for_table_name engine.
  unfold get_previous_view_definition_state.
  change (leaf_nodes (prune_graph graph) app) with (leaf_nodes graph app).
  generalize (hd_error (leaf_nodes graph app)). intros last_node.
  revert last_node. induction fuel as [|fuel IH]; intros [node|];
    try reflexivity.
  cbn [walk prune_graph nodes node_map].
  destruct (nodes graph node) as [m|]; [|reflexivity].
  cbn [bind operations]. rewrite scan_operations_pruned.
  destruct (scan_operations default_engine for_table_name engine
                            (operations m)) as [[d|] | e |];
    cbn [bind]; try reflexivity.
  destruct (node_map graph node) as [entry|]; [|reflexivity].
  cbn [bind]. apply IH.
Qed.

(** X4. The walk stays inside the application: the parents that belong
    to other applications can be removed from every node without changing
    the result. *)
Theorem walker_ignores_other_applications :
  forall (fuel : nat) (default_engine : string) (graph : MigrationGraph)
         (app for_table_name engine : string),
    get_previous_view_definition_state fuel default_engine
      (restrict_graph app graph) app for_table_name engine
    = get_previous_view_definition_state fuel default_engine graph app
        for_table_name engine.
Proof.
  intros fuel default_engine graph app for_table_name engine.
  unfold get_previous_view_definition_state.
  change (leaf_nodes (restrict_graph app graph) app)
    with (leaf_nodes graph app).
  generalize (hd_error (leaf_nodes graph app)). intros last_node.
  revert last_node. induction fuel as [|fuel IH]; intros [node|];
    try reflexivity.
  cbn [walk restrict_graph nodes node_map].
  destruct (nodes graph node) as [m|]; [|reflexivity].
  cbn [bind].
  destruct (scan_operations default_engine for_table_name engine
                            (operations m)) as [[d|] | e |];
    cbn [bind]; try reflexivity.
  destruct (node_map graph node) as [entry|]; [|reflexivity].
  cbn [bind parents]. unfold app_parents at 1. rewrite filter_idem.
  apply IH.
Qed.

(** The loop over the operations of a migration returns or fails the
    assertion. *)
Lemma scan_operations_outcome (default_engine for_table_name engine : string)
    (ops : list Operation) :
  (exists found,
      scan_operations default_engine for_table_name engine ops = Return found)
  \/ scan_operations default_engine for_table_name engine ops
     = Raise Py.AssertionError.
Proof.
  induction ops as [|op rest IH]; [left; now exists None|].
  destruct op; cbn [scan_operations]; try exact IH.
  - destruct (matches_view default_engine for_table_name engine code);
      [left; eexists; reflexivity | exact IH].
  - destruct (filter is_ViewRunPython database_operations)
      as [|view_operation others]; [exact IH|].
    destruct (List.length (view_operation :: others) <=? 1); [|now right].
    destruct (code_of view_operation) as [code|]; [|exact IH].
    destruct (matches_view default_engine for_table_name engine code);
      [left; eexists; reflexivity | exact IH].
Qed.

Lemma walk_raises (default_engine : string) (graph : MigrationGraph)
    (app for_table_name engine : string) :
  forall fuel last_node e,
    walk fuel default_engine graph app for_table_name engine last_node
    = Raise e ->
    e = Py.AssertionError \/ e = Py.KeyError.
Proof.
  induction fuel as [|fuel IH]; intros [node|] e; cbn [walk];
    try discriminate.
  destruct (nodes graph node) as [m|]; cbn [bind];
    [|intros [= <-]; now right].
  destruct (scan_operations_outcome default_engine for_table_name engine
              (operations m)) as [[found ->] | ->];
    cbn [bind]; [|intros [= <-]; now left].
  destruct found as [d|]; [discriminate|].
  destruct (node_map graph node) as [entry|]; cbn [bind];
    [apply IH | intros [= <-]; now right].
Qed.

Lemma walk_ends (default_engine : string) (graph : MigrationGraph)
    (app for_table_name engine : string) (rank : NodeKey -> nat) :
  ranked app graph rank ->
  forall fuel node,
    rank node < fuel ->
    walk fuel default_engine graph app for_table_name engine (Some node)
    <> Diverge.
Proof.
  intros Hrank. induction fuel as [|fuel IH]; intros node Hfuel; [lia|].
  cbn [walk].
  destruct (nodes graph node) as [m|]; [|discriminate].
  cbn [bind].
  destruct (scan_operations_outcome default_engine for_table_name engine
              (operations m)) as [[found ->] | ->];
    cbn [bind]; [|discriminate].
  destruct found as [d|]; [discriminate|].
  destruct (node_map graph node) as [entry|] eqn:He; [|discriminate].
  cbn [bind].
  destruct (last_item (app_parents app (parents entry))) as [p|] eqn:Hp.
  - apply IH. apply NodeOrder.next_node_greatest in Hp.
    destruct Hp as [Hin [Happ _]].
    pose proof (Hrank node entry p He Hin Happ). lia.
  - destruct fuel; discriminate.
Qed.

(** X5. On a graph whose same-application parent links carry no cycle
    (every such parent has a smaller rank than its child) the loop of
    [get_previous_view_definition_state] ends: with a bound above the rank
    of the leaf, the call returns a definition or raises. *)
Theorem walker_ends_on_acyclic_graph :
  forall (default_engine : string) (graph : MigrationGraph)
         (app for_table_name engine : string) (rank : NodeKey -> nat)
         (fuel : nat),
    ranked app graph rank ->
    (forall leaf, hd_error (leaf_nodes graph app) = Some leaf ->
                  rank leaf < fuel) ->
    (exists definition,
        get_previous_view_definition_state fuel default_engine graph app
          for_table_name engine = Return definition)
    \/ get_previous_view_definition_state fuel default_engine graph app
         for_table_name engine = Raise Py.AssertionError
    \/ get_previous_view_definition_state fuel default_engine graph app
         for_table_name engine = Raise Py.KeyError.
Proof.
  intros default_engine graph app for_table_name engine rank fuel Hrank Hleaf.
  unfold get_previous_view_definition_state.
  destruct (hd_error (leaf_nodes graph app)) as [leaf|].
  - pose proof (walk_ends default_engine graph app for_table_name engine
                  rank Hrank fuel leaf (Hleaf leaf eq_refl)) as Hends.
    pose proof (walk_raises default_engine graph app for_table_name engine
                  fuel (Some leaf)) as Hraises.
    destruct (walk fuel default_engine graph app for_table_name engine
                   (Some leaf)) as [d | e |].
    + left. now exists d.
    + right. destruct (Hraises e eq_refl) as [-> | ->]; auto.
    + contradiction.
  - left. exists ""%string. now destruct fuel.
Qed.

Lemma walker_ends_on_acyclic_graph_witness :
  ranked "reports" (linear_graph "reports" Examples.history_of_three)
         MoreExamples.rank_of_three
  /\ ((exists definition,
          get_previous_view_definition_state 3 Examples.postgresql
            (linear_graph "reports" Examples.history_of_three) "reports"
            "customer" Examples.postgresql = Return definition)
      \/ get_previous_view_definition_state 3 Examples.postgresql
           (linear_graph "reports" Examples.history_of_three) "reports"
           "customer" Examples.postgresql = Raise Py.AssertionError
      \/ get_previous_view_definition_state 3 Examples.postgresql
           (linear_graph "reports" Examples.history_of_three) "reports"
           "customer" Examples.postgresql = Raise Py.KeyError).
Proof.
  assert (Hranked : ranked "reports"
                      (linear_graph "reports" Examples.history_of_three)
                      MoreExamples.rank_of_three).
  { intros [a nm] e p Hn Hin Happ. cbn in Hn.
    destruct (String.eqb a "reports"); [|discriminate].
    unfold MoreExamples.rank_of_three. cbn [snd].
    destruct (String.eqb nm "0003_sales").
    - inversion Hn; subst e. destruct Hin as [<- | []]. cbn. lia.
    - destruct (String.eqb nm "0002_report").
      + inversion Hn; subst e. destruct Hin as [<- | []]. cbn. lia.
      + destruct (String.eqb nm "0001_initial"); [|discriminate].
        inversion Hn; subst e. destruct Hin. }
  split; [exact Hranked|].
  apply (walker_ends_on_acyclic_graph Examples.postgresql _ "reports"
           "customer" Examples.postgresql MoreExamples.rank_of_three 3
           Hranked).
  intros leaf Hleaf. cbn in Hleaf. inversion Hleaf. cbn. lia.
Defined.

(* ================================================================= *)
(** ** Further properties of the detector *)

Lemma split_once_some (sep : ascii) (s a b : string) :
  Py.split_once sep s = Some (a, b) ->
  s = (a ++ String sep b)%string /\ Py.mem_char sep a = false.
Proof.
  revert a b. induction s as [|c t IH]; simpl; intros a b; [discriminate|].
  destruct (Ascii.eqb c sep) eqn:E.
  - apply Ascii.eqb_eq in E. subst. intros [= <- <-]. now split.
  - destruct (Py.split_once sep t) as [[a' b']|]; [|discriminate].
    intros [= <- <-]. destruct (IH a' b' eq_refl) as [-> Hmem].
    split; [reflexivity|]. simpl.
    rewrite Ascii.eqb_sym, E. exact Hmem.
Qed.

Lemma split_once_join (sep : ascii) (a b : string) :
  Py.mem_char sep a = false ->
  Py.split_once sep (a ++ String sep b) = Some (a, b).
Proof.
  induction a as [|c t IH]; simpl.
  - intros _. now rewrite Ascii.eqb_refl.
  - intros Hmem. apply orb_false_iff in Hmem. destruct Hmem as [Hc Ht].
    rewrite Ascii.eqb_sym, Hc, (IH Ht). reflexivity.
Qed.

Lemma contains_char_join (sep : ascii) (a b : string) :
  Py.contains_char sep (a ++ String sep b) = true.
Proof.
  unfold Py.contains_char. induction a as [|c t IH]; simpl.
  - now rewrite Ascii.eqb_refl.
  - rewrite IH. apply orb_true_r.
Qed.

(** X6. The dependencies attached to a view pair are exactly the bases
    given as strings that contain a dot, each split at its first dot into
    an application label and a name and marked as a creation; bases given
    as classes and strings without a dot give none. *)
Theorem base_dependencies_split_references :
  forall (bases : list Base) (d : Dependency),
    In d (base_dependencies bases)
    <-> exists label name,
          d = (label, name, None, true)
          /\ In (BaseString (label ++ String "."%char name)) bases
          /\ Py.contains_char "."%char label = false.
Proof.
  intros bases d. induction bases as [|base rest IH]; simpl.
  - split; [intros [] | intros [label [name [_ [[] _]]]]].
  - destruct base as [reference|].
    + destruct (Py.contains_char "."%char reference) eqn:Hc.
      * destruct (Py.split_once "."%char reference) as [[a b]|] eqn:Hs.
        -- destruct (split_once_some _ _ _ _ Hs) as [Href Hmem].
           simpl. rewrite IH. split.
           ++ intros [<- | [label [name [Hd [Hin Hl]]]]].
              ** exists a, b. rewrite <- Href. auto.
              ** exists label, name. auto.
           ++ intros [label [name [Hd [[Heq | Hin] Hl]]]].
              ** left. inversion Heq as [Heq']. rewrite Heq' in Hs.
                 rewrite (split_once_join _ _ _ Hl) in Hs.
                 inversion Hs. now subst.
              ** right. exists label, name. auto.
        -- rewrite IH. split.
           ++ intros [label [name [Hd [Hin Hl]]]]. exists label, name. auto.
           ++ intros [label [name [Hd [[Heq | Hin] Hl]]]].
              ** inversion Heq as [Heq']. rewrite Heq' in Hs.
                 rewrite (split_once_join _ _ _ Hl) in Hs. discriminate.
              ** exists label, name. auto.
      * rewrite IH. split.
        -- intros [label [name [Hd [Hin Hl]]]]. exists label, name. auto.
        -- intros [label [name [Hd [[Heq | Hin] Hl]]]].
           ++ inversion Heq as [Heq']. rewrite Heq' in Hc.
              rewrite contains_char_join in Hc. discriminate.
           ++ exists label, name. auto.
    + rewrite IH. split.
      * intros [label [name [Hd [Hin Hl]]]]. exists label, name. auto.
      * intros [label [name [Hd [[Heq | Hin] Hl]]]]; [discriminate|].
        exists label, name. auto.
Qed.

Lemma dict_set_in (K V : Type) (eqb : K -> K -> bool)
    (eqb_eq : forall a b, eqb a b = true <-> a = b)
    (d : dict K V) (k k' : K) (v v' : V) :
  In (k', v') (dict_set eqb d k v) -> In (k', v') d \/ (k' = k /\ v' = v).
Proof.
  induction d as [|[k0 v0] rest IH]; simpl.
  - intros [[= <- <-] | []]. now right.
  - destruct (eqb k k0) eqn:E.
    + apply eqb_eq in E. subst k0.
      intros [[= <- <-] | Hin]; [now right | left; now right].
    + intros [Heq | Hin]; [left; now left|].
      destruct (IH Hin) as [H | H]; [left; now right | now right].
Qed.

Lemma for_each_invariant {A S : Type} (body : A -> S -> Outcome S)
    (P : S -> Prop) (items : list A) :
  (forall x st st', In x items -> body x st = Return st' -> P st -> P st') ->
  forall st st',
    for_each body items st = Return st' -> P st -> P st'.
Proof.
  induction items as [|x rest IH]; intros Hbody st st' Hrun Hst.
  - inversion Hrun. now subst.
  - cbn [for_each] in Hrun.
    destruct (body x st) as [st1 | e |] eqn:Hx; try discriminate.
    cbn [bind] in Hrun.
    apply (IH (fun y s s' Hy => Hbody y s s' (or_intror Hy)) st1 st' Hrun).
    apply (Hbody x st st1 (or_introl eq_refl) Hx Hst).
Qed.

(** X7. When [get_view_definition_from_model] returns a mapping, its
    engines are pairwise distinct and each definition is free of leading
    and trailing whitespace. *)
Theorem resolved_definitions_are_stripped :
  forall (default_engine : string) (declared : PyValue)
         (definitions : dict string string),
    snd (get_view_definition_from_model default_engine declared)
    = Return definitions ->
    NoDup (dict_keys definitions)
    /\ forall engine definition,
         In (engine, definition) definitions ->
         Py.strip definition = definition
         /\ is_space_opt (first_char definition) = false
         /\ is_space_opt (last_char definition) = false.
Proof.
  intros default_engine declared definitions Hrun.
  split; [now apply (get_view_definition_from_model_nodup _ _ _ Hrun)|].
  assert (Hstripped : forall engine definition,
             In (engine, definition) definitions ->
             exists s, definition = Py.strip s).
  { unfold get_view_definition_from_model in Hrun.
    assert (Hraw : forall raw,
               match raw with
               | PyDict items => for_each clean_item items []
               | _ => cleaned <- get_cleaned_view_definition_value raw ;;
                      Return (dict_set String.eqb [] default_engine cleaned)
               end = Return definitions ->
               forall engine definition,
                 In (engine, definition) definitions ->
                 exists s, definition = Py.strip s).
    { intros raw H. destruct raw; simpl in H; try discriminate.
      - inversion H; subst. intros engine definition [[= <- <-] | []].
        now exists s.
      - apply (for_each_invariant clean_item
                 (fun defs => forall engine definition,
                      In (engine, definition) defs ->
                      exists s, definition = Py.strip s)
                 items) with (st := []); [|exact H|intros ? ? []].
        intros [e v] st st' _ Hstep Hst engine definition Hin.
        unfold clean_item in Hstep. destruct v; simpl in Hstep;
          try discriminate.
        inversion Hstep; subst st'.
        destruct (dict_set_in _ _ _ String.eqb_eq _ _ _ _ _ Hin)
          as [Hold | [_ ->]]; [now apply (Hst engine) | now exists s]. }
    destruct declared; simpl in Hrun; try discriminate.
    - apply (Hraw (PyStr s) Hrun).
    - apply (Hraw (PyDict items) Hrun).
    - apply (Hraw declared Hrun). }
  intros engine definition Hin.
  destruct (Hstripped engine definition Hin) as [s ->].
  unfold Py.strip.
  destruct (PyFacts.strip_by_ends Py.isspace s) as [Hfirst Hlast].
  split; [apply PyFacts.strip_by_idem|]. split.
  - destruct (first_char _); [exact Hfirst | reflexivity].
  - destruct (last_char _); [exact Hlast | reflexivity].
Qed.

Lemma resolved_definitions_are_stripped_witness :
  Py.strip "SELECT 1" = "SELECT 1"%string.
Proof.
  destruct (resolved_definitions_are_stripped "django.db.backends.mysql"
              Examples.callable_mapping
              [(Examples.postgresql, "SELECT 1"%string);
               ("django.db.backends.sqlite3"%string, "SELECT 2"%string)]
              eq_refl) as [_ Hall].
  apply (Hall Examples.postgresql "SELECT 1"%string). now left.
Defined.

Lemma collect_registered (registry : DBViewsRegistry)
    (models : list ((string * string) * ModelClass)) :
  forall acc : dict (string * string) ModelClass,
    NoDup (dict_keys acc ++ map fst models) ->
    fold_left
      (fun view_models (x : (string * string) * ModelClass) =>
         if in_registry registry (db_table (snd x))
         then dict_set pair_eqb view_models (fst x) (snd x)
         else view_models)
      models acc
    = acc ++ filter (fun x => in_registry registry (db_table (snd x))) models.
Proof.
  induction models as [|[key cls] rest IH]; intros acc Hnd;
    cbn [fold_left filter map fst snd] in *.
  - now rewrite app_nil_r.
  - destruct (in_registry registry (db_table cls)).
    + rewrite dict_set_fresh.
      * rewrite IH; [now rewrite <- app_assoc|].
        unfold dict_keys in *. rewrite map_app, <- app_assoc. exact Hnd.
      * apply (dict_get_none _ _ _ pair_eqb_eq).
        apply NoDup_remove_2 in Hnd. intros Hin. apply Hnd.
        apply in_or_app. now left.
    + apply IH. now apply NoDup_remove_1 in Hnd.
Qed.

Lemma collect_by_application (registry : DBViewsRegistry)
    (all_models : AllModels) :
  forall acc : dict (string * string) ModelClass,
    fold_left
      (fun view_models (by_app : string * dict string ModelClass) =>
         fold_left
           (fun view_models (by_name : string * ModelClass) =>
              if in_registry registry (db_table (snd by_name))
              then dict_set pair_eqb view_models (fst by_app, fst by_name)
                            (snd by_name)
              else view_models)
           (snd by_app) view_models)
      all_models acc
    = fold_left
        (fun view_models (x : (string * string) * ModelClass) =>
           if in_registry registry (db_table (snd x))
           then dict_set pair_eqb view_models (fst x) (snd x)
           else view_models)
        (flatten_models all_models) acc.
Proof.
  induction all_models as [|[app models] rest IH]; intros acc; [reflexivity|].
  cbn [fold_left flatten_models flat_map fst snd].
  rewrite fold_left_app. fold (flatten_models rest). rewrite <- IH.
  f_equal. clear IH. revert acc.
  induction models as [|[name cls] more IHm]; intros acc; [reflexivity|].
  cbn [fold_left map fst snd]. apply IHm.
Qed.

(** X8. When the pairs [(app_label, model_name)] of [apps.all_models] are
    pairwise distinct, [get_current_view_models] returns the model classes
    whose table is in the registry, each under its pair, in the order of
    [apps.all_models], and no other class. *)
Theorem get_current_view_models_registered :
  forall (registry : DBViewsRegistry) (all_models : AllModels),
    NoDup (map fst (flatten_models all_models)) ->
    get_current_view_models registry all_models
    = filter (fun x => in_registry registry (db_table (snd x)))
             (flatten_models all_models).
Proof.
  intros registry all_models Hnd. unfold get_current_view_models.
  rewrite collect_by_application.
  now rewrite (collect_registered registry (flatten_models all_models) []).
Qed.

Lemma get_current_view_models_registered_witness :
  get_current_view_models ["report"%string]
    [("reports"%string,
      [("report"%string, Examples.report_model (PyStr "SELECT 1"));
       ("customer"%string,
        {| db_table := "customer"; model_base := None;
           declared_view_definition := PyNone |})])]
  = [(("reports"%string, "report"%string),
      Examples.report_model (PyStr "SELECT 1"))].
Proof.
  rewrite get_current_view_models_registered; [reflexivity|].
  cbn. repeat constructor; cbn; intuition discriminate.
Defined.

Lemma removed_views_none (registry : DBViewsRegistry) (state : ProjectState) :
  (forall key v,
      In (key, ViewModelState v) state ->
      exists a, view_attributes v = Some a
                /\ in_registry registry (state_table_name a) = true) ->
  removed_views registry state = [].
Proof.
  induction state as [|[key e] rest IH]; intros Hall; [reflexivity|].
  assert (Hrest : removed_views registry rest = []).
  { apply IH. intros k v Hin. apply (Hall k v). now right. }
  destruct e as [m | v]; cbn [removed_views]; [exact Hrest|].
  destruct (Hall key v (or_introl eq_refl)) as [a [-> ->]]. exact Hrest.
Qed.

(** X9. When every view entry of the previous snapshot carries its
    attributes and has its table in the registry, [delete_old_views]
    returns the generated operations as they were: nothing is dropped for
    a view that is still declared, and nothing for an ordinary model. *)
Theorem delete_old_views_keeps_declared_views :
  forall (env : Detection) (generated : GeneratedOperations),
    NoDup (dict_keys (from_state env)) ->
    (forall key v,
        In (key, ViewModelState v) (from_state env) ->
        exists a, view_attributes v = Some a
                  /\ in_registry (registry env) (state_table_name a) = true) ->
    delete_old_views env generated = Return generated.
Proof.
  intros env generated Hnd Hall. unfold delete_old_views.
  rewrite (get_previous_view_models_state_entries _ Hnd).
  rewrite delete_old_views_loop.
  - now rewrite (removed_views_none _ _ Hall).
  - intros key v Hin Hnone.
    destruct (Hall key v Hin) as [a [Ha _]]. congruence.
Qed.

Lemma delete_old_views_keeps_declared_views_witness :
  delete_old_views
    (Examples.detection PyNone ["sales"%string; "report"%string]) []
  = Return [].
Proof.
  apply delete_old_views_keeps_declared_views.
  - simpl. repeat constructor; simpl; intuition discriminate.
  - intros key v. simpl.
    intros [H | [H | [H | [H | []]]]]; inversion H; subst;
      eexists; split; reflexivity.
Defined.

Lemma matches_own_tags (default_engine table engine definition : string)
    (class : ViewMigrationClass) :
  engine <> ""%string ->
  matches_view default_engine table engine
    {| migration_class := class;
       view_definition := definition;
       table_name := table;
       view_engine := Some engine |} = true.
Proof.
  intros Hengine. unfold matches_view, _get_view_identifiers_from_operation.
  cbn. apply String.eqb_neq in Hengine. rewrite Hengine.
  now rewrite !String.eqb_refl.
Qed.

(** The walker reads back the forward definition of a recorded pair. *)
Lemma walker_reads_recorded_pair (default_engine : string)
    (graph : MigrationGraph) (app table engine previous latest : string)
    (base : BaseClass) (leaf : NodeKey) (leaves : list NodeKey)
    (m : Migration) (before rest : list Operation) (fuel : nat) :
  leaf_nodes graph app = leaf :: leaves ->
  nodes graph leaf = Some m ->
  operations m = before ++ create_pair base previous latest table engine
                        :: rest ->
  wrappers_ok before = true ->
  matching_definitions default_engine table engine before = [] ->
  engine <> ""%string ->
  0 < fuel ->
  get_previous_view_definition_state fuel default_engine graph app table
                                     engine
  = Return (Py.strip (Py.strip_chars ";" latest)).
Proof.
  intros Hleaf Hm Hops Hok Hnone Hengine Hfuel.
  unfold get_previous_view_definition_state. rewrite Hleaf. cbn [hd_error].
  destruct fuel as [|fuel]; [lia|]. cbn [walk]. rewrite Hm. cbn [bind].
  rewrite Hops, (scan_operations_skip _ _ _ _ _ Hok Hnone).
  unfold create_pair. cbn [scan_operations].
  rewrite (matches_own_tags _ _ _ _ _ Hengine). reflexivity.
Qed.

(** X10. Once the pair emitted for a definition is the first match of the
    leaf migration, the next pass compares the declared definition with
    the recorded text, which is the declared one without surrounding [;]
    and whitespace: it emits nothing when the two are equivalent, as they
    are whenever the declared definition has no surrounding [;] or
    whitespace, and otherwise emits again a pair with the forward text
    that is already recorded. *)
Theorem recorded_pair_is_compared_next_pass :
  forall (env : Detection) (graph : MigrationGraph) (app model : string)
         (view_model : ModelClass) (entry : StateEntry) (base : BaseClass)
         (engine latest previous : string) (leaf : NodeKey)
         (leaves : list NodeKey) (m : Migration)
         (before rest : list Operation) (generated : GeneratedOperations),
    leaf_nodes graph app = leaf :: leaves ->
    nodes graph leaf = Some m ->
    operations m
    = before ++ create_pair base previous latest (db_table view_model) engine
             :: rest ->
    wrappers_ok before = true ->
    matching_definitions (default_engine env) (db_table view_model) engine
                         before = [] ->
    engine <> ""%string ->
    0 < loop_bound env ->
    dict_get pair_eqb (to_state env) (app, model) = Some entry ->
    model_base view_model = Some base ->
    generate_view_operation env graph app model view_model (engine, latest)
                            generated
    = Return
        (if is_same_views (sqlparse_format env)
                          (Py.strip (Py.strip_chars ";" latest)) latest
         then generated
         else add_operation generated app
                (create_pair base (Py.strip (Py.strip_chars ";" latest))
                             latest (db_table view_model) engine)
                (base_dependencies (entry_bases entry)))
    /\ (Py.strip latest = latest ->
        Py.strip_chars ";" latest = latest ->
        generate_view_operation env graph app model view_model
                                (engine, latest) generated
        = Return generated).
Proof.
  intros env graph app model view_model entry base engine latest previous
         leaf leaves m before rest generated
         Hleaf Hm Hops Hok Hnone Hengine Hfuel Hentry Hbase.
  pose proof (walker_reads_recorded_pair (default_engine env) graph app
                (db_table view_model) engine previous latest base leaf
                leaves m before rest (loop_bound env)
                Hleaf Hm Hops Hok Hnone Hengine Hfuel) as Hwalk.
  pose proof (generate_view_operation_returns env graph app model view_model
                entry base engine latest _ generated Hentry Hbase Hwalk)
    as Hrun.
  split; [exact Hrun|].
  intros Hstripped Hclean. rewrite Hrun, Hclean, Hstripped.
  now rewrite is_same_views_refl.
Qed.

Lemma recorded_pair_is_compared_next_pass_witness :
  generate_view_operation
    (Examples.detection (PyStr "SELECT 1") ["report"%string])
    (MoreExamples.recorded "SELECT 1") "reports" "report"
    (Examples.report_model (PyStr "SELECT 1"))
    (Examples.postgresql, "SELECT 1"%string) []
  = Return [].
Proof.
  refine (proj2 (recorded_pair_is_compared_next_pass
                   (Examples.detection (PyStr "SELECT 1") ["report"%string])
                   (MoreExamples.recorded "SELECT 1") "reports" "report"
                   (Examples.report_model (PyStr "SELECT 1"))
                   (PlainModelState
                      {| app_label := "reports";
                         model_state_name := "Report";
                         bases := [BaseString "reports.Base";
                                   BaseClassObject] |})
                   DBView Examples.postgresql "SELECT 1"%string ""%string
                   ("reports"%string, "0002_report"%string) []
                   {| operations := [HostOperation "CreateModel";
                                     create_pair DBView "" "SELECT 1" "report"
                                                 Examples.postgresql] |}
                   [HostOperation "CreateModel"] [] []
                   eq_refl eq_refl eq_refl eq_refl eq_refl _ _
                   eq_refl eq_refl) eq_refl eq_refl).
  - discriminate.
  - cbn. lia.
Defined.

(* ----------------------------------------------------------------- *)
(** *** What the view passes record *)

Lemma tidy_add (generated : GeneratedOperations) (app : string)
    (operation : Operation) (dependencies : list Dependency) :
  tidy generated ->
  tidy_pair (operation, dependencies) = true ->
  tidy (add_operation generated app operation dependencies).
Proof.
  intros Htidy Hop app' ops g Hin Hg. unfold add_operation in Hin.
  destruct (dict_set_in _ _ _ String.eqb_eq _ _ _ _ _ Hin)
    as [Hold | [_ ->]]; [now apply (Htidy app' ops)|].
  apply in_app_or in Hg. destruct Hg as [Hg | [<- | []]]; [|exact Hop].
  destruct (dict_get String.eqb generated app) as [previous|] eqn:Hget;
    [|destruct Hg].
  apply (Htidy app previous); [|exact Hg].
  now apply (dict_get_in _ _ _ String.eqb_eq).
Qed.

Lemma not_semicolon_stripped (s : string) :
  not_semicolon (first_char (Py.strip_chars ";" s)) = true
  /\ not_semicolon (last_char (Py.strip_chars ";" s)) = true.
Proof.
  unfold Py.strip_chars.
  destruct (PyFacts.strip_by_ends (fun c => Py.mem_char c ";") s)
    as [Hfirst Hlast].
  split.
  - destruct (first_char _); [|reflexivity]. unfold not_semicolon, semicolon.
    now rewrite Hfirst.
  - destruct (last_char _); [|reflexivity]. unfold not_semicolon, semicolon.
    now rewrite Hlast.
Qed.

Lemma tidy_create_pair (base : BaseClass)
    (previous latest table engine : string) (dependencies : list Dependency) :
  tidy_pair (create_pair base previous latest table engine, dependencies)
  = true.
Proof.
  unfold tidy_pair, create_pair. cbn [fst view_definition negb andb].
  destruct (not_semicolon_stripped latest) as [-> ->].
  destruct (not_semicolon_stripped previous) as [-> ->]. reflexivity.
Qed.

Lemma generate_view_operation_tidy (env : Detection) (graph : MigrationGraph)
    (app model : string) (view_model : ModelClass) (item : string * string)
    (generated generated' : GeneratedOperations) :
  generate_view_operation env graph app model view_model item generated
  = Return generated' ->
  tidy generated -> tidy generated'.
Proof.
  destruct item as [engine latest]. unfold generate_view_operation.
  destruct (get_previous_view_definition_state _ _ _ _ _ _)
    as [current | e |]; cbn [bind]; try discriminate.
  destruct (is_same_views _ _ _); cbn [negb];
    [intros [= <-]; trivial|].
  destruct (dict_get pair_eqb (to_state env) (app, model)) as [entry|];
    cbn [bind]; try discriminate.
  destruct (model_base view_model) as [base|]; cbn; try discriminate.
  intros Hrun Htidy.
  assert (Hshape : generated'
                   = add_operation generated app
                       (create_pair base current latest (db_table view_model)
                                    engine)
                       (base_dependencies (entry_bases entry))).
  { destruct base; cbn in Hrun; inversion Hrun; reflexivity. }
  rewrite Hshape. apply tidy_add; [exact Htidy | apply tidy_create_pair].
Qed.

(** X11. The two view passes keep the generated operations tidy: if every
    view pair recorded so far is non-atomic with definitions that neither
    start nor end with [;], so is every one recorded after
    [generate_views_operations] and after [delete_old_views]. *)
Theorem view_passes_record_tidy_pairs :
  forall (env : Detection) (graph : MigrationGraph)
         (generated generated' : GeneratedOperations),
    tidy generated ->
    (generate_views_operations env graph generated = Return generated' ->
     tidy generated')
    /\ (delete_old_views env generated = Return generated' ->
        tidy generated').
Proof.
  intros env graph generated generated' Htidy. split; intros Hrun.
  - unfold generate_views_operations in Hrun.
    refine (for_each_invariant _ tidy _ _ generated generated' Hrun Htidy).
    intros [[app model] view_model] st st' _ Hmodel Hst.
    unfold generate_model_views_operations in Hmodel.
    destruct (snd (get_view_definition_from_model _ _))
      as [definitions | e |]; cbn [bind] in Hmodel; try discriminate.
    refine (for_each_invariant _ tidy _ _ st st' Hmodel Hst).
    intros item s s' _. apply generate_view_operation_tidy.
  - unfold delete_old_views in Hrun.
    refine (for_each_invariant _ tidy _ _ generated generated' Hrun Htidy).
    intros [[app name] v] st st' _ Hstep Hst. unfold delete_old_view in Hstep.
    destruct (view_attributes v) as [a|]; try discriminate.
    destruct (in_registry _ _); cbn [negb] in Hstep;
      [inversion Hstep; now subst|].
    destruct (state_base_class a); cbn in Hstep; inversion Hstep;
      apply tidy_add; trivial.
Qed.

Lemma view_passes_record_tidy_pairs_witness :
  tidy [("reports"%string,
         [(create_pair DBView "" "SELECT 1;" "report" Examples.postgresql,
           [("reports"%string, "Base"%string, None, true)])])].
Proof.
  refine (proj1 (view_passes_record_tidy_pairs
                   (Examples.detection (PyStr "SELECT 1;") ["report"%string])
                   Examples.no_history [] _ _) eq_refl).
  intros app ops g [].
Defined.

(* ----------------------------------------------------------------- *)
(** *** Statement terminators in the comparison *)

Lemma last_char_terminated (s : string) (c : ascii) :
  last_char (s ++ String c EmptyString) = Some c.
Proof.
  induction s as [|a t IH]; [reflexivity|].
  cbn [String.append last_char]. rewrite IH.
  now destruct (t ++ String c EmptyString)%string eqn:Ht; [destruct t|].
Qed.

(** The normal form keeps a terminator that the formatter leaves at the
    end of its output; a text whose normal form does not end in [;] is
    therefore not equivalent to it. *)
Lemma is_same_views_terminator (sqlparse_format : string -> string)
    (current latest body : string) :
  sqlparse_format latest = (body ++ ";")%string ->
  last_char (sql_normalize sqlparse_format current) <> Some ";"%char ->
  is_same_views sqlparse_format current latest = false.
Proof.
  intros Hlatest Hcurrent. unfold is_same_views.
  apply String.eqb_neq. intros Hsame. apply Hcurrent. rewrite Hsame.
  unfold sql_normalize, Py.strip. rewrite Hlatest.
  rewrite (PyFacts.strip_by_keeps _ _ _ isspace_semicolon).
  apply last_char_terminated.
Qed.

(** C2 (defect of the code). The comparison trims whitespace and never a
    statement terminator, whereas the pass records a definition without
    its surrounding [;]. So when the formatter leaves the [;] at the end
    of a declared definition, and none at the end of the text recorded
    for it, the declared definition is not equivalent to the text that
    was recorded for this very definition: with the recorded pair as the
    newest match of the history, the pass finds the view changed and
    emits a pair again, whose forward text is the one already recorded
    and whose backward text is that text too, less surrounding [;]. *)
Theorem is_same_views_keeps_terminator :
  forall (env : Detection) (graph : MigrationGraph) (app model : string)
         (view_model : ModelClass) (entry : StateEntry) (base : BaseClass)
         (engine latest previous body : string) (leaf : NodeKey)
         (leaves : list NodeKey) (m : Migration)
         (before rest : list Operation) (generated : GeneratedOperations),
    sqlparse_format env latest = (body ++ ";")%string ->
    last_char (sql_normalize (sqlparse_format env)
                             (Py.strip (Py.strip_chars ";" latest)))
    <> Some ";"%char ->
    leaf_nodes graph app = leaf :: leaves ->
    nodes graph leaf = Some m ->
    operations m
    = before ++ create_pair base previous latest (db_table view_model) engine
             :: rest ->
    wrappers_ok before = true ->
    matching_definitions (default_engine env) (db_table view_model) engine
                         before = [] ->
    engine <> ""%string ->
    0 < loop_bound env ->
    dict_get pair_eqb (to_state env) (app, model) = Some entry ->
    model_base view_model = Some base ->
    get_previous_view_definition_state (loop_bound env) (default_engine env)
      graph app (db_table view_model) engine
    = Return (Py.strip (Py.strip_chars ";" latest))
    /\ is_same_views (sqlparse_format env)
                     (Py.strip (Py.strip_chars ";" latest)) latest = false
    /\ generate_view_operation env graph app model view_model
         (engine, latest) generated
       = Return (add_operation generated app
                   (ViewRunPython
                      {| migration_class := forward_class_of base;
                         view_definition := Py.strip_chars ";" latest;
                         table_name := db_table view_model;
                         view_engine := Some engine |}
                      {| migration_class := backward_class_of base;
                         view_definition :=
                           Py.strip_chars ";"
                             (Py.strip (Py.strip_chars ";" latest));
                         table_name := db_table view_model;
                         view_engine := Some engine |}
                      false)
                   (base_dependencies (entry_bases entry))).
Proof.
  intros env graph app model view_model entry base engine latest previous
         body leaf leaves m before rest generated
         Hformat Hrecorded Hleaf Hm Hops Hok Hnone Hengine Hfuel Hentry Hbase.
  pose proof (walker_reads_recorded_pair (default_engine env) graph app
                (db_table view_model) engine previous latest base leaf leaves
                m before rest (loop_bound env)
                Hleaf Hm Hops Hok Hnone Hengine Hfuel) as Hwalk.
  pose proof (is_same_views_terminator (sqlparse_format env) _ latest body
                Hformat Hrecorded) as Hdiffers.
  split; [exact Hwalk|]. split; [exact Hdiffers|].
  rewrite (generate_view_operation_returns env graph app model view_model
             entry base engine latest _ generated Hentry Hbase Hwalk).
  rewrite Hdiffers. reflexivity.
Qed.

Lemma is_same_views_keeps_terminator_witness :
  is_same_views Examples.verbatim "SELECT 1" "SELECT 1;" = false
  /\ generate_view_operation
       (Examples.detection (PyStr "SELECT 1;") ["report"%string])
       (MoreExamples.recorded "SELECT 1;") "reports" "report"
       (Examples.report_model (PyStr "SELECT 1;"))
       (Examples.postgresql, "SELECT 1;"%string) []
     = Return [("reports"%string,
                [(Examples.view_pair "SELECT 1" "SELECT 1" "report",
                  [("reports"%string, "Base"%string, None, true)])])].
Proof.
  refine (proj2 (is_same_views_keeps_terminator
                   (Examples.detection (PyStr "SELECT 1;") ["report"%string])
                   (MoreExamples.recorded "SELECT 1;") "reports" "report"
                   (Examples.report_model (PyStr "SELECT 1;"))
                   (PlainModelState
                      {| app_label := "reports";
                         model_state_name := "Report";
                         bases := [BaseString "reports.Base";
                                   BaseClassObject] |})
                   DBView Examples.postgresql "SELECT 1;"%string ""%string
                   "SELECT 1"%string
                   ("reports"%string, "0002_report"%string) []
                   {| operations := [HostOperation "CreateModel";
                                     create_pair DBView "" "SELECT 1;" "report"
                                                 Examples.postgresql] |}
                   [HostOperation "CreateModel"] [] []
                   eq_refl _ eq_refl eq_refl eq_refl eq_refl eq_refl _ _
                   eq_refl eq_refl)).
  - discriminate.
  - discriminate.
  - cbn. lia.
Defined.

(* ================================================================= *)
(** ** The comment executors *)

Lemma statements_app (l l' : list EditorEvent) :
  statements (l ++ l') = statements l ++ statements l'.
Proof.
  induction l as [|e rest IH]; [reflexivity|].
  destruct e; cbn [app statements]; now rewrite IH.
Qed.

Lemma host_columns_app (l l' : list EditorEvent) :
  host_columns (l ++ l') = host_columns l ++ host_columns l'.
Proof.
  induction l as [|e rest IH]; [reflexivity|].
  destruct e; cbn [app host_columns]; now rewrite IH.
Qed.

Lemma reset_connection_events (editor : SchemaEditor) :
  statements (events (reset_connection editor)) = statements (events editor)
  /\ host_columns (events (reset_connection editor))
     = host_columns (events editor)
  /\ add_field_replaced (reset_connection editor) = add_field_replaced editor
  /\ remove_field_replaced (reset_connection editor)
     = remove_field_replaced editor.
Proof.
  unfold reset_connection.
  destruct (connection_persists_old_columns (features editor)); cbn;
    rewrite ?statements_app, ?host_columns_app, ?app_nil_r; auto.
Qed.

Lemma executed_events (editor : SchemaEditor) (s : CommentStatement) :
  statements (events (reset_connection (record_event editor (Executed s))))
  = statements (events editor) ++ [s]
  /\ host_columns
       (events (reset_connection (record_event editor (Executed s))))
     = host_columns (events editor).
Proof.
  destruct (reset_connection_events (record_event editor (Executed s)))
    as [-> [-> _]].
  cbn. rewrite statements_app, host_columns_app. cbn.
  now rewrite app_nil_r.
Qed.

(** X12. Each of [add_field_comment], [remove_field_comment] and
    [_alter_field_comment] executes at most one statement and leaves the
    columns alone; none executes anything on a backend without comment
    support; adding or removing executes nothing for a field without
    comment, altering executes nothing when the comment is unchanged, and
    removing on a field without column type leaves the editor as it is,
    connection included. *)
Theorem comment_executors_are_guarded :
  forall (db_type : Field -> option string) (many_to_many : Field -> bool)
         (editor : SchemaEditor) (model : string) (f old_field : Field)
         (new_type : option string),
    let guarded (after : SchemaEditor) (idle : bool) :=
      exists issued,
        statements (events after) = statements (events editor) ++ issued
        /\ List.length issued <= 1
        /\ (supports_comments (features editor) = false -> issued = [])
        /\ (idle = true -> issued = [])
        /\ host_columns (events after) = host_columns (events editor) in
    guarded (add_field_comment editor model f) (negb (has_comment f))
    /\ guarded (remove_field_comment db_type editor model f)
               (negb (has_comment f))
    /\ guarded (_alter_field_comment many_to_many editor model old_field f
                                     new_type)
               (comment_eqb (db_comment old_field) (db_comment f))
    /\ (db_type f = None ->
        remove_field_comment db_type editor model f = editor).
Proof.
  intros db_type many_to_many editor model f old_field new_type guarded.
  assert (Hnone : forall idle, guarded (reset_connection editor) idle).
  { intros idle. exists []. destruct (reset_connection_events editor)
      as [-> [-> _]]. rewrite app_nil_r. repeat split; auto. }
  assert (Hsame : forall idle, guarded editor idle).
  { intros idle. exists []. rewrite app_nil_r. repeat split; auto. }
  assert (Hone : forall s idle,
             supports_comments (features editor) = true -> idle = false ->
             guarded (reset_connection (record_event editor (Executed s)))
                     idle).
  { intros s idle Hsupport Hidle. exists [s].
    destruct (executed_events editor s) as [-> ->].
    repeat split; auto; congruence. }
  split; [|split; [|split]].
  - unfold add_field_comment.
    destruct (has_comment f) eqn:Hc; cbn [andb negb]; [|apply Hnone].
    destruct (supports_comments (features editor)) eqn:Hs; cbn [andb];
      [|apply Hnone].
    destruct (supports_comments_inline (features editor)); cbn [negb];
      [apply Hnone | now apply Hone].
  - unfold remove_field_comment.
    destruct (db_type f); [|apply Hsame].
    destruct (has_comment f) eqn:Hc; cbn [andb negb]; [|apply Hnone].
    destruct (supports_comments (features editor)) eqn:Hs; cbn [andb];
      [|apply Hnone].
    destruct (supports_comments_inline (features editor)); cbn [negb];
      [apply Hnone | now apply Hone].
  - unfold _alter_field_comment.
    destruct (supports_comments (features editor)) eqn:Hs; cbn [andb];
      [|apply Hnone].
    destruct (many_to_many f); cbn [negb]; [apply Hnone|].
    destruct (comment_eqb (db_comment old_field) (db_comment f)) eqn:Hc;
      cbn [negb]; [apply Hnone | now apply Hone].
  - intros Htype. unfold remove_field_comment. now rewrite Htype.
Qed.

Lemma add_field_comment_keeps_replacement (editor : SchemaEditor)
    (model : string) (f : Field) :
  add_field_replaced (add_field_comment editor model f)
  = add_field_replaced editor
  /\ host_columns (events (add_field_comment editor model f))
     = host_columns (events editor).
Proof.
  unfold add_field_comment.
  destruct (has_comment f && supports_comments (features editor)
            && negb (supports_comments_inline (features editor))).
  - destruct (reset_connection_events
                (record_event editor
                   (Executed {| statement_model := model;
                                statement_field := f;
                                statement_type := None;
                                statement_comment := db_comment f |})))
      as [_ [-> [-> _]]].
    cbn. rewrite host_columns_app. cbn. now rewrite app_nil_r.
  - destruct (reset_connection_events editor) as [_ [-> [-> _]]]. auto.
Qed.

Lemma remove_field_comment_keeps_replacement
    (db_type : Field -> option string) (editor : SchemaEditor)
    (model : string) (f : Field) :
  remove_field_replaced (remove_field_comment db_type editor model f)
  = remove_field_replaced editor
  /\ host_columns (events (remove_field_comment db_type editor model f))
     = host_columns (events editor).
Proof.
  unfold remove_field_comment. destruct (db_type f); [|auto].
  destruct (has_comment f && supports_comments (features editor)
            && negb (supports_comments_inline (features editor))).
  - destruct (reset_connection_events
                (record_event editor
                   (Executed {| statement_model := model;
                                statement_field := f;
                                statement_type := None;
                                statement_comment := None |})))
      as [_ [-> [_ ->]]].
    cbn. rewrite host_columns_app. cbn. now rewrite app_nil_r.
  - destruct (reset_connection_events editor) as [_ [-> [_ ->]]]. auto.
Qed.

(** X13. [AddFieldComment.database_forwards] and
    [RemoveFieldComment.database_forwards] replace the editor's [add_field]
    and [remove_field] for good: every later call of the replaced method
    on the same editor runs the comment executor and adds or removes no
    column, whereas on an editor that no comment operation has touched the
    call is the host's and handles the column. *)
Theorem editor_methods_stay_replaced :
  forall (db_type : Field -> option string) (editor : SchemaEditor)
         (from_model model : string) (f later : Field),
    let added := AddFieldComment_database_forwards editor from_model f in
    let removed :=
      RemoveFieldComment_database_forwards db_type editor from_model f in
    (add_field_replaced added = true
     /\ editor_add_field added model later
        = add_field_comment added model later
     /\ host_columns (events (editor_add_field added model later))
        = host_columns (events editor))
    /\ (remove_field_replaced removed = true
        /\ editor_remove_field db_type removed model later
           = remove_field_comment db_type removed model later
        /\ host_columns
             (events (editor_remove_field db_type removed model later))
           = host_columns (events editor))
    /\ (add_field_replaced editor = false ->
        host_columns (events (editor_add_field editor model later))
        = host_columns (events editor) ++ [HostAddedColumn model later])
    /\ (remove_field_replaced editor = false ->
        host_columns (events (editor_remove_field db_type editor model later))
        = host_columns (events editor) ++ [HostRemovedColumn model later]).
Proof.
  intros db_type editor from_model model f later added removed.
  assert (Hadded : add_field_replaced added = true
                   /\ host_columns (events added)
                      = host_columns (events editor)).
  { unfold added, AddFieldComment_database_forwards, editor_add_field.
    cbn [add_field_replaced].
    destruct (add_field_comment_keeps_replacement
                {| features := features editor;
                   events := events editor;
                   add_field_replaced := true;
                   remove_field_replaced := remove_field_replaced editor |}
                from_model f) as [-> ->].
    split; reflexivity. }
  assert (Hremoved : remove_field_replaced removed = true
                     /\ host_columns (events removed)
                        = host_columns (events editor)).
  { unfold removed, RemoveFieldComment_database_forwards, editor_remove_field.
    cbn [remove_field_replaced].
    destruct (remove_field_comment_keeps_replacement db_type
                {| features := features editor;
                   events := events editor;
                   add_field_replaced := add_field_replaced editor;
                   remove_field_replaced := true |}
                from_model f) as [-> ->].
    split; reflexivity. }
  destruct Hadded as [Haflag Hacolumns].
  destruct Hremoved as [Hrflag Hrcolumns].
  split; [|split; [|split]].
  - assert (Hcall : editor_add_field added model later
                    = add_field_comment added model later).
    { unfold editor_add_field at 1. now rewrite Haflag. }
    split; [exact Haflag|]. split; [exact Hcall|]. rewrite Hcall.
    destruct (add_field_comment_keeps_replacement added model later)
      as [_ ->].
    exact Hacolumns.
  - assert (Hcall : editor_remove_field db_type removed model later
                    = remove_field_comment db_type removed model later).
    { unfold editor_remove_field at 1. now rewrite Hrflag. }
    split; [exact Hrflag|]. split; [exact Hcall|]. rewrite Hcall.
    destruct (remove_field_comment_keeps_replacement db_type removed model
                later) as [_ ->].
    exact Hrcolumns.
  - intros Hfree. unfold editor_add_field. rewrite Hfree. cbn.
    now rewrite host_columns_app.
  - intros Hfree. unfold editor_remove_field. rewrite Hfree. cbn.
    now rewrite host_columns_app.
Qed.

Lemma editor_methods_stay_replaced_witness :
  host_columns
    (events (editor_add_field MoreExamples.fresh_editor "Book"
               (Examples.title_field None)))
  = [HostAddedColumn "Book" (Examples.title_field None)]
  /\ host_columns
       (events (editor_add_field
                  (AddFieldComment_database_forwards MoreExamples.fresh_editor
                     "Book" (Examples.title_field (Some "Title")))
                  "Book" (Examples.title_field None)))
     = [].
Proof.
  destruct (editor_methods_stay_replaced
              MoreExamples.every_field_has_a_column MoreExamples.fresh_editor
              "Book" "Book" (Examples.title_field (Some "Title"))
              (Examples.title_field None))
    as [[_ [_ Hadded]] [_ [Hhost _]]].
  split; [exact (Hhost eq_refl) | exact Hadded].
Defined.

(* ================================================================= *)
(** ** Reduction and field lists *)

(** X14. [AddFieldComment.reduce] merges nothing but an
    [AlterFieldComment] on its own field: any other operation, and an
    [AlterFieldComment] on another field or model, is handed to the host's
    [AddField.reduce] as it is. *)
Theorem AddFieldComment_reduce_delegates :
  forall (super_reduce : FieldOperation -> Operation -> string -> Reduction)
         (self : FieldOperation) (operation : Operation) (app : string),
    (forall other preserve_default,
        operation = AlterFieldComment other preserve_default ->
        is_same_field_operation self other = false) ->
    AddFieldComment_reduce super_reduce self operation app
    = super_reduce self operation app.
Proof.
  intros super_reduce self operation app Hother.
  unfold AddFieldComment_reduce.
  destruct operation; cbn [as_FieldOperation]; try reflexivity;
    try (destruct (is_same_field_operation self f); reflexivity).
  now rewrite (Hother f preserve_default eq_refl).
Qed.

Lemma AddFieldComment_reduce_delegates_witness :
  AddFieldComment_reduce Examples.host_reduce Examples.add_title_comment
    (RemoveFieldComment Examples.alter_title_comment) "library"
  = Passes false.
Proof.
  rewrite AddFieldComment_reduce_delegates; [reflexivity|].
  intros other preserve_default H. discriminate H.
Defined.

Lemma unmanaged_keys_in (models : Declarations) (key : string * string) :
  NoDup (dict_keys models) ->
  (In key (unmanaged_keys models)
   <-> exists d, dict_get pair_eqb models key = Some d /\ managed d = false).
Proof.
  intros Hnd. unfold unmanaged_keys. rewrite in_map_iff. split.
  - intros [[k d] [<- Hin]]. apply filter_In in Hin. destruct Hin as [Hin Hm].
    exists d. split; [now apply (dict_in_get _ _ _ pair_eqb_eq)|].
    cbn in Hm. now destruct (managed d).
  - intros [d [Hget Hm]]. exists (key, d). split; [reflexivity|].
    apply filter_In. split; [now apply (dict_get_in _ _ _ pair_eqb_eq)|].
    cbn. now rewrite Hm.
Qed.

Lemma intersection_in (a b : list (string * string)) (key : string * string) :
  In key (intersection a b) <-> In key a /\ In key b.
Proof.
  unfold intersection. rewrite filter_In, existsb_exists. split.
  - intros [Ha [x [Hx Heq]]]. apply pair_eqb_eq in Heq. now subst.
  - intros [Ha Hb]. split; [exact Ha|]. exists key.
    split; [exact Hb | now apply pair_eqb_eq].
Qed.

Lemma field_keys_returns (models : Declarations)
    (name_of : string * string -> string) (keys : list (string * string)) :
  (forall key, In key keys ->
               dict_get pair_eqb models (fst key, name_of key) <> None) ->
  exists triples,
    field_keys models name_of keys = Return triples
    /\ forall app model field_name,
         In (app, model, field_name) triples
         <-> In (app, model) keys
             /\ exists d,
                  dict_get pair_eqb models (app, name_of (app, model))
                  = Some d
                  /\ In field_name (dict_keys (fields d)).
Proof.
  induction keys as [|[a m] rest IH]; intros Hbound.
  - exists []. split; [reflexivity|]. intros. cbn. tauto.
  - destruct (IH (fun k H => Hbound k (or_intror H))) as [more [Hrun Hin]].
    cbn [field_keys fst snd].
    destruct (dict_get pair_eqb models (a, name_of (a, m))) as [d|] eqn:Hd;
      [|exfalso; now apply (Hbound (a, m) (or_introl eq_refl))].
    cbn [bind]. rewrite Hrun. cbn [bind]. eexists. split; [reflexivity|].
    intros app model field_name. rewrite in_app_iff, in_map_iff, Hin.
    split.
    + intros [[n [[= <- <- <-] Hn]] | [Hk Hex]].
      * split; [now left|]. exists d. now split.
      * split; [now right | exact Hex].
    + intros [[[= <- <-] | Hk] [d' [Hd' Hn]]].
      * left. exists field_name. split; [reflexivity|]. congruence.
      * right. split; [exact Hk|]. exists d'. now split.
Qed.

(** X15. With no renamed model, the preparation and [_prepare_field_lists]
    return without [KeyError]; the kept model and proxy keys are empty, and
    a field key is in both [old_field_keys] and [new_field_keys] exactly
    when the model is in both snapshots, unmanaged in both, and has the
    field in both: fields of managed models are never compared. *)
Theorem field_lists_cover_unmanaged_models_only :
  forall (from_models to_models : Declarations),
    NoDup (dict_keys from_models) ->
    NoDup (dict_keys to_models) ->
    exists lists,
      _prepare_field_lists [] from_models to_models
        (_detect_changes_preparation_django_version_4_and_above
           from_models to_models)
      = Return lists
      /\ kept_model_keys lists = []
      /\ kept_proxy_keys lists = []
      /\ forall app model field_name,
           (In (app, model, field_name) (old_field_keys lists)
            /\ In (app, model, field_name) (new_field_keys lists))
           <-> exists old new,
                 dict_get pair_eqb from_models (app, model) = Some old
                 /\ dict_get pair_eqb to_models (app, model) = Some new
                 /\ managed old = false /\ managed new = false
                 /\ In field_name (dict_keys (fields old))
                 /\ In field_name (dict_keys (fields new)).
Proof.
  intros from_models to_models Hfrom Hto.
  unfold _prepare_field_lists,
    _detect_changes_preparation_django_version_4_and_above.
  cbn [old_unmanaged_keys new_unmanaged_keys old_model_keys new_model_keys
       old_proxy_keys new_proxy_keys].
  set (kept := intersection (unmanaged_keys from_models)
                            (unmanaged_keys to_models)).
  assert (Hkept : forall key,
             In key kept
             <-> (exists d, dict_get pair_eqb from_models key = Some d
                            /\ managed d = false)
                 /\ (exists d, dict_get pair_eqb to_models key = Some d
                               /\ managed d = false)).
  { intros key. unfold kept.
    now rewrite intersection_in, (unmanaged_keys_in _ _ Hfrom),
      (unmanaged_keys_in _ _ Hto). }
  destruct (field_keys_returns from_models (renamed_or_same []) kept)
    as [old_fields [Hold Hold_in]].
  { intros [a m] Hin. apply Hkept in Hin. destruct Hin as [[d [Hd _]] _].
    cbn. congruence. }
  destruct (field_keys_returns to_models snd kept)
    as [new_fields [Hnew Hnew_in]].
  { intros [a m] Hin. apply Hkept in Hin. destruct Hin as [_ [d [Hd _]]].
    cbn. congruence. }
  rewrite Hold. cbn [bind]. rewrite Hnew. cbn [bind].
  eexists. split; [reflexivity|]. split; [reflexivity|].
  split; [reflexivity|].
  intros app model field_name.
  cbn [old_field_keys new_field_keys]. rewrite Hold_in, Hnew_in.
  cbn [renamed_or_same dict_get snd]. split.
  - intros [[Hk [old [Hgo Hno]]] [_ [new [Hgn Hnn]]]].
    apply Hkept in Hk. destruct Hk as [[d [Hd Hm]] [d' [Hd' Hm']]].
    exists old, new. repeat split; congruence.
  - intros [old [new [Hgo [Hgn [Hmo [Hmn [Hno Hnn]]]]]]].
    assert (Hk : In (app, model) kept).
    { apply Hkept. split; [exists old | exists new]; now split. }
    split; (split; [exact Hk|]); [exists old | exists new]; now split.
Qed.

Lemma field_lists_cover_unmanaged_models_only_witness :
  exists lists,
    _prepare_field_lists [] MoreExamples.declared_before
      MoreExamples.declared_after
      (_detect_changes_preparation_django_version_4_and_above
         MoreExamples.declared_before MoreExamples.declared_after)
    = Return lists
    /\ In ("reports"%string, "report"%string, "title"%string)
          (old_field_keys lists)
    /\ ~ In ("reports"%string, "customer"%string, "name"%string)
            (new_field_keys lists).
Proof.
  assert (Hbefore : NoDup (dict_keys MoreExamples.declared_before)).
  { cbn. repeat constructor; cbn; intuition discriminate. }
  assert (Hafter : NoDup (dict_keys MoreExamples.declared_after)).
  { cbn. repeat constructor; cbn; intuition discriminate. }
  destruct (field_lists_cover_unmanaged_models_only
              MoreExamples.declared_before MoreExamples.declared_after
              Hbefore Hafter) as [lists [Hrun [_ [_ Hin]]]].
  exists lists. split; [exact Hrun|]. split.
  - apply (Hin "reports"%string "report"%string "title"%string).
    eexists. eexists. repeat split; try reflexivity; cbn; auto.
  - cbn in Hrun. inversion Hrun. cbn. intuition discriminate.
Defined.

(* ================================================================= *)
(** ** What the view passes leave in place *)

Lemma extends_refl (generated : GeneratedOperations) :
  extends generated generated.
Proof. intros app. exists []. now rewrite app_nil_r. Qed.

Lemma extends_add (before generated : GeneratedOperations) (app : string)
    (operation : Operation) (dependencies : list Dependency) :
  extends before generated ->
  extends before (add_operation generated app operation dependencies).
Proof.
  intros Hext app'. destruct (Hext app') as [added Hadded].
  rewrite operations_of_add, Hadded.
  destruct (String.eqb app' app).
  - exists (added ++ [(operation, dependencies)]). now rewrite app_assoc.
  - now exists added.
Qed.

Lemma generate_view_operation_shape (env : Detection) (graph : MigrationGraph)
    (app model : string) (view_model : ModelClass) (item : string * string)
    (generated generated' : GeneratedOperations) :
  generate_view_operation env graph app model view_model item generated
  = Return generated' ->
  generated' = generated
  \/ exists operation dependencies,
       generated' = add_operation generated app operation dependencies.
Proof.
  destruct item as [engine latest]. unfold generate_view_operation.
  destruct (get_previous_view_definition_state _ _ _ _ _ _)
    as [current | e |]; cbn [bind]; try discriminate.
  destruct (is_same_views _ _ _); cbn [negb];
    [intros [= <-]; now left|].
  destruct (dict_get pair_eqb (to_state env) (app, model)) as [entry|];
    cbn [bind]; try discriminate.
  destruct (model_base view_model) as [[|]|]; cbn; try discriminate;
    intros [= <-]; right; eexists; eexists; reflexivity.
Qed.

Lemma delete_old_view_shape (env : Detection)
    (item : (string * string) * DBViewModelState)
    (generated generated' : GeneratedOperations) :
  delete_old_view env item generated = Return generated' ->
  generated' = generated
  \/ exists operation dependencies,
       generated' = add_operation generated (fst (fst item)) operation
                                  dependencies.
Proof.
  destruct item as [[app name] v]. unfold delete_old_view.
  destruct (view_attributes v) as [a|]; try discriminate.
  destruct (in_registry _ _); cbn [negb]; [intros [= <-]; now left|].
  destruct (state_base_class a); cbn; intros [= <-]; right;
    eexists; eexists; reflexivity.
Qed.

(** X16. The two view passes only append: when
    [generate_views_operations] or [delete_old_views] returns, the
    operations that were generated before are still there, for every
    application, in the same order and before anything the pass added. *)
Theorem view_passes_only_append :
  forall (env : Detection) (graph : MigrationGraph)
         (generated generated' : GeneratedOperations),
    (generate_views_operations env graph generated = Return generated' ->
     extends generated generated')
    /\ (delete_old_views env generated = Return generated' ->
        extends generated generated').
Proof.
  intros env graph generated generated'. split; intros Hrun.
  - unfold generate_views_operations in Hrun.
    refine (for_each_invariant _ (extends generated) _ _ generated generated'
              Hrun (extends_refl generated)).
    intros [[app model] view_model] st st' _ Hmodel Hst.
    unfold generate_model_views_operations in Hmodel.
    destruct (snd (get_view_definition_from_model _ _))
      as [definitions | e |]; cbn [bind] in Hmodel; try discriminate.
    refine (for_each_invariant _ (extends generated) _ _ st st' Hmodel Hst).
    intros item s s' _ Hstep Hs.
    destruct (generate_view_operation_shape _ _ _ _ _ _ _ _ Hstep)
      as [-> | [operation [dependencies ->]]];
      [exact Hs | now apply extends_add].
  - unfold delete_old_views in Hrun.
    refine (for_each_invariant _ (extends generated) _ _ generated generated'
              Hrun (extends_refl generated)).
    intros item st st' _ Hstep Hst.
    destruct (delete_old_view_shape _ _ _ _ Hstep)
      as [-> | [operation [dependencies ->]]];
      [exact Hst | now apply extends_add].
Qed.

Lemma view_passes_only_append_witness :
  extends [("library"%string, [(HostOperation "CreateModel", [])])]
          [("library"%string, [(HostOperation "CreateModel", [])]);
           ("reports"%string,
            [(create_pair DBView "" "SELECT 1" "report" Examples.postgresql,
              [("reports"%string, "Base"%string, None, true)])])].
Proof.
  exact (proj1 (view_passes_only_append
                  (Examples.detection (PyStr "SELECT 1") ["report"%string])
                  Examples.no_history
                  [("library"%string, [(HostOperation "CreateModel", [])])]
                  _) eq_refl).
Defined.
